(** * ArArPy: 40Ar/39Ar age calculation (ararpy/arar.py, constants.py)

    A shallow embedding of the calculation module of ArArPy and of the
    constants class it instantiates, with the properties of its
    specification stated and proved over it.

    Numbers.  Python floats (and the ints mixed with them) are modelled
    as real numbers; a division whose divisor is zero raises
    [ZeroDivisionError] as in Python, and [math.log] of a non-positive
    number raises [ValueError].  The exponential is the one operation
    whose floating-point behaviour the results of the module depend on
    beyond their last digits: [math.exp] raises [OverflowError] above the
    range of the floats, and [exp(x) - 1] and [1 - exp(-x)] cancel for a
    small [x].  It is therefore not taken as the real exponential: the
    function of the C library is a parameter [libm_exp] of the definitions
    that call it, and the properties say what they need of it.

    Uncertain quantities.  The [uncertainties] package represents a
    quantity by its nominal value and its derivatives with respect to the
    independent [Variable] objects it was computed from; a standard
    deviation is obtained, when asked for, from the current standard
    deviations of these variables.  Variables are mutable objects: they
    live in a heap, and a quantity refers to them by location. *)

From Stdlib Require Import Reals Lra Lia Ascii String.
From stdpp Require Import base option list strings gmap fin_maps.

Local Open Scope R_scope.

(** ** The heap of [Variable] objects *)

Abbreviation loc := nat.

(** The class [uncertainties.Variable]: an independent quantity whose
    [std_dev] attribute can be assigned. *)
Record UVariable := mkVariable {
  var_nominal_value : R;
  var_std_dev : R
}.

#[global] Instance UVariable_inhabited : Inhabited UVariable :=
  populate (mkVariable 0 0).

Abbreviation heap := (list UVariable).

#[global] Instance R_eq_dec : EqDecision R := Req_dec_T.

(** ** Exceptions and the computation monad *)

Inductive exn :=
| ZeroDivisionError
| ValueError
| TypeError
| AttributeError
| OverflowError
| UnboundLocalError
| NegativeStdDev.

#[global] Instance exn_eq_dec : EqDecision exn.
Proof. solve_decision. Defined.

Inductive outcome (A : Type) :=
| Ok (a : A) (h : heap)
| Raise (e : exn) (h : heap).
Arguments Ok {A} a h.
Arguments Raise {A} e h.

Definition M (A : Type) := heap -> outcome A.

Definition ret {A} (a : A) : M A := fun h => Ok a h.

Definition bind {A B} (m : M A) (k : A -> M B) : M B :=
  fun h => match m h with
           | Ok a h' => k a h'
           | Raise e h' => Raise e h'
           end.

Definition raise {A} (e : exn) : M A := fun h => Raise e h.

(** [try: m  except E: handler], where [catches] tells which exceptions
    the [except] clause names. *)
Definition try_except {A} (m : M A) (catches : exn -> bool) (handler : M A) : M A :=
  fun h => match m h with
           | Ok a h' => Ok a h'
           | Raise e h' => if catches e then handler h' else Raise e h'
           end.

Declare Scope py_scope.
Delimit Scope py_scope with py.
Notation "'do' x <- m ; k" := (bind m (fun x => k))
  (at level 10, x name, m at level 100, k at level 200,
   format "'[v' 'do'  x  <-  m ; '/' k ']'") : py_scope.
Notation "'do' ' p <- m ; k" := (bind m (fun x => let 'p := x in k))
  (at level 10, p strict pattern, m at level 100, k at level 200,
   format "'[v' 'do'  ' p  <-  m ; '/' k ']'") : py_scope.
Notation "m ;; k" := (bind m (fun _ => k))
  (at level 100, k at level 200, right associativity) : py_scope.
Local Open Scope py_scope.

Definition get_heap : M heap := fun h => Ok h h.

(** A new object is appended to the heap; its location is its index. *)
Definition alloc (v : UVariable) : M loc := fun h => Ok (length h) (h ++ [v]).

(** [for _ in range(n): s = body(s)] *)
Fixpoint for_range {S : Type} (n : nat) (body : S -> M S) (s : S) : M S :=
  match n with
  | O => ret s
  | S n' => do s' <- body s; for_range n' body s'
  end.

(** A list comprehension whose element expression may raise. *)
Fixpoint comprehension {A B : Type} (f : A -> M B) (xs : list A) : M (list B) :=
  match xs with
  | [] => ret []
  | x :: r => do y <- f x; do ys <- comprehension f r; ret (y :: ys)
  end.

(** ** Uncertain quantities *)

Record UFloat := mkUFloat {
  nominal_value : R;
  derivatives : loc -> R
}.

(** A plain number, used where Python mixes a float or an int with an
    uncertain quantity. *)
Definition uconst (x : R) : UFloat := mkUFloat x (fun _ => 0).

(** The quantity denoted by a [Variable] object: it depends on itself
    alone. *)
Definition of_variable (x : R) (l : loc) : UFloat :=
  mkUFloat x (fun l' => if Nat.eqb l' l then 1 else 0).

Definition var_at (h : heap) (l : loc) : UFloat :=
  of_variable (var_nominal_value (h !!! l)) l.

(** Python's [sum]: a left fold that starts from 0. *)
Definition py_sum (xs : list R) : R := fold_left Rplus xs 0.

(** [x.std_dev]: the variables' current standard deviations, weighted by
    the derivatives, added in quadrature. *)
Definition variance (h : heap) (x : UFloat) : R :=
  py_sum (imap (fun l v => (derivatives x l * var_std_dev v) ^ 2) h).

Definition std_dev (x : UFloat) : M R := fun h => Ok (sqrt (variance h x)) h.

(** [ufloat(nominal_value, std_dev)] creates a [Variable]; the setter of
    [std_dev] refuses a negative value. *)
Definition set_std_dev (l : loc) (s : R) : M unit :=
  if Rlt_dec s 0 then raise NegativeStdDev
  else fun h => Ok tt (alter (fun v => mkVariable (var_nominal_value v) s) l h).

Definition ufloat (x s : R) : M UFloat :=
  if Rlt_dec s 0 then raise NegativeStdDev
  else do l <- alloc (mkVariable x s); ret (of_variable x l).

Definition uadd (x y : UFloat) : UFloat :=
  mkUFloat (nominal_value x + nominal_value y)
           (fun l => derivatives x l + derivatives y l).

Definition usub (x y : UFloat) : UFloat :=
  mkUFloat (nominal_value x - nominal_value y)
           (fun l => derivatives x l - derivatives y l).

Definition umul (x y : UFloat) : UFloat :=
  mkUFloat (nominal_value x * nominal_value y)
           (fun l => nominal_value y * derivatives x l
                     + nominal_value x * derivatives y l).

Definition udiv (x y : UFloat) : M UFloat :=
  if decide (nominal_value y = 0) then raise ZeroDivisionError
  else ret (mkUFloat (nominal_value x / nominal_value y)
                     (fun l => derivatives x l / nominal_value y
                               - nominal_value x * derivatives y l
                                 / (nominal_value y * nominal_value y))).

(** [x ** -1] *)
Definition upow_neg1 (x : UFloat) : M UFloat :=
  if decide (nominal_value x = 0) then raise ZeroDivisionError
  else ret (mkUFloat (/ nominal_value x)
                     (fun l => - derivatives x l / (nominal_value x * nominal_value x))).

(** [math.exp]: the largest float whose exponential is a float is
    709.782712893384 (the logarithm of the largest float); above it the
    function raises [OverflowError].  Below it the value is what the C
    library computes, [libm_exp]. *)
Definition exp_overflow : R := 709.782712893384.

Definition math_exp (libm_exp : R -> R) (x : R) : M R :=
  if Rlt_dec exp_overflow x then raise OverflowError else ret (libm_exp x).

(** [umath.exp] and [umath.log]: the derivative of the exponential is the
    exponential, computed by [math.exp] as well. *)
Definition uexp (libm_exp : R -> R) (x : UFloat) : M UFloat :=
  do e <- math_exp libm_exp (nominal_value x);
  ret (mkUFloat e (fun l => e * derivatives x l)).

Definition ulog (x : UFloat) : M UFloat :=
  if Rle_dec (nominal_value x) 0 then raise ValueError
  else ret (mkUFloat (ln (nominal_value x))
                     (fun l => derivatives x l / nominal_value x)).

(** [x > y] on uncertain quantities compares the nominal values; [max(x, y)]
    returns [y] only when [y > x]. *)
Definition py_max (x y : UFloat) : UFloat :=
  if Rgt_dec (nominal_value y) (nominal_value x) then y else x.

(** [x.__copy__()] on a [Variable]: a new, independent [Variable] with the
    same nominal value and standard deviation. *)
Definition variable_copy (l : loc) : M loc :=
  do h <- get_heap; alloc (h !!! l).

(** [deepcopy(x)]: the copy depends on fresh copies of the variables
    instead of the variables themselves.  Every variable [l] of the heap
    gets its copy at [length h + l]; the copies of variables on which [x]
    does not depend are referred to by nothing. *)
Definition deepcopy (x : UFloat) : M UFloat :=
  fun h =>
    Ok (mkUFloat (nominal_value x)
                 (fun l => if decide (length h <= l < length h + length h)%nat
                           then derivatives x (l - length h)%nat else 0))
       (h ++ h).

(** ** Python values

    The arguments that the module inspects with [isinstance], and the
    attributes of the constants object, are dynamically typed. *)

#[warnings="-register-all"]
Inductive PyVal :=
| PyNone
| PyBool (b : bool)
| PyFloat (x : R)
| PyStr (s : string)
| PyTuple (xs : list PyVal)
| PyList (xs : list PyVal)
| PyUFloat (u : UFloat).

(** [x.nominal_value] and [x.std_dev]: only uncertain quantities have
    these attributes. *)
Definition py_nominal_value (v : PyVal) : M R :=
  match v with
  | PyUFloat u => ret (nominal_value u)
  | _ => raise AttributeError
  end.

Definition py_std_dev (v : PyVal) : M R :=
  match v with
  | PyUFloat u => std_dev u
  | _ => raise AttributeError
  end.

(** A number as an operand of uncertain arithmetic; [bool] is a subtype
    of [int]. *)
Definition as_number (v : PyVal) : M UFloat :=
  match v with
  | PyFloat x => ret (uconst x)
  | PyBool b => ret (uconst (if b then 1 else 0))
  | PyUFloat u => ret u
  | _ => raise TypeError
  end.

(** The result of a binary operation is a float when both operands are
    plain numbers and an uncertain quantity when one of them is.  A
    sequence or [None] as operand of [*] and [+] with a number ends in
    [TypeError] (a sequence repeated by an int is a sequence again, and
    the addition of a number to it is what raises). *)
Definition is_plain (v : PyVal) : bool :=
  match v with
  | PyFloat _ | PyBool _ => true
  | _ => false
  end.

Definition py_result (a b : PyVal) (u : UFloat) : PyVal :=
  if is_plain a && is_plain b then PyFloat (nominal_value u) else PyUFloat u.

Definition py_binop (op : UFloat -> UFloat -> M UFloat) (a b : PyVal) : M PyVal :=
  do x <- as_number a;
  do y <- as_number b;
  do u <- op x y;
  ret (py_result a b u).

Definition py_add := py_binop (fun x y => ret (uadd x y)).
Definition py_sub := py_binop (fun x y => ret (usub x y)).
Definition py_mul := py_binop (fun x y => ret (umul x y)).
Definition py_div := py_binop udiv.

Definition py_unop (op : UFloat -> M UFloat) (a : PyVal) : M PyVal :=
  do x <- as_number a;
  do u <- op x;
  ret (py_result a a u).

Definition py_pow_neg1 := py_unop upow_neg1.
Definition umath_exp (libm_exp : R -> R) := py_unop (uexp libm_exp).
Definition umath_log := py_unop ulog.

(** [float(v)] *)
Definition py_float (v : PyVal) : M R :=
  match v with
  | PyFloat x => ret x
  | PyBool b => ret (if b then 1 else 0)
  | _ => raise TypeError
  end.

(** Truth value, as [not v] and [if v] take it.  An uncertain quantity is
    false when it equals zero, nominal value and standard deviation. *)
Definition py_truth (v : PyVal) : M bool :=
  match v with
  | PyNone => ret false
  | PyBool b => ret b
  | PyFloat x => ret (bool_decide (x <> 0))
  | PyStr s => ret (bool_decide (s <> ""%string))
  | PyTuple xs | PyList xs => ret (bool_decide (xs <> []))
  | PyUFloat u =>
      do s <- std_dev u;
      ret (bool_decide (nominal_value u <> 0) || bool_decide (s <> 0))
  end.

(** [s.lower()] *)
Definition lower_ascii (c : ascii) : ascii :=
  let n := nat_of_ascii c in
  if (65 <=? n)%nat && (n <=? 90)%nat then ascii_of_nat (n + 32) else c.

Fixpoint lower (s : string) : string :=
  match s with
  | EmptyString => EmptyString
  | String c r => String (lower_ascii c) (lower r)
  end.

Definition py_lower (v : PyVal) : M string :=
  match v with
  | PyStr s => ret (lower s)
  | _ => raise AttributeError
  end.

(** [a, b = v]: a tuple or list of two items unpacks; a number is not
    iterable. *)
Definition unpack2 (v : PyVal) : M (PyVal * PyVal) :=
  match v with
  | PyTuple [a; b] | PyList [a; b] => ret (a, b)
  | PyTuple _ | PyList _ => raise ValueError
  | PyStr (String a (String b EmptyString)) =>
      ret (PyStr (String a EmptyString), PyStr (String b EmptyString))
  | PyStr _ => raise ValueError
  | _ => raise TypeError
  end.

(** The items that iterating over a value gives. *)
Definition py_iter (v : PyVal) : M (list PyVal) :=
  match v with
  | PyTuple xs | PyList xs => ret xs
  | PyStr s =>
      ret (map (fun c => PyStr (String c EmptyString)) (list_ascii_of_string s))
  | _ => raise TypeError
  end.

(** [a, b, c, d, e = v] *)
Definition unpack5 (v : PyVal) : M (PyVal * PyVal * PyVal * PyVal * PyVal) :=
  do xs <- py_iter v;
  match xs with
  | [a; b; c; d; e] => ret (a, b, c, d, e)
  | _ => raise ValueError
  end.

(** [v.name] on a value that is not the constants object. *)
Definition py_getattr (v : PyVal) (name : string) : M PyVal :=
  match v, name with
  | PyUFloat u, "nominal_value"%string => ret (PyFloat (nominal_value u))
  | PyUFloat u, "std_dev"%string => do s <- std_dev u; ret (PyFloat s)
  | _, _ => raise AttributeError
  end.

(** ** constants.py: the class [ArArConstants] *)

Module ArArConstants.

(** The class attributes that hold plain numbers. *)
Definition class_dict : list (string * R) :=
  [ ("abundance_40K", 0.000117); ("mK", 39.0983); ("mO", 15.9994);
    ("lambda_b_v", 4.962e-10); ("lambda_b_e", 9.3e-13);
    ("lambda_e_v", 5.81e-11); ("lambda_e_e", 1.6e-13);
    ("lambda_Cl36_v", 6.308e-9); ("lambda_Cl36_e", 0);
    ("lambda_Ar37_v", 0.01975); ("lambda_Ar37_e", 0);
    ("lambda_Ar39_v", 7.068e-6); ("lambda_Ar39_e", 0);
    ("atm4036_v", 295.5); ("atm4036_e", 0.5);
    ("atm4038_v", 1575); ("atm4038_e", 2) ]%string.

Fixpoint assoc (name : string) (d : list (string * R)) : option R :=
  match d with
  | [] => None
  | (k, v) :: r => if String.eqb k name then Some v else assoc name r
  end.

Definition class_attribute (name : string) : M PyVal :=
  match assoc name class_dict with
  | Some x => ret (PyFloat x)
  | None => raise AttributeError
  end.

(** [ufloat(self.<v>, self.<e>)], the body of six of the properties. *)
Definition ufloat_property (v e : string) : M PyVal :=
  do x <- class_attribute v;
  do s <- class_attribute e;
  do x <- py_float x;
  do s <- py_float s;
  do u <- ufloat x s;
  ret (PyUFloat u).

(** The attributes that the bodies of [atm3836] and [lambda_k] read:
    a property that builds a [ufloat], or else a class attribute. *)
Definition getattr_of_self (name : string) : M PyVal :=
  match name with
  | "lambda_Cl36" => ufloat_property "lambda_Cl36_v" "lambda_Cl36_e"
  | "lambda_Ar37" => ufloat_property "lambda_Ar37_v" "lambda_Ar37_e"
  | "lambda_Ar39" => ufloat_property "lambda_Ar39_v" "lambda_Ar39_e"
  | "atm4036" => ufloat_property "atm4036_v" "atm4036_e"
  | "lambda_e" => ufloat_property "lambda_e_v" "lambda_e_e"
  | "lambda_b" => ufloat_property "lambda_b_v" "lambda_b_e"
  | _ => class_attribute name
  end%string.

(** Attribute access on an instance: the class has no [__init__] and no
    [__getattr__], so an instance has the properties and the class
    attributes and nothing else. *)
Definition getattr (name : string) : M PyVal :=
  match name with
  | "atm3836" =>
      (* return self.atm4036/self.atm4038 *)
      do a <- getattr_of_self "atm4036";
      do b <- getattr_of_self "atm4038";
      py_div a b
  | "lambda_k" =>
      (* return self.lambda_b+self.self.lambda_e *)
      do b <- getattr_of_self "lambda_b";
      do s <- getattr_of_self "self";
      do e <- py_getattr s "lambda_e";
      py_add b e
  | _ => getattr_of_self name
  end%string.

(** [constants()]: the class defines no [__call__]. *)
Definition call : M PyVal := raise TypeError.

End ArArConstants.

(** A constants object that has what the calculation reads: the
    configured constants that a caller passes in. *)
Record Constants := mkConstants {
  lambda_k : UFloat;
  lambda_Cl36 : UFloat;
  atm4036 : UFloat;
  atm3836 : UFloat;
  age_scalar : R;
  k3739_mode : string;
  fixed_k3739 : R;
  allow_negative_ca_correction : bool
}.

Inductive constants_object :=
| ArArConstants_instance          (* ArArConstants() *)
| Configured (c : Constants).

Definition getattr (o : constants_object) (name : string) : M PyVal :=
  match o with
  | ArArConstants_instance => ArArConstants.getattr name
  | Configured c =>
      match name with
      | "lambda_k" => ret (PyUFloat (lambda_k c))
      | "lambda_Cl36" => ret (PyUFloat (lambda_Cl36 c))
      | "atm4036" => ret (PyUFloat (atm4036 c))
      | "atm3836" => ret (PyUFloat (atm3836 c))
      | "age_scalar" => ret (PyFloat (age_scalar c))
      | "k3739_mode" => ret (PyStr (k3739_mode c))
      | "fixed_k3739" => ret (PyFloat (fixed_k3739 c))
      | "allow_negative_ca_correction" =>
          ret (PyBool (allow_negative_ca_correction c))
      | _ => raise AttributeError
      end%string
  end.

(** [if arar_constants is None: arar_constants = ArArConstants()] *)
Definition or_default (arar_constants : option constants_object) : constants_object :=
  match arar_constants with
  | None => ArArConstants_instance
  | Some o => o
  end.

(** ** ararpy/arar.py *)

(** A dictionary of production ratios maps the name of a ratio to a
    [Variable] object. *)
Abbreviation ratios := (gmap string loc).

(** [pr.get(key, default)] *)
Definition pr_get (pr : ratios) (key : string) (default : R) : M UFloat :=
  do h <- get_heap;
  ret (match pr !! key with
       | Some l => var_at h l
       | None => uconst default
       end).

Definition catch_ZeroDivisionError (e : exn) : bool :=
  bool_decide (e = ZeroDivisionError).

Definition catch_ValueError_TypeError (e : exn) : bool :=
  bool_decide (e = ValueError) || bool_decide (e = TypeError).

(** *** calculate_decay_factor *)

Definition fdiv (a b : R) : M R :=
  if decide (b = 0) then raise ZeroDivisionError else ret (a / b).

Definition calculate_decay_factor (libm_exp : R -> R) (dc : R)
    (segments : list (R * R * R)) : M R :=
  let a := py_sum (map (fun '(pi, ti, _) => pi * ti) segments) in
  do bs <- comprehension
             (fun '(pi, ti, dti) =>
                do e1 <- math_exp libm_exp (- dc * ti);
                do e2 <- math_exp libm_exp (dc * dti);
                do q <- fdiv (1 - e1) (dc * e2);
                ret (pi * q))
             segments;
  let b := py_sum bs in
  try_except (fdiv a b) catch_ZeroDivisionError (ret 1).

(** *** apply_fixed_k3739 *)

Definition apply_fixed_k3739 (a39 : UFloat) (pr : ratios) (fixed_k3739 : PyVal)
  : M (UFloat * UFloat * UFloat * UFloat) :=
  let x := fixed_k3739 in
  do r <- pr_get pr "ca3937" 1;
  do y <- udiv (uconst 1) r;
  do x <- as_number x;
  do ca37 <- udiv (umul (umul a39 x) y) (uadd x y);
  do r <- pr_get pr "ca3937" 0;
  let ca39 := umul r ca37 in
  let k39 := usub a39 ca39 in
  let k37 := umul x k39 in
  ret (ca37, ca39, k37, k39).

(** *** interference_corrections *)

(** The local variables of the loop: [ca37], [ca39] and [k39] are bound by
    its first pass, [k37] before it. *)
Definition loop_locals : Type := option (UFloat * UFloat * UFloat) * UFloat.

Definition iteration (a37 a39 : UFloat) (pr : ratios) (st : loop_locals)
  : M loop_locals :=
  let k37 := st.2 in
  let ca37 := usub a37 k37 in
  do r <- pr_get pr "ca3937" 0;
  let ca39 := umul r ca37 in
  let k39 := usub a39 ca39 in
  do r <- pr_get pr "k3739" 0;
  let k37 := umul r k39 in
  ret (Some (ca37, ca39, k39), k37).

(** A local variable that no pass of a loop has bound. *)
Definition bound {A : Type} (x : option A) : M A :=
  match x with
  | Some a => ret a
  | None => raise UnboundLocalError
  end.

Definition interference_corrections (a40 a39 a38 a37 a36 : UFloat)
    (production_ratios : option ratios)
    (arar_constants : option constants_object)
    (fixed_k3739 : PyVal)
  : M (UFloat * UFloat * UFloat * UFloat * UFloat * UFloat * UFloat) :=
  let production_ratios := default ∅ production_ratios in
  let arar_constants := or_default arar_constants in
  let pr := production_ratios in
  do k37 <- ufloat 0 1e-20;
  do mode <- getattr arar_constants "k3739_mode";
  do mode <- py_lower mode;
  (* mode == 'normal' and not fixed_k3739 *)
  do iterative <- (if bool_decide (mode = "normal"%string)
                   then do given <- py_truth fixed_k3739; ret (negb given)
                   else ret false);
  do '(ca37, ca39, k37, k39) <-
    (if iterative then
       (* iteratively calculate 37, 39 *)
       do st <- for_range 5 (iteration a37 a39 pr) (None, k37);
       do '(ca37, ca39, k39) <- bound st.1;
       ret (ca37, ca39, st.2, k39)
     else
       do given <- py_truth fixed_k3739;
       do fixed_k3739 <- (if negb given
                          then getattr arar_constants "fixed_k3739"
                          else ret fixed_k3739);
       apply_fixed_k3739 a39 pr fixed_k3739);
  do r <- pr_get pr "k3839" 0;
  let k38 := umul r k39 in
  do allow <- getattr arar_constants "allow_negative_ca_correction";
  do allow <- py_truth allow;
  do ca37 <- (if negb allow
              then do zero <- ufloat 0 0; ret (py_max zero ca37)
              else ret ca37);
  do r <- pr_get pr "ca3637" 0;
  let ca36 := umul r ca37 in
  do r <- pr_get pr "ca3837" 0;
  let ca38 := umul r ca37 in
  ret (k37, k38, k39, ca36, ca37, ca38, ca39).

(** *** calculate_atmospheric *)

Definition atm_locals : Type := option UFloat * UFloat.   (* cl36, atm36 *)

Definition atm_iteration (a38 a36 k38 ca38 ca36 m : UFloat)
    (arar_constants : constants_object) (st : atm_locals) : M atm_locals :=
  let atm36 := st.2 in
  do r <- getattr arar_constants "atm3836";
  do r <- py_nominal_value r;
  let ar38atm := umul (uconst r) atm36 in
  let cl38 := usub (usub (usub a38 ar38atm) k38) ca38 in
  let cl36 := umul cl38 m in
  let atm36 := usub (usub a36 ca36) cl36 in
  ret (Some cl36, atm36).

Definition calculate_atmospheric (a38 a36 k38 ca38 ca36 : UFloat) (decay_time : R)
    (production_ratios : option ratios)
    (arar_constants : option constants_object)
  : M (UFloat * UFloat) :=
  let production_ratios := default ∅ production_ratios in
  let arar_constants := or_default arar_constants in
  let pr := production_ratios in
  do r <- pr_get pr "cl3638" 0;
  do l <- getattr arar_constants "lambda_Cl36";
  do l <- py_nominal_value l;
  let m := umul (umul r (uconst l)) (uconst decay_time) in
  do atm36 <- ufloat 0 1e-20;
  do st <- for_range 5 (atm_iteration a38 a36 k38 ca38 ca36 m arar_constants)
                       (None, atm36);
  do cl36 <- bound st.1;
  ret (st.2, cl36).

(** *** calculate_F *)

Record F_result := mkF_result {
  rf : UFloat;
  f_wo_irrad : UFloat;
  non_ar_isotopes : gmap string UFloat;
  computed : gmap string UFloat;
  interference_corrected : gmap string UFloat
}.

(** [dict(((k, v.__copy__()) for k, v in interferences.iteritems()))] *)
Definition copy_item (kv : string * loc) : M (string * loc) :=
  do l <- variable_copy kv.2; ret (kv.1, l).

Definition copy_ratios (interferences : ratios) : M ratios :=
  do kvs <- comprehension copy_item (map_to_list interferences);
  ret (list_to_map kvs).

(** [for pp in pr.itervalues(): pp.std_dev = 0] *)
Fixpoint clear_errors (pps : list loc) : M unit :=
  match pps with
  | [] => ret tt
  | pp :: r => set_std_dev pp 0 ;; clear_errors r
  end.

Definition calculate_F (isotopes : UFloat * UFloat * UFloat * UFloat * UFloat)
    (decay_time : R)
    (interferences : option ratios)
    (arar_constants : option constants_object)
    (fixed_k3739 : PyVal) : M F_result :=
  let '(a40, a39, a38, a37, a36) := isotopes in
  let interferences := default ∅ interferences in
  let arar_constants := or_default arar_constants in
  (* make local copy of interferences *)
  do pr <- copy_ratios interferences;
  do '(k37, k38, k39, ca36, ca37, ca38, ca39) <-
    interference_corrections a40 a39 a38 a37 a36
                             (Some pr) (Some arar_constants) fixed_k3739;
  do '(atm36, cl36) <-
    calculate_atmospheric a38 a36 k38 ca38 ca36 decay_time
                          (Some pr) (Some arar_constants);
  (* calculate radiogenic; dont include error in 40/36 *)
  do r <- getattr arar_constants "atm4036";
  do r <- py_nominal_value r;
  let atm40 := umul atm36 (uconst r) in
  do r <- pr_get pr "k4039" 1;
  let k40 := umul k39 r in
  let rad40 := usub (usub a40 atm40) k40 in
  do f <- try_except (udiv rad40 k39) catch_ZeroDivisionError (ufloat 1 0);
  do rf <- deepcopy f;
  let non_ar_isotopes : gmap string UFloat :=
    list_to_map [("k40", k40); ("ca39", ca39); ("k38", k38); ("ca38", ca38);
                 ("k37", k37); ("ca37", ca37); ("ca36", ca36); ("cl36", cl36)]%string in
  do rp <- try_except (do q <- udiv rad40 a40; ret (umul q (uconst 100)))
                      catch_ZeroDivisionError (ufloat 0 0);
  let computed : gmap string UFloat :=
    list_to_map [("rad40", rad40); ("rad40_percent", rp);
                 ("k39", k39); ("atm40", atm40)]%string in
  let interference_corrected : gmap string UFloat :=
    list_to_map [("Ar40", usub a40 k40); ("Ar39", k39); ("Ar38", a38);
                 ("Ar37", a37); ("Ar36", atm36)]%string in
  (* clear errors in irrad *)
  clear_errors (map snd (map_to_list pr)) ;;
  let f_wo_irrad := f in
  ret (mkF_result rf f_wo_irrad non_ar_isotopes computed interference_corrected).

(** *** Arguments given as pairs or strings *)

Section FromText.

(** The parser of number strings of the [uncertainties] package, which is
    not part of the repository: the nominal value and the standard
    deviation that a string denotes, or [None] when the package raises
    [ValueError]. *)
Variable ufloat_fromstr : string -> option (R * R).

(** [ufloat] applied to the items of a tuple or to a string: the nominal
    value and the standard deviation (and a tag), or one string.  A single
    argument that is not a string is handed to the parser of strings as
    well, which fails on its missing method [strip]; no argument, or more
    than three, do not fit the signature. *)
Definition ufloat_call (args : list PyVal) : M UFloat :=
  match args with
  | [PyStr s] =>
      match ufloat_fromstr s with
      | Some (x, e) => ufloat x e
      | None => raise ValueError
      end
  | [_] => raise AttributeError
  | [x; e] | [x; e; _] =>
      do x <- py_float x;
      do e <- py_float e;
      ufloat x e
  | _ => raise TypeError
  end.

(** [if isinstance(x, (list, tuple))]: [x] becomes [ufloat] of its items. *)
Definition from_sequence (x : PyVal) : M PyVal :=
  match x with
  | PyList xs | PyTuple xs => do u <- ufloat_call xs; ret (PyUFloat u)
  | _ => ret x
  end.

(** [if isinstance(x, tuple)]: [x] becomes [ufloat] of its items;
    [elif isinstance(x, str): x = ufloat(x)]. *)
Definition from_tuple_or_str (x : PyVal) : M PyVal :=
  match x with
  | PyTuple xs => do u <- ufloat_call xs; ret (PyUFloat u)
  | PyStr _ => do u <- ufloat_call [x]; ret (PyUFloat u)
  | _ => ret x
  end.

(** *** calculate_flux *)

Definition calculate_flux (libm_exp : R -> R) (f age : PyVal)
    (arar_constants : option constants_object) : M (R * R) :=
  do f <- from_sequence f;
  do age <- from_sequence age;
  try_except
    (let arar_constants := or_default arar_constants in
     do lk <- getattr arar_constants "lambda_k";
     do lk <- py_nominal_value lk;
     do x <- py_mul age (PyFloat lk);
     do x <- umath_exp libm_exp x;
     do x <- py_sub x (PyFloat 1);
     do j <- py_div x f;
     do n <- py_nominal_value j;
     do s <- py_std_dev j;
     ret (n, s))
    catch_ZeroDivisionError
    (ret (1, 0)).

(** *** age_equation *)

Definition age_equation (j f : PyVal) (include_decay_error : bool)
    (arar_constants : option constants_object) : M PyVal :=
  do j <- from_tuple_or_str j;
  do f <- from_tuple_or_str f;
  let arar_constants := or_default arar_constants in
  do scalar <- getattr arar_constants "age_scalar";
  do scalar <- py_float scalar;
  do lk <- getattr arar_constants "lambda_k";
  do lk <- (if negb include_decay_error
            then do n <- py_nominal_value lk; ret (PyFloat n)
            else ret lk);
  try_except
    (do a <- py_pow_neg1 lk;
     do x <- py_mul j f;
     do x <- py_add (PyFloat 1) x;
     do x <- umath_log x;
     do x <- py_mul a x;
     py_div x (PyFloat scalar))
    catch_ValueError_TypeError
    (do u <- ufloat 0 0; ret (PyUFloat u)).

End FromText.

(** *** calculate_error_F and calculate_error_t *)

(** [x ** 0.5] on a float *)
Definition pow_half (x : R) : M R :=
  if Rlt_dec x 0 then raise ValueError else ret (sqrt x).

Definition calculate_error_F (signals F k4039 ca3937 ca3637 : PyVal) : M R :=
  do '(m40, m39, m38, m37, m36) <- unpack5 signals;
  do G <- py_div m40 m39;
  do B <- py_div m36 m39;
  do D <- py_div m37 m39;
  let C1 := 295.5 in
  do C2 <- py_nominal_value ca3637;
  do C3 <- py_nominal_value k4039;
  do C4 <- py_nominal_value ca3937;
  do sD <- py_std_dev D;
  let ssD := sD ^ 2 in
  do sB <- py_std_dev B;
  let ssB := sB ^ 2 in
  do sG <- py_std_dev G;
  let ssG := sG ^ 2 in
  do G <- py_nominal_value G;
  do B <- py_nominal_value B;
  do D <- py_nominal_value D;
  let ssF := ssG + C1 ^ 2 * ssB + ssD * (C4 * G - C1 * C4 * B + C1 * C2) ^ 2 in
  pow_half ssF.

Definition calculate_error_t (F ssF j ssJ : PyVal) : M PyVal :=
  do JJ <- py_mul j j;
  do FF <- py_mul F F;
  (* constants = ArArConstants(); constants().lambdak.nominal_value ** 2 *)
  do c <- ArArConstants.call;
  do lambdak <- py_getattr c "lambdak";
  do lambdak <- py_nominal_value lambdak;
  let ll := PyFloat (lambdak ^ 2) in
  do n1 <- py_mul JJ ssF;
  do n2 <- py_mul FF ssJ;
  do n <- py_add n1 n2;
  do Fj <- py_mul F j;
  do d <- py_add (PyFloat 1) Fj;
  do d <- py_mul d d;
  do d <- py_mul ll d;
  do sst <- py_div n d;
  do sst <- py_float sst;
  do t <- pow_half sst;
  ret (PyFloat t).

(** *** calculate_plateau_age *)

(** [numpy.average(a, weights=w)]: one number, the weighted mean; the
    weights must match the values and must not sum to zero. *)
Definition average (a weights : list R) : M PyVal :=
  if negb (bool_decide (length a = length weights)) then raise TypeError
  else
    let scl := py_sum weights in
    if decide (scl = 0) then raise ZeroDivisionError
    else ret (PyFloat (py_sum (zip_with Rmult a weights) / scl)).

(** [a[slice(start, stop)]] for indices that are not negative *)
Definition py_slice {A : Type} (pidx : nat * nat) (a : list A) : list A :=
  take (pidx.2 - pidx.1)%nat (drop pidx.1 a).

Section Plateau.

(** The plateau detector ([Plateau(ages, errors, k39).find_plateaus(method)])
    and the weighted mean of the module [stats] are not among the files of
    the repository; they are parameters here.  The detector gives the
    chosen range of steps, or nothing. *)
Variable find_plateaus : list R -> list R -> list R -> string -> option (nat * nat).
Variable calculate_weighted_mean : list R -> list R -> M PyVal.

Definition calculate_plateau_age (ages errors k39 : list R) (kind method : string)
  : M (option (PyVal * PyVal * (nat * nat))) :=
  let pidx := find_plateaus ages errors k39 method in
  match pidx with
  | Some pidx =>
      let sx {A} := @py_slice A pidx in
      let plateau_ages := sx ages in
      do '(wm, we) <-
        (if bool_decide (kind = "vol_fraction"%string) then
           let weights := sx k39 in
           do r <- average plateau_ages weights;
           unpack2 r
         else
           let plateau_errors := sx errors in
           do r <- calculate_weighted_mean plateau_ages plateau_errors;
           unpack2 r);
      ret (Some (wm, we, pidx))
  | None => ret None
  end.

End Plateau.

(** *** calculate_F_ratio, calculate_decay_time and
    abundance_sensitivity_correction *)

(** [pr.get(key)]: [None] when the key is missing. *)
Definition pr_get_or_None (pr : ratios) (key : string) : M PyVal :=
  do h <- get_heap;
  ret (match pr !! key with
       | Some l => PyUFloat (var_at h l)
       | None => PyNone
       end).

Definition calculate_F_ratio (m4039 m3739 m3639 : PyVal) (pr : ratios) : M PyVal :=
  let atm4036 := PyFloat 295.5 in
  (* n = m4039 - atm4036 * m3639 + atm4036 * pr.get('ca3637') * m3739 *)
  do t <- py_mul atm4036 m3639;
  do n <- py_sub m4039 t;
  do r <- pr_get_or_None pr "ca3637";
  do t <- py_mul atm4036 r;
  do t <- py_mul t m3739;
  do n <- py_add n t;
  (* d = 1 - pr.get('ca3937') * m3739 *)
  do r <- pr_get_or_None pr "ca3937";
  do t <- py_mul r m3739;
  do d <- py_sub (PyFloat 1) t;
  (* F = n / d - pr.get('k4039') *)
  do q <- py_div n d;
  do r <- pr_get_or_None pr "k4039";
  py_sub q r.

(** *** calculate_decay_time *)

(** [math.log] on a float *)
Definition math_log (x : R) : M R :=
  if Rle_dec x 0 then raise ValueError else ret (ln x).

Definition calculate_decay_time (dc f : R) : M R :=
  do l <- math_log f; fdiv l dc.

(** *** abundance_sensitivity_correction *)

(** [s - abundance_sensitivity * (x + y)] *)
Definition tail_corrected (abundance_sensitivity s x y : PyVal) : M PyVal :=
  do t <- py_add x y;
  do t <- py_mul abundance_sensitivity t;
  py_sub s t.

Definition abundance_sensitivity_correction (isos abundance_sensitivity : PyVal)
  : M (list PyVal) :=
  do '(s40, s39, s38, s37, s36) <- unpack5 isos;
  do n40 <- tail_corrected abundance_sensitivity s40 s39 s39;
  do n39 <- tail_corrected abundance_sensitivity s39 s40 s38;
  do n38 <- tail_corrected abundance_sensitivity s38 s39 s37;
  do n37 <- tail_corrected abundance_sensitivity s37 s38 s36;
  do n36 <- tail_corrected abundance_sensitivity s36 s37 s37;
  ret [n40; n39; n38; n37; n36].

(** * Definitions for the statements *)

(** ** Outcomes and heaps *)

Definition heap_of {A : Type} (o : outcome A) : heap :=
  match o with
  | Ok _ h => h
  | Raise _ h => h
  end.

Definition returns {A : Type} (o : outcome A) : Prop :=
  match o with
  | Ok _ _ => True
  | Raise _ _ => False
  end.

(** [frame n m]: the computation [m] keeps the first [n] objects of the
    heap as they are. *)
Definition frame {A : Type} (n : nat) (m : M A) : Prop :=
  forall h, (n <= length h)%nat ->
    (n <= length (heap_of (m h)))%nat /\ take n (heap_of (m h)) = take n h.

(** [appends m]: the computation only creates objects. *)
Definition appends {A : Type} (m : M A) : Prop :=
  forall h, exists t, heap_of (m h) = h ++ t.

(** The heap after the items [xs] of a dictionary have been copied one
    after the other. *)
Definition copy_heap (xs : list (string * loc)) (h : heap) : heap :=
  fold_left (fun h kv => h ++ [h !!! kv.2]) xs h.

(** The heap after the standard deviations of the objects [pps] have been
    set to zero. *)
Definition clear_heap (pps : list loc) (h : heap) : heap :=
  fold_left (fun h l => alter (fun v => mkVariable (var_nominal_value v) 0) l h)
            pps h.

(** The deep copy of [x] made in the heap [h]. *)
Definition deepcopied (x : UFloat) (h : heap) : UFloat :=
  mkUFloat (nominal_value x)
           (fun l => if decide (length h <= l < length h + length h)%nat
                     then derivatives x (l - length h)%nat else 0).

(** A quantity whose variables all have standard deviation zero where it
    depends on them. *)
Definition silent (h : heap) (x : UFloat) : Prop :=
  forall l v, h !! l = Some v -> derivatives x l * var_std_dev v = 0.

(** ** Arguments *)

(** The number that a value stands for in arithmetic, if any. *)
Definition number_of (v : PyVal) : option R :=
  match v with
  | PyFloat x => Some x
  | PyBool b => Some (if b then 1 else 0)
  | PyUFloat u => Some (nominal_value u)
  | _ => None
  end.

(** A quantity of nominal value [x], given as a pair with its standard
    deviation or as an uncertain quantity. *)
Definition quantity (v : PyVal) (x : R) : Prop :=
  (exists s, 0 <= s /\ v = PyTuple [PyFloat x; PyFloat s])
  \/ (exists u, v = PyUFloat u /\ nominal_value u = x).

(** A tuple or a list of the items [xs]. *)
Definition sequence_of (v : PyVal) (xs : list PyVal) : Prop :=
  v = PyTuple xs \/ v = PyList xs.

(** A value that is an uncertain quantity, with the attributes
    [nominal_value] and [std_dev]. *)
Definition is_uncertain (v : PyVal) : Prop := exists u, v = PyUFloat u.

(** A [fixed_k3739] argument that counts as false: [False], [None], 0. *)
Definition is_false (v : PyVal) : Prop := forall h, py_truth v h = Ok false h.

(** [lk], as the [try] block of [age_equation] uses it. *)
Definition decay_constant (include_decay_error : bool) (c : Constants) : PyVal :=
  if negb include_decay_error
  then PyFloat (nominal_value (lambda_k c))
  else PyUFloat (lambda_k c).

(** ** Production ratios in the heap *)

(** Every ratio of the dictionary is an object of the heap. *)
Definition ratios_wf (h : heap) (pr : ratios) : Prop :=
  forall key l, pr !! key = Some l -> (l < length h)%nat.

(** What [pr.get(key, default)] is, and its nominal value. *)
Definition ratio (h : heap) (pr : ratios) (key : string) (default : R) : UFloat :=
  match pr !! key with
  | Some l => var_at h l
  | None => uconst default
  end.

Definition ratio_nominal (h : heap) (pr : ratios) (key : string) (default : R) : R :=
  match pr !! key with
  | Some l => var_nominal_value (h !!! l)
  | None => default
  end.

(** The ratio [key] is in the dictionary and its nominal value is zero. *)
Definition zero_ratio (h : heap) (pr : ratios) (key : string) : Prop :=
  exists l, pr !! key = Some l /\ (l < length h)%nat
            /\ var_nominal_value (h !!! l) = 0.

Definition interference_keys : list string :=
  ["ca3637"; "ca3937"; "ca3837"; "k3739"; "k3839"; "k4039"; "cl3638"]%string.

Definition no_interference (h : heap) (pr : ratios) : Prop :=
  Forall (zero_ratio h pr) interference_keys.

(** ** The two loops *)

(** One pass of the loop of [interference_corrections] on uncertain
    quantities: [(ca37, ca39, k39, k37)]. *)
Definition pass (ca3937 k3739 a37 a39 k37 : UFloat)
  : UFloat * UFloat * UFloat * UFloat :=
  let ca37 := usub a37 k37 in
  let ca39 := umul ca3937 ca37 in
  let k39 := usub a39 ca39 in
  let k37 := umul k3739 k39 in
  (ca37, ca39, k39, k37).

Definition k37_after_pass ca3937 k3739 a37 a39 k37 : UFloat :=
  (pass ca3937 k3739 a37 a39 k37).2.

(** What [interference_corrections] computes in iterative mode, and the
    heap it leaves. *)
Definition iterative_corrections (h : heap) (pr : ratios) (allow : bool)
    (a39 a37 : UFloat)
  : UFloat * UFloat * UFloat * UFloat * UFloat * UFloat * UFloat * heap :=
  let h1 := h ++ [mkVariable 0 1e-20] in
  let ca3937 := ratio h1 pr "ca3937" 0 in
  let k3739 := ratio h1 pr "k3739" 0 in
  let '(ca37, ca39, k39, k37) :=
    pass ca3937 k3739 a37 a39
         (Nat.iter 4 (k37_after_pass ca3937 k3739 a37 a39)
                   (of_variable 0 (length h))) in
  let k38 := umul (ratio h1 pr "k3839" 0) k39 in
  let h2 := if allow then h1 else h1 ++ [mkVariable 0 0] in
  let ca37 := if allow then ca37
              else py_max (of_variable 0 (length h1)) ca37 in
  let ca36 := umul (ratio h2 pr "ca3637" 0) ca37 in
  let ca38 := umul (ratio h2 pr "ca3837" 0) ca37 in
  (k37, k38, k39, ca36, ca37, ca38, ca39, h2).

(** One pass of the loop of [calculate_atmospheric]: [(cl36, atm36)]. *)
Definition atm_pass (a38 a36 k38 ca38 ca36 m : UFloat) (atm3836 : R)
    (atm36 : UFloat) : UFloat * UFloat :=
  let ar38atm := umul (uconst atm3836) atm36 in
  let cl38 := usub (usub (usub a38 ar38atm) k38) ca38 in
  let cl36 := umul cl38 m in
  let atm36 := usub (usub a36 ca36) cl36 in
  (cl36, atm36).

(** What [calculate_atmospheric] computes with configured constants:
    [(atm36, cl36)]. *)
Definition atmospheric (h : heap) (pr : ratios) (c : Constants)
    (a38 a36 k38 ca38 ca36 : UFloat) (decay_time : R) : UFloat * UFloat :=
  let m := umul (umul (ratio h pr "cl3638" 0)
                      (uconst (nominal_value (lambda_Cl36 c))))
                (uconst decay_time) in
  let f := atm_pass a38 a36 k38 ca38 ca36 m (nominal_value (atm3836 c)) in
  let '(cl36, atm36) :=
    f (Nat.iter 4 (fun x => (f x).2) (of_variable 0 (length h))) in
  (atm36, cl36).

(** ** The quantities of the specification *)

(** The iteration that solves the coupled system, on nominal values: the
    solution after [n] passes that start from [k37 = 0]. *)
Record solution := mkSolution {
  s_ca37 : R;
  s_ca39 : R;
  s_k39 : R;
  s_k37 : R
}.

Fixpoint fixed_point_iteration (ca3937 k3739 a37 a39 : R) (n : nat) : solution :=
  match n with
  | O => mkSolution 0 0 0 0
  | S n =>
      let k37 := s_k37 (fixed_point_iteration ca3937 k3739 a37 a39 n) in
      let ca37 := a37 - k37 in
      let ca39 := ca3937 * ca37 in
      let k39 := a39 - ca39 in
      let k37 := k3739 * k39 in
      mkSolution ca37 ca39 k39 k37
  end.

(** The two sums of the decay factor. *)
Definition weighted_duration (segments : list (R * R * R)) : R :=
  foldr (fun '(p, t, _) acc => p * t + acc) 0 segments.

Definition decayed_production (libm_exp : R -> R) (dc : R)
    (segments : list (R * R * R)) : R :=
  foldr (fun '(p, t, dt) acc =>
           p * (1 - libm_exp (- dc * t)) / (dc * libm_exp (dc * dt)) + acc)
        0 segments.

(** The term of one segment in the second sum, as the list comprehension
    computes it. *)
Definition decayed_term (libm_exp : R -> R) (dc : R) (s : R * R * R) : M R :=
  let '(pi, ti, dti) := s in
  do e1 <- math_exp libm_exp (- dc * ti);
  do e2 <- math_exp libm_exp (dc * dti);
  do q <- fdiv (1 - e1) (dc * e2);
  ret (pi * q).

(** A segment whose two exponentials are in the range of the floats and
    whose term has a divisor that is not zero; a segment one of whose
    exponentials is out of range. *)
Definition segment_in_range (libm_exp : R -> R) (dc : R) (s : R * R * R) : Prop :=
  let '(_, t, dt) := s in
  - dc * t <= exp_overflow /\ dc * dt <= exp_overflow
  /\ dc * libm_exp (dc * dt) <> 0.



(** ** Inputs of the examples *)

(** Constants as a caller configures them for ages in Ma. *)
Definition example_constants : Constants :=
  {| lambda_k := uconst 5.543e-10;
     lambda_Cl36 := uconst 6.308e-9;
     atm4036 := uconst 295.5;
     atm3836 := uconst 0.1869;
     age_scalar := 1e6;
     k3739_mode := "normal";
     fixed_k3739 := 0;
     allow_negative_ca_correction := false |}.

(** An exponential that is exactly 1 close to 0, as the exponential of
    the floats is. *)
Definition rounded_exp (x : R) : R :=
  if Rle_dec (Rabs x) 5.55e-17 then 1 else exp x.

(** A parser that accepts no string. *)
Definition no_text : string -> option (R * R) := fun _ => None.

(** A detector that selects the first two steps, and a weighted mean that
    is never reached. *)
Definition first_two_steps (ages errors k39 : list R) (method : string)
  : option (nat * nat) := Some (0%nat, 2%nat).

Definition unused_weighted_mean (x errs : list R) : M PyVal := ret PyNone.

(** A dictionary with one ratio, and the heap that holds it. *)
Definition example_ratio_heap : heap := [mkVariable 0.01 0.001].

Definition example_interferences : ratios := {["k4039"%string := 0%nat]}.

(** An analysis whose production ratios are not zero: the ratios 'ca3937',
    'k3739' and 'cl3638' are the variables 0 to 2 of the heap, the signals
    (40Ar, 39Ar, 38Ar, 37Ar, 36Ar) the variables 3 to 7. *)
Definition coupled_heap : heap :=
  [mkVariable 0.5 0.01; mkVariable 0.5 0.01; mkVariable 320 1;
   mkVariable 100 0.1; mkVariable 3 0.1; mkVariable 1 0.1; mkVariable 2 0.1;
   mkVariable 0.1 0.01].

Definition coupled_ratios : ratios :=
  list_to_map [("ca3937", 0); ("k3739", 1); ("cl3638", 2)]%string%nat.

(** An analysis with one irradiation parameter, which has an error: the
    ratio 'k4039' is the variable 0 of the heap, the signals (40Ar, 39Ar,
    38Ar, 37Ar, 36Ar) are the variables 1 to 5; the dictionary is
    [example_interferences], and [calculate_F] copies its ratio to the
    variable 6. *)
Definition irradiated_heap : heap :=
  [mkVariable 0.01 0.001; mkVariable 100 0.1; mkVariable 10 0.1;
   mkVariable 1 0.1; mkVariable 2 0.1; mkVariable 0.1 0.01].

Definition irradiated_signals : UFloat * UFloat * UFloat * UFloat * UFloat :=
  (of_variable 100 1, of_variable 10 2, of_variable 1 3, of_variable 2 4,
   of_variable 0.1 5).

Definition copied_irradiation : ratios := {["k4039"%string := 6%nat]}.

(** Seven ratios, all zero, as the caller's dictionary holds them. *)
Definition zero_ratio_heap : heap := replicate 7 (mkVariable 0 0).

Definition zero_ratios : ratios :=
  list_to_map (zip interference_keys (seq 0 7)).

(** An analysis whose signals are the variables 0 to 4 of the heap (40Ar,
    39Ar, 38Ar, 37Ar, 36Ar): an uncertain 39Ar, an atmospheric 40Ar/36Ar
    ratio, and three ratios that are exactly zero. *)
Definition signal_heap : heap :=
  [mkVariable 295.5 0; mkVariable 1 1; mkVariable 0 0; mkVariable 0 0;
   mkVariable 1 0; mkVariable 0 0; mkVariable 0 0; mkVariable 0 0].

Definition signal_ratios : ratios :=
  list_to_map [("k4039", 5); ("ca3937", 6); ("ca3637", 7)]%string%nat.

Definition signals : UFloat * UFloat * UFloat * UFloat * UFloat :=
  (of_variable 295.5 0, of_variable 1 1, of_variable 0 2, of_variable 0 3,
   of_variable 1 4).

(** The same signals as a tuple of Python values. *)
Definition py_signals : PyVal :=
  PyTuple [PyUFloat (of_variable 295.5 0); PyUFloat (of_variable 1 1);
           PyUFloat (of_variable 0 2); PyUFloat (of_variable 0 3);
           PyUFloat (of_variable 1 4)].

(** The copies that [calculate_F] makes of these ratios, and the heap in
    which it computes F. *)
Definition copied_signal_ratios : ratios :=
  list_to_map [("k4039", 8); ("ca3937", 9); ("ca3637", 10)]%string%nat.

Definition zero_variable : UVariable := mkVariable 0 0.

Definition F_heap : heap :=
  signal_heap ++ [zero_variable; zero_variable; zero_variable;
                  mkVariable 0 1e-20; zero_variable; mkVariable 0 1e-20].

(** ** Further quantities and predicates *)


(** The values are numbers, with these nominal values. *)
Definition numbers (vs : list PyVal) (xs : list R) : Prop :=
  Forall2 (fun v x => number_of v = Some x) vs xs.

(** The three ratios that [calculate_F_ratio] reads. *)
Definition F_ratio_keys : list string := ["ca3637"; "ca3937"; "k4039"]%string.

(** The F-ratio of the three measured ratios to 39Ar. *)
Definition F_ratio (m4039 m3739 m3639 ca3637 ca3937 k4039 : R) : R :=
  (m4039 - 295.5 * m3639 + 295.5 * ca3637 * m3739) / (1 - ca3937 * m3739)
  - k4039.

(** The variance of the flux [J = (e - 1) / F], where [e] is the
    exponential of [lambda * age], by first-order propagation of the
    errors of [F] and of the age. *)
Definition flux_variance (lambda e F sF sage : R) : R :=
  ((e - 1) / F ^ 2 * sF) ^ 2 + (lambda * e / F * sage) ^ 2.


(** The fixed ratio [x] that [interference_corrections] applies: the
    argument when it is a number other than zero, and the constant of the
    constants object when the argument counts as false and the mode is not
    'normal'. *)
Definition fixed_ratio (c : Constants) (given : PyVal) (x : R) : Prop :=
  (given = PyFloat x /\ x <> 0)
  \/ (is_false given
      /\ lower (k3739_mode c) <> "normal"%string
      /\ x = fixed_k3739 c).

(** The solution of [k39 = a39 - ca3937 * (a37 - k3739 * k39)]. *)
Definition exact_k39 (ca3937 k3739 a37 a39 : R) : R :=
  (a39 - ca3937 * a37) / (1 - ca3937 * k3739).

(** The factor of the chlorine correction, and the solution of
    [atm36 = a36 - ca36 - m * (a38 - atm3836 * atm36 - k38 - ca38)]. *)
Definition chlorine_factor (cl3638 lambda_Cl36 decay_time : R) : R :=
  cl3638 * lambda_Cl36 * decay_time.

Definition exact_atm36 (m atm3836 a38 a36 k38 ca38 ca36 : R) : R :=
  (a36 - ca36 - m * (a38 - k38 - ca38)) / (1 - m * atm3836).

(** The copies that [calculate_F] makes of the ratios of a dictionary, in
    a heap [h]. *)
Definition copied_ratios (h : heap) (interferences : ratios) : ratios :=
  list_to_map (imap (fun i kv => (kv.1, (length h + i)%nat))
                    (map_to_list interferences)).


(** The three dictionaries that [calculate_F] returns. *)
Definition non_ar_isotopes_of (k40 ca39 k38 ca38 k37 ca37 ca36 cl36 : UFloat)
  : gmap string UFloat :=
  list_to_map [("k40", k40); ("ca39", ca39); ("k38", k38); ("ca38", ca38);
               ("k37", k37); ("ca37", ca37); ("ca36", ca36); ("cl36", cl36)]%string.

Definition computed_of (rad40 rp k39 atm40 : UFloat) : gmap string UFloat :=
  list_to_map [("rad40", rad40); ("rad40_percent", rp);
               ("k39", k39); ("atm40", atm40)]%string.

Definition interference_corrected_of (a40 k40 k39 a38 a37 atm36 : UFloat)
  : gmap string UFloat :=
  list_to_map [("Ar40", usub a40 k40); ("Ar39", k39); ("Ar38", a38);
               ("Ar37", a37); ("Ar36", atm36)]%string.

(** A run of [calculate_F] that returns [res] and leaves the heap [hf]:
    the quantities it has computed on the way and the heaps in which it
    has computed them. *)
Record F_run := mkF_run {
  run_pr : ratios; run_h1 : heap;
  run_k37 : UFloat; run_k38 : UFloat; run_k39 : UFloat;
  run_ca36 : UFloat; run_ca37 : UFloat; run_ca38 : UFloat; run_ca39 : UFloat;
  run_h2 : heap;
  run_atm36 : UFloat; run_cl36 : UFloat; run_h3 : heap;
  run_atm4036 : PyVal; run_h4 : heap;
  run_atm40 : UFloat; run_k40 : UFloat; run_rad40 : UFloat;
  run_f : UFloat; run_h5 : heap;
  run_rp : UFloat; run_h6 : heap
}.

Definition F_run_of (a40 a39 a38 a37 a36 : UFloat) (decay_time : R)
    (interferences : option ratios) (o : option constants_object)
    (fixed_k3739 : PyVal) (h : heap) (r : F_run)
    (res : F_result) (hf : heap) : Prop :=
  copy_ratios (default ∅ interferences) h = Ok (run_pr r) (run_h1 r)
  /\ interference_corrections a40 a39 a38 a37 a36 (Some (run_pr r))
       (Some (or_default o)) fixed_k3739 (run_h1 r)
     = Ok (run_k37 r, run_k38 r, run_k39 r, run_ca36 r, run_ca37 r,
           run_ca38 r, run_ca39 r) (run_h2 r)
  /\ calculate_atmospheric a38 a36 (run_k38 r) (run_ca38 r) (run_ca36 r)
       decay_time (Some (run_pr r)) (Some (or_default o)) (run_h2 r)
     = Ok (run_atm36 r, run_cl36 r) (run_h3 r)
  /\ getattr (or_default o) "atm4036" (run_h3 r)
     = Ok (run_atm4036 r) (run_h4 r)
  /\ (exists x, py_nominal_value (run_atm4036 r) (run_h4 r) = Ok x (run_h4 r)
        /\ run_atm40 r = umul (run_atm36 r) (uconst x))
  /\ run_k40 r = umul (run_k39 r) (ratio (run_h4 r) (run_pr r) "k4039" 1)
  /\ run_rad40 r = usub (usub a40 (run_atm40 r)) (run_k40 r)
  /\ try_except (udiv (run_rad40 r) (run_k39 r))
                catch_ZeroDivisionError (ufloat 1 0) (run_h4 r)
     = Ok (run_f r) (run_h5 r)
  /\ try_except (do q <- udiv (run_rad40 r) a40; ret (umul q (uconst 100)))
                catch_ZeroDivisionError (ufloat 0 0) (run_h5 r ++ run_h5 r)
     = Ok (run_rp r) (run_h6 r)
  /\ hf = clear_heap (map snd (map_to_list (run_pr r))) (run_h6 r)
  /\ res = mkF_result (deepcopied (run_f r) (run_h5 r)) (run_f r)
             (non_ar_isotopes_of (run_k40 r) (run_ca39 r) (run_k38 r)
                (run_ca38 r) (run_k37 r) (run_ca37 r) (run_ca36 r) (run_cl36 r))
             (computed_of (run_rad40 r) (run_rp r) (run_k39 r) (run_atm40 r))
             (interference_corrected_of a40 (run_k40 r) (run_k39 r) a38 a37
                (run_atm36 r)).

(** A quantity that depends on none of the objects from [n] on: on the
    objects of a heap of length [n] at most. *)
Definition supported (n : nat) (x : UFloat) : Prop :=
  forall l, (n <= l)%nat -> derivatives x l = 0.

Definition value_supported (n : nat) (v : PyVal) : Prop :=
  forall u, v = PyUFloat u -> supported n u.

(** The ratios of a dictionary are among the first [n] objects. *)
Definition ratios_below (n : nat) (pr : ratios) : Prop :=
  forall key l, pr !! key = Some l -> (l < n)%nat.

(** [post n m Q]: run in a heap of [n] objects at least, the computation
    [m] only lets the heap grow, and what it returns satisfies [Q] at the
    length of the heap it leaves. *)
Definition post {A : Type} (n : nat) (m : M A) (Q : nat -> A -> Prop) : Prop :=
  forall h a h', (n <= length h)%nat -> m h = Ok a h' ->
    (length h <= length h')%nat /\ Q (length h') a.

Definition supported4 (n : nat) (x : UFloat * UFloat * UFloat * UFloat) : Prop :=
  let '(a, b, c, d) := x in
  supported n a /\ supported n b /\ supported n c /\ supported n d.

Definition supported7 (n : nat)
    (x : UFloat * UFloat * UFloat * UFloat * UFloat * UFloat * UFloat) : Prop :=
  let '(a, b, c, d, e, f, g) := x in
  supported n a /\ supported n b /\ supported n c /\ supported n d
  /\ supported n e /\ supported n f /\ supported n g.

Definition supported_locals (n : nat) (st : loop_locals) : Prop :=
  supported n st.2
  /\ match st.1 with
     | Some (ca37, ca39, k39) =>
         supported n ca37 /\ supported n ca39 /\ supported n k39
     | None => True
     end.

Definition supported_atm_locals (n : nat) (st : atm_locals) : Prop :=
  supported n st.2
  /\ match st.1 with
     | Some cl36 => supported n cl36
     | None => True
     end.

(** ** Further inputs of the examples *)

(** Two ratios, the second of which is 2. *)
Definition two_ratio_heap : heap := [mkVariable 0 0; mkVariable 2 0].

Definition two_ratios : ratios :=
  list_to_map [("ca3637", 0); ("ca3937", 1)]%string%nat.

(** Three ratios as [calculate_F_ratio] needs them. *)
Definition three_ratio_heap : heap :=
  [mkVariable 0.0003 0; mkVariable 0.0007 0; mkVariable 0.01 0].

Definition three_ratios : ratios :=
  list_to_map [("ca3637", 0); ("ca3937", 1); ("k4039", 2)]%string%nat.

(** * Properties *)

#[local] Arguments Z.pow_pos : simpl never.

(** ** Running a computation *)

Lemma bind_ok {A B : Type} (m : M A) (k : A -> M B) h a h' :
  m h = Ok a h' -> bind m k h = k a h'.
Proof. intros E. unfold bind. by rewrite E. Qed.

Lemma bind_raise {A B : Type} (m : M A) (k : A -> M B) h e h' :
  m h = Raise e h' -> bind m k h = Raise e h'.
Proof. intros E. unfold bind. by rewrite E. Qed.

Lemma try_except_ok {A : Type} (m : M A) catches handler h a h' :
  m h = Ok a h' -> try_except m catches handler h = Ok a h'.
Proof. intros E. unfold try_except. by rewrite E. Qed.

Lemma try_except_caught {A : Type} (m : M A) catches handler h e h' :
  m h = Raise e h' -> catches e = true ->
  try_except m catches handler h = handler h'.
Proof. intros E C. unfold try_except. by rewrite E, C. Qed.

Lemma try_except_uncaught {A : Type} (m : M A) catches handler h e h' :
  m h = Raise e h' -> catches e = false ->
  try_except m catches handler h = Raise e h'.
Proof. intros E C. unfold try_except. by rewrite E, C. Qed.

Lemma ufloat_ok x s h :
  0 <= s -> ufloat x s h = Ok (of_variable x (length h)) (h ++ [mkVariable x s]).
Proof.
  intros Hs. unfold ufloat.
  destruct (Rlt_dec s 0) as [Hlt|_]; [lra | reflexivity].
Qed.

Lemma initial_uncertainty : 0 <= 1e-20.
Proof. lra. Qed.

Create HintDb py.
#[local] Hint Resolve initial_uncertainty Rle_refl : py.

(** ** The default constants object *)

Lemma ArArConstants_lambda_b h :
  ArArConstants.getattr_of_self "lambda_b" h
  = Ok (PyUFloat (of_variable 4.962e-10 (length h)))
       (h ++ [mkVariable 4.962e-10 9.3e-13]).
Proof.
  unfold ArArConstants.getattr_of_self, ArArConstants.ufloat_property.
  do 4 (erewrite bind_ok by reflexivity).
  erewrite bind_ok by (apply ufloat_ok; lra).
  reflexivity.
Qed.

(** [lambda_k] evaluates [self.lambda_b] and then fails on [self.self]. *)
Lemma ArArConstants_lambda_k h :
  getattr ArArConstants_instance "lambda_k" h
  = Raise AttributeError (h ++ [mkVariable 4.962e-10 9.3e-13]).
Proof.
  unfold getattr, ArArConstants.getattr.
  erewrite bind_ok by apply ArArConstants_lambda_b.
  reflexivity.
Qed.

Lemma ArArConstants_k3739_mode h :
  getattr ArArConstants_instance "k3739_mode" h = Raise AttributeError h.
Proof. reflexivity. Qed.

Lemma ArArConstants_age_scalar h :
  getattr ArArConstants_instance "age_scalar" h = Raise AttributeError h.
Proof. reflexivity. Qed.

Lemma ArArConstants_allow_negative_ca_correction h :
  getattr ArArConstants_instance "allow_negative_ca_correction" h
  = Raise AttributeError h.
Proof. reflexivity. Qed.

Lemma interference_corrections_default a40 a39 a38 a37 a36 pr fixed_k3739 o h :
  or_default o = ArArConstants_instance ->
  interference_corrections a40 a39 a38 a37 a36 pr o fixed_k3739 h
  = Raise AttributeError (h ++ [mkVariable 0 1e-20]).
Proof.
  intros Ho. unfold interference_corrections. rewrite Ho.
  erewrite bind_ok by (apply ufloat_ok; lra).
  erewrite bind_raise by apply ArArConstants_k3739_mode.
  reflexivity.
Qed.

Lemma comprehension_cons {A B : Type} (f : A -> M B) x r :
  comprehension f (x :: r)
  = (do y <- f x; do ys <- comprehension f r; ret (y :: ys)).
Proof. reflexivity. Qed.

Lemma for_range_S {S : Type} n (body : S -> M S) s :
  for_range (Datatypes.S n) body s = (do s' <- body s; for_range n body s').
Proof. reflexivity. Qed.

(** ** Copying the production ratios *)

Lemma copy_heap_length xs h :
  length (copy_heap xs h) = (length h + length xs)%nat.
Proof.
  revert h. induction xs as [|x xs IH]; intros h; simpl.
  - lia.
  - rewrite IH, length_app. simpl. lia.
Qed.

Lemma copy_heap_prefix xs h : exists t, copy_heap xs h = h ++ t.
Proof.
  revert h. induction xs as [|x xs IH]; intros h; simpl.
  - exists []. by rewrite app_nil_r.
  - destruct (IH (h ++ [h !!! x.2])) as [t Ht].
    exists ([h !!! x.2] ++ t). rewrite app_assoc, <- Ht. reflexivity.
Qed.

Lemma comprehension_copy_item xs h :
  comprehension copy_item xs h
  = Ok (imap (fun i kv => (kv.1, (length h + i)%nat)) xs) (copy_heap xs h).
Proof.
  revert h. induction xs as [|x xs IH]; intros h; simpl.
  - reflexivity.
  - unfold bind at 1. unfold copy_item at 1, variable_copy, bind, get_heap, alloc, ret.
    rewrite IH. rewrite Nat.add_0_r. do 2 f_equal.
    apply imap_ext. intros i kv _. simpl. rewrite length_app. simpl.
    f_equal. lia.
Qed.

Lemma copy_ratios_ok interferences h :
  copy_ratios interferences h
  = Ok (list_to_map (imap (fun i kv => (kv.1, (length h + i)%nat))
                          (map_to_list interferences)))
       (copy_heap (map_to_list interferences) h).
Proof.
  unfold copy_ratios. erewrite bind_ok by apply comprehension_copy_item.
  reflexivity.
Qed.

(** ** Omitted constants (claim C10) *)

Lemma calculate_F_default isotopes decay_time interferences o fixed_k3739 h :
  or_default o = ArArConstants_instance ->
  exists h', calculate_F isotopes decay_time interferences o fixed_k3739 h
             = Raise AttributeError h'.
Proof.
  intros Ho. destruct isotopes as [[[[a40 a39] a38] a37] a36].
  unfold calculate_F. rewrite Ho.
  erewrite bind_ok by apply copy_ratios_ok.
  erewrite bind_raise by (by apply interference_corrections_default).
  eauto.
Qed.

Lemma age_equation_default parse j f include_decay_error o h :
  or_default o = ArArConstants_instance ->
  ~ returns (age_equation parse j f include_decay_error o h)
  /\ (returns ((from_tuple_or_str parse j ;; from_tuple_or_str parse f) h) ->
      exists h', age_equation parse j f include_decay_error o h
                 = Raise AttributeError h').
Proof.
  intros Ho. unfold age_equation. rewrite Ho.
  destruct (from_tuple_or_str parse j h) as [j' h1|e h1] eqn:Ej;
    [rewrite !(bind_ok _ _ _ _ _ Ej)
    |rewrite !(bind_raise _ _ _ _ _ Ej); simpl; tauto].
  destruct (from_tuple_or_str parse f h1) as [f' h2|e h2] eqn:Ef;
    [rewrite !(bind_ok _ _ _ _ _ Ef)
    |rewrite !(bind_raise _ _ _ _ _ Ef); simpl; tauto].
  erewrite bind_raise by apply ArArConstants_age_scalar.
  split; [tauto | eauto].
Qed.

Lemma calculate_flux_default parse libm_exp f age o h :
  or_default o = ArArConstants_instance ->
  ~ returns (calculate_flux parse libm_exp f age o h)
  /\ (returns ((from_sequence parse f ;; from_sequence parse age) h) ->
      exists h', calculate_flux parse libm_exp f age o h
                 = Raise AttributeError h').
Proof.
  intros Ho. unfold calculate_flux. rewrite Ho.
  destruct (from_sequence parse f h) as [f' h1|e h1] eqn:Ef;
    [rewrite !(bind_ok _ _ _ _ _ Ef)
    |rewrite !(bind_raise _ _ _ _ _ Ef); simpl; tauto].
  destruct (from_sequence parse age h1) as [age' h2|e h2] eqn:Ea;
    [rewrite !(bind_ok _ _ _ _ _ Ea)
    |rewrite !(bind_raise _ _ _ _ _ Ea); simpl; tauto].
  erewrite try_except_uncaught;
    [| erewrite bind_raise by apply ArArConstants_lambda_k; reflexivity
     | reflexivity ].
  split; [tauto | eauto].
Qed.

(** C10.  With [arar_constants] omitted the four functions construct the
    class [ArArConstants] of constants.py.  Its instances have neither
    [k3739_mode] nor [age_scalar], and their property [lambda_k] fails on
    [self.self]: [calculate_F] and [interference_corrections] raise
    [AttributeError] on every input, and [age_equation] and
    [calculate_flux] return on no input and raise [AttributeError] as soon
    as their pair and string arguments have been converted. *)
Theorem omitted_constants_raise_AttributeError
    parse libm_exp isotopes decay_time interferences fixed_k3739
    a40 a39 a38 a37 a36 production_ratios j f include_decay_error F age h :
  (exists h', calculate_F isotopes decay_time interferences None fixed_k3739 h
              = Raise AttributeError h')
  /\ (exists h', interference_corrections a40 a39 a38 a37 a36
                   production_ratios None fixed_k3739 h
                 = Raise AttributeError h')
  /\ ~ returns (age_equation parse j f include_decay_error None h)
  /\ (returns ((from_tuple_or_str parse j ;; from_tuple_or_str parse f) h) ->
      exists h', age_equation parse j f include_decay_error None h
                 = Raise AttributeError h')
  /\ ~ returns (calculate_flux parse libm_exp F age None h)
  /\ (returns ((from_sequence parse F ;; from_sequence parse age) h) ->
      exists h', calculate_flux parse libm_exp F age None h
                 = Raise AttributeError h').
Proof.
  split; [by apply calculate_F_default|].
  split; [eexists; by apply interference_corrections_default|].
  split; [by apply age_equation_default|].
  split; [by apply age_equation_default|].
  split; by apply calculate_flux_default.
Qed.

Lemma omitted_constants_witness :
  (exists h', age_equation no_text (PyTuple [PyFloat 1; PyFloat 0]) (PyFloat 2)
                false None [] = Raise AttributeError h')
  /\ (exists h', calculate_flux no_text exp (PyTuple [PyFloat 1; PyFloat 0])
                   (PyFloat 2) None [] = Raise AttributeError h').
Proof.
  pose proof (omitted_constants_raise_AttributeError no_text exp
                (uconst 1, uconst 1, uconst 1, uconst 1, uconst 1) 0 None
                (PyBool false) (uconst 1) (uconst 1) (uconst 1) (uconst 1)
                (uconst 1) None
                (PyTuple [PyFloat 1; PyFloat 0]) (PyFloat 2) false
                (PyTuple [PyFloat 1; PyFloat 0]) (PyFloat 2) [])
    as (_ & _ & _ & Hage & _ & Hflux).
  split; [apply Hage | apply Hflux].
  - unfold from_tuple_or_str, ufloat_call.
    erewrite bind_ok; [exact I|].
    erewrite bind_ok; [reflexivity|].
    do 2 (erewrite bind_ok by reflexivity). apply ufloat_ok. lra.
  - unfold from_sequence, ufloat_call.
    erewrite bind_ok; [exact I|].
    erewrite bind_ok; [reflexivity|].
    do 2 (erewrite bind_ok by reflexivity). apply ufloat_ok. lra.
Defined.

(** ** calculate_decay_factor (claim C8) *)

Lemma fold_left_Rplus xs a : fold_left Rplus xs a = a + foldr Rplus 0 xs.
Proof.
  revert a. induction xs as [|x xs IH]; intros a; simpl.
  - lra.
  - rewrite IH. lra.
Qed.

Lemma py_sum_foldr xs : py_sum xs = foldr Rplus 0 xs.
Proof. unfold py_sum. rewrite fold_left_Rplus. lra. Qed.

Lemma py_sum_weighted_duration segments :
  py_sum (map (fun '(pi, ti, _) => pi * ti) segments) = weighted_duration segments.
Proof.
  rewrite py_sum_foldr.
  induction segments as [|[[p t] dt] r IH]; simpl; [reflexivity|].
  by rewrite IH.
Qed.

Lemma math_exp_ok libm_exp x h :
  x <= exp_overflow -> math_exp libm_exp x h = Ok (libm_exp x) h.
Proof.
  intros Hx. unfold math_exp.
  destruct (Rlt_dec exp_overflow x); [lra | reflexivity].
Qed.

Lemma math_exp_overflow libm_exp x h :
  exp_overflow < x -> math_exp libm_exp x h = Raise OverflowError h.
Proof.
  intros Hx. unfold math_exp.
  destruct (Rlt_dec exp_overflow x); [reflexivity | lra].
Qed.

Lemma fdiv_ok a b h : b <> 0 -> fdiv a b h = Ok (a / b) h.
Proof. intros Hb. unfold fdiv. by destruct (decide (b = 0)). Qed.

Lemma fdiv_zero a h : fdiv a 0 h = Raise ZeroDivisionError h.
Proof. unfold fdiv. by destruct (decide (0 = 0)). Qed.

Lemma calculate_decay_factor_unfold libm_exp dc segments :
  calculate_decay_factor libm_exp dc segments
  = (do bs <- comprehension (decayed_term libm_exp dc) segments;
     try_except (fdiv (py_sum (map (fun '(pi, ti, _) => pi * ti) segments))
                      (py_sum bs))
                catch_ZeroDivisionError (ret 1)).
Proof. reflexivity. Qed.

Lemma decayed_term_ok libm_exp dc p t dt h :
  segment_in_range libm_exp dc (p, t, dt) ->
  decayed_term libm_exp dc (p, t, dt) h
  = Ok (p * ((1 - libm_exp (- dc * t)) / (dc * libm_exp (dc * dt)))) h.
Proof.
  intros (Ht & Hdt & Hd). unfold decayed_term.
  erewrite bind_ok by (by apply math_exp_ok).
  erewrite bind_ok by (by apply math_exp_ok).
  erewrite bind_ok by (by apply fdiv_ok).
  reflexivity.
Qed.



Lemma comprehension_decay libm_exp dc segments h :
  Forall (segment_in_range libm_exp dc) segments ->
  exists bs,
    comprehension (decayed_term libm_exp dc) segments h = Ok bs h
    /\ py_sum bs = decayed_production libm_exp dc segments.
Proof.
  induction 1 as [|[[p t] dt] r Hs _ (bs & E & Hbs)].
  - by exists [].
  - eexists (_ :: bs). split.
    + rewrite comprehension_cons.
      erewrite bind_ok by (by apply decayed_term_ok).
      erewrite bind_ok by exact E. reflexivity.
    + rewrite py_sum_foldr in *. simpl. rewrite Hbs. unfold Rdiv. ring.
Qed.


Lemma calculate_decay_factor_value libm_exp dc segments h :
  Forall (segment_in_range libm_exp dc) segments ->
  calculate_decay_factor libm_exp dc segments h
  = Ok (if decide (decayed_production libm_exp dc segments = 0) then 1
        else weighted_duration segments
             / decayed_production libm_exp dc segments) h.
Proof.
  intros Hs. rewrite calculate_decay_factor_unfold.
  destruct (comprehension_decay libm_exp dc segments h Hs) as (bs & E & Hbs).
  erewrite bind_ok by exact E. rewrite Hbs, py_sum_weighted_duration.
  unfold try_except, fdiv.
  by destruct (decide (decayed_production libm_exp dc segments = 0)).
Qed.

Lemma calculate_decay_factor_single libm_exp dc T h :
  dc <> 0 -> libm_exp 0 = 1 -> - dc * T <= exp_overflow ->
  calculate_decay_factor libm_exp dc [(1, T, 0)] h
  = Ok (if decide (libm_exp (- dc * T) = 1) then 1
        else T / ((1 - libm_exp (- dc * T)) / dc)) h.
Proof.
  intros Hdc H0 HT.
  assert (Hin : Forall (segment_in_range libm_exp dc) [(1, T, 0)]).
  { constructor; [|constructor].
    split; [exact HT|]. split; [unfold exp_overflow; lra|].
    rewrite Rmult_0_r, H0. lra. }
  rewrite calculate_decay_factor_value by exact Hin.
  simpl. rewrite Rmult_0_r, H0.
  set (e := libm_exp (- dc * T)).
  destruct (decide (e = 1)) as [He|He].
  - rewrite decide_True; [reflexivity|]. rewrite He. unfold Rdiv. ring.
  - rewrite decide_False.
    + f_equal. field. split; [exact Hdc | lra].
    + intros Hz. apply He.
      assert (Hq : (1 - e) / dc = 0) by (rewrite <- Hz; field; exact Hdc).
      apply (f_equal (fun x => x * dc)) in Hq.
      replace ((1 - e) / dc * dc) with (1 - e) in Hq by (field; exact Hdc).
      lra.
Qed.





(** With an exponential that is 1 close to 0, as that of the floats is,
    the second sum of a short segment is zero and the factor is 1. *)
Example calculate_decay_factor_short_segment :
  calculate_decay_factor rounded_exp 1 [(1, 1e-20, 0)] [] = Ok 1 [].
Proof.
  assert (H0 : rounded_exp 0 = 1).
  { unfold rounded_exp. rewrite Rabs_R0.
    destruct (Rle_dec 0 5.55e-17); [reflexivity | lra]. }
  assert (H1 : rounded_exp (- 1 * 1e-20) = 1).
  { unfold rounded_exp. rewrite Rabs_left by lra.
    destruct (Rle_dec (- (- 1 * 1e-20)) 5.55e-17); [reflexivity | lra]. }
  rewrite calculate_decay_factor_single;
    [|lra | exact H0 | unfold exp_overflow; lra].
  by rewrite decide_True by exact H1.
Qed.

(** ** Sums over the heap *)

Lemma py_sum_cons x xs : py_sum (x :: xs) = x + py_sum xs.
Proof. rewrite !py_sum_foldr. reflexivity. Qed.

Lemma py_sum_imap_zero (f : nat -> UVariable -> R) (h : heap) :
  (forall i v, h !! i = Some v -> f i v = 0) -> py_sum (imap f h) = 0.
Proof.
  revert f. induction h as [|a h IH]; intros f Hf; [reflexivity|].
  simpl. rewrite py_sum_cons, IH.
  - rewrite (Hf 0%nat a); [lra | reflexivity].
  - intros i v Hi. apply (Hf (S i)). exact Hi.
Qed.

Lemma py_sum_imap_single (f : nat -> UVariable -> R) (h : heap) l v :
  h !! l = Some v ->
  (forall i v', i <> l -> h !! i = Some v' -> f i v' = 0) ->
  py_sum (imap f h) = f l v.
Proof.
  revert f l. induction h as [|a h IH]; intros f l Hl Hf; [done|].
  simpl. rewrite py_sum_cons. destruct l as [|l].
  - injection Hl as ->. rewrite py_sum_imap_zero; [lra|].
    intros i v' Hi. apply (Hf (S i)); [lia | exact Hi].
  - rewrite (Hf 0%nat a); [|lia|reflexivity].
    rewrite (IH (f ∘ S) l); [simpl; lra | exact Hl |].
    intros i v' Hne Hi. apply (Hf (S i)); [lia | exact Hi].
Qed.

Lemma variance_zero h x :
  (forall l v, h !! l = Some v -> derivatives x l * var_std_dev v = 0) ->
  variance h x = 0.
Proof.
  intros H. unfold variance. apply py_sum_imap_zero.
  intros i v Hi. rewrite (H i v Hi). lra.
Qed.

Lemma variance_of_variable h x l v :
  h !! l = Some v -> variance h (of_variable x l) = var_std_dev v ^ 2.
Proof.
  intros Hl. unfold variance.
  rewrite (py_sum_imap_single _ h l v Hl).
  - simpl. rewrite Nat.eqb_refl. ring.
  - intros i v' Hne _. simpl.
    destruct (Nat.eqb_spec i l) as [->|_]; [done | ring].
Qed.

Lemma py_sum_imap_nonneg (f : nat -> UVariable -> R) (h : heap) :
  (forall i v, 0 <= f i v) -> 0 <= py_sum (imap f h).
Proof.
  revert f. induction h as [|a h IH]; intros f Hf; simpl.
  - unfold py_sum. simpl. lra.
  - rewrite py_sum_cons. pose proof (Hf 0%nat a) as H0.
    pose proof (IH (f ∘ S) (fun i v => Hf (S i) v)) as H1. lra.
Qed.

Lemma variance_nonneg h x : 0 <= variance h x.
Proof.
  unfold variance. apply py_sum_imap_nonneg. intros i v. apply pow2_ge_0.
Qed.


(** ** Arithmetic on Python values *)

Lemma as_number_Some v x h :
  number_of v = Some x ->
  exists u, as_number v h = Ok u h /\ nominal_value u = x.
Proof.
  destruct v; simpl; intros E; try discriminate; injection E as <-;
    eexists; split; reflexivity.
Qed.

Lemma as_number_None v h :
  number_of v = None -> as_number v h = Raise TypeError h.
Proof. destruct v; simpl; intros E; try discriminate; reflexivity. Qed.

Lemma number_of_py_result a b u :
  number_of (py_result a b u) = Some (nominal_value u).
Proof. unfold py_result. by destruct (is_plain a && is_plain b). Qed.

Lemma py_binop_number op a b x y h u :
  number_of a = Some x -> number_of b = Some y ->
  (forall ua ub, nominal_value ua = x -> nominal_value ub = y ->
                 op ua ub h = Ok (u ua ub) h) ->
  exists ua ub, nominal_value ua = x /\ nominal_value ub = y
    /\ py_binop op a b h = Ok (py_result a b (u ua ub)) h.
Proof.
  intros Ha Hb Hop.
  destruct (as_number_Some a x h Ha) as (ua & Ea & Hua).
  destruct (as_number_Some b y h Hb) as (ub & Eb & Hub).
  exists ua, ub. split; [done|]. split; [done|].
  unfold py_binop.
  erewrite bind_ok by exact Ea. erewrite bind_ok by exact Eb.
  erewrite bind_ok by (by apply Hop). reflexivity.
Qed.

Lemma py_mul_number a b x y h :
  number_of a = Some x -> number_of b = Some y ->
  exists v, py_mul a b h = Ok v h /\ number_of v = Some (x * y).
Proof.
  intros Ha Hb.
  destruct (py_binop_number (fun x y => ret (umul x y)) a b x y h umul Ha Hb)
    as (ua & ub & Hua & Hub & E); [done|].
  eexists. split; [exact E|]. rewrite number_of_py_result. simpl. by subst.
Qed.

Lemma py_add_number a b x y h :
  number_of a = Some x -> number_of b = Some y ->
  exists v, py_add a b h = Ok v h /\ number_of v = Some (x + y).
Proof.
  intros Ha Hb.
  destruct (py_binop_number (fun x y => ret (uadd x y)) a b x y h uadd Ha Hb)
    as (ua & ub & Hua & Hub & E); [done|].
  eexists. split; [exact E|]. rewrite number_of_py_result. simpl. by subst.
Qed.

Lemma py_sub_number a b x y h :
  number_of a = Some x -> number_of b = Some y ->
  exists v, py_sub a b h = Ok v h /\ number_of v = Some (x - y).
Proof.
  intros Ha Hb.
  destruct (py_binop_number (fun x y => ret (usub x y)) a b x y h usub Ha Hb)
    as (ua & ub & Hua & Hub & E); [done|].
  eexists. split; [exact E|]. rewrite number_of_py_result. simpl. by subst.
Qed.

Lemma udiv_ok x y h :
  nominal_value y <> 0 ->
  exists q, udiv x y h = Ok q h /\ nominal_value q = nominal_value x / nominal_value y.
Proof.
  intros Hy. unfold udiv.
  destruct (decide (nominal_value y = 0)); [done|].
  eexists. split; reflexivity.
Qed.

Lemma udiv_zero x y h :
  nominal_value y = 0 -> udiv x y h = Raise ZeroDivisionError h.
Proof.
  intros Hy. unfold udiv. by destruct (decide (nominal_value y = 0)).
Qed.

Lemma py_div_number a b x y h :
  number_of a = Some x -> number_of b = Some y -> y <> 0 ->
  exists v, py_div a b h = Ok v h /\ number_of v = Some (x / y).
Proof.
  intros Ha Hb Hy.
  destruct (as_number_Some a x h Ha) as (ua & Ea & Hua).
  destruct (as_number_Some b y h Hb) as (ub & Eb & Hub).
  destruct (udiv_ok ua ub h) as (q & Eq & Hq); [by rewrite Hub|].
  eexists. split.
  - unfold py_div, py_binop.
    erewrite bind_ok by exact Ea. erewrite bind_ok by exact Eb.
    erewrite bind_ok by exact Eq. reflexivity.
  - rewrite number_of_py_result, Hq. by subst.
Qed.

Lemma py_div_zero a b x h :
  number_of a = Some x -> number_of b = Some 0 ->
  py_div a b h = Raise ZeroDivisionError h.
Proof.
  intros Ha Hb.
  destruct (as_number_Some a x h Ha) as (ua & Ea & Hua).
  destruct (as_number_Some b 0 h Hb) as (ub & Eb & Hub).
  unfold py_div, py_binop.
  erewrite bind_ok by exact Ea. erewrite bind_ok by exact Eb.
  erewrite bind_raise by (by apply udiv_zero). reflexivity.
Qed.

Lemma py_mul_not_a_number a b h :
  number_of a = None \/ number_of b = None ->
  py_mul a b h = Raise TypeError h.
Proof.
  intros H. unfold py_mul, py_binop.
  destruct (number_of a) as [x|] eqn:Ha.
  - destruct H as [H|Hb]; [done|].
    destruct (as_number_Some a x h Ha) as (ua & Ea & _).
    erewrite bind_ok by exact Ea.
    erewrite bind_raise by (by apply as_number_None). reflexivity.
  - erewrite bind_raise by (by apply as_number_None). reflexivity.
Qed.

Lemma py_pow_neg1_number a x h :
  number_of a = Some x -> x <> 0 ->
  exists v, py_pow_neg1 a h = Ok v h /\ number_of v = Some (/ x).
Proof.
  intros Ha Hx.
  destruct (as_number_Some a x h Ha) as (ua & Ea & Hua).
  assert (Ep : upow_neg1 ua h
               = Ok (mkUFloat (/ nominal_value ua)
                       (fun l => - derivatives ua l
                                 / (nominal_value ua * nominal_value ua))) h).
  { unfold upow_neg1.
    destruct (decide (nominal_value ua = 0)); [congruence|reflexivity]. }
  eexists. split.
  - unfold py_pow_neg1, py_unop. erewrite bind_ok by exact Ea.
    erewrite bind_ok by exact Ep. reflexivity.
  - rewrite number_of_py_result. simpl. by subst.
Qed.

Lemma uexp_ok libm_exp x h :
  nominal_value x <= exp_overflow ->
  uexp libm_exp x h
  = Ok (mkUFloat (libm_exp (nominal_value x))
                 (fun l => libm_exp (nominal_value x) * derivatives x l)) h.
Proof.
  intros Hx. unfold uexp. by erewrite bind_ok by (by apply math_exp_ok).
Qed.

Lemma umath_exp_number libm_exp a x h :
  number_of a = Some x -> x <= exp_overflow ->
  exists v, umath_exp libm_exp a h = Ok v h
            /\ number_of v = Some (libm_exp x).
Proof.
  intros Ha Hx.
  destruct (as_number_Some a x h Ha) as (ua & Ea & Hua).
  eexists. split.
  - unfold umath_exp, py_unop. erewrite bind_ok by exact Ea.
    erewrite bind_ok by (apply uexp_ok; by rewrite Hua). reflexivity.
  - rewrite number_of_py_result. simpl. by subst.
Qed.

Lemma umath_exp_overflow libm_exp a x h :
  number_of a = Some x -> exp_overflow < x ->
  umath_exp libm_exp a h = Raise OverflowError h.
Proof.
  intros Ha Hx.
  destruct (as_number_Some a x h Ha) as (ua & Ea & Hua).
  unfold umath_exp, py_unop. erewrite bind_ok by exact Ea.
  erewrite bind_raise; [reflexivity|].
  unfold uexp. erewrite bind_raise; [reflexivity|].
  apply math_exp_overflow. by rewrite Hua.
Qed.

Lemma umath_log_number a x h :
  number_of a = Some x -> 0 < x ->
  exists v, umath_log a h = Ok v h /\ number_of v = Some (ln x).
Proof.
  intros Ha Hx.
  destruct (as_number_Some a x h Ha) as (ua & Ea & Hua).
  assert (El : ulog ua h
               = Ok (mkUFloat (ln (nominal_value ua))
                       (fun l => derivatives ua l / nominal_value ua)) h).
  { unfold ulog. destruct (Rle_dec (nominal_value ua) 0); [lra|reflexivity]. }
  eexists. split.
  - unfold umath_log, py_unop. erewrite bind_ok by exact Ea.
    erewrite bind_ok by exact El. reflexivity.
  - rewrite number_of_py_result. simpl. by subst.
Qed.


(** ** age_equation (claim C7) *)

Lemma age_equation_converted parse j f include_decay_error c h j' h1 f' h2 :
  from_tuple_or_str parse j h = Ok j' h1 ->
  from_tuple_or_str parse f h1 = Ok f' h2 ->
  age_equation parse j f include_decay_error (Some (Configured c)) h
  = try_except
      (do a <- py_pow_neg1 (decay_constant include_decay_error c);
       do x <- py_mul j' f';
       do x <- py_add (PyFloat 1) x;
       do x <- umath_log x;
       do x <- py_mul a x;
       py_div x (PyFloat (age_scalar c)))
      catch_ValueError_TypeError
      (do u <- ufloat 0 0; ret (PyUFloat u)) h2.
Proof.
  intros Ej Ef. unfold age_equation.
  erewrite bind_ok by exact Ej. erewrite bind_ok by exact Ef.
  do 3 (erewrite bind_ok by reflexivity).
  erewrite bind_ok; [reflexivity|].
  unfold decay_constant. by destruct include_decay_error.
Qed.

Lemma number_of_decay_constant include_decay_error c :
  number_of (decay_constant include_decay_error c)
  = Some (nominal_value (lambda_k c)).
Proof. unfold decay_constant. by destruct include_decay_error. Qed.



Lemma age_equation_value parse j f include_decay_error c h j' h1 f' h2 x y :
  from_tuple_or_str parse j h = Ok j' h1 ->
  from_tuple_or_str parse f h1 = Ok f' h2 ->
  nominal_value (lambda_k c) <> 0 ->
  age_scalar c <> 0 ->
  number_of j' = Some x -> number_of f' = Some y -> 0 < 1 + x * y ->
  exists v,
    age_equation parse j f include_decay_error (Some (Configured c)) h = Ok v h2
    /\ number_of v
       = Some (/ nominal_value (lambda_k c) * ln (1 + x * y) / age_scalar c).
Proof.
  intros Ej Ef Hl Hs Hj Hf Hpos.
  rewrite (age_equation_converted _ _ _ _ _ _ _ _ _ _ Ej Ef).
  destruct (py_pow_neg1_number _ _ h2 (number_of_decay_constant include_decay_error c) Hl)
    as (a & Ea & Ha).
  destruct (py_mul_number j' f' x y h2 Hj Hf) as (p & Ep & Hp).
  destruct (py_add_number (PyFloat 1) p 1 (x * y) h2 eq_refl Hp) as (s & Es & Hs').
  destruct (umath_log_number s _ h2 Hs' Hpos) as (l & El & Hl').
  destruct (py_mul_number a l _ _ h2 Ha Hl') as (q & Eq & Hq).
  destruct (py_div_number q (PyFloat (age_scalar c)) _ _ h2 Hq eq_refl Hs)
    as (v & Ev & Hv).
  exists v. split; [|exact Hv].
  apply try_except_ok.
  erewrite bind_ok by exact Ea. erewrite bind_ok by exact Ep.
  erewrite bind_ok by exact Es. erewrite bind_ok by exact El.
  erewrite bind_ok by exact Eq. exact Ev.
Qed.





(** ** calculate_flux and age_equation (claim C2) *)

Lemma ufloat_call_pair parse x s h :
  0 <= s ->
  ufloat_call parse [PyFloat x; PyFloat s] h
  = Ok (of_variable x (length h)) (h ++ [mkVariable x s]).
Proof.
  intros Hs. unfold ufloat_call.
  do 2 (erewrite bind_ok by reflexivity). by apply ufloat_ok.
Qed.

Lemma from_sequence_quantity parse v x h :
  quantity v x ->
  exists u h', from_sequence parse v h = Ok (PyUFloat u) h' /\ nominal_value u = x.
Proof.
  intros [(s & Hs & ->)|(u & -> & Hu)].
  - eexists _, _. split.
    + unfold from_sequence.
      erewrite bind_ok by (by apply ufloat_call_pair). reflexivity.
    + reflexivity.
  - by eexists _, _.
Qed.

Lemma from_tuple_or_str_quantity parse v x h :
  quantity v x ->
  exists u h', from_tuple_or_str parse v h = Ok (PyUFloat u) h' /\ nominal_value u = x.
Proof.
  intros [(s & Hs & ->)|(u & -> & Hu)].
  - eexists _, _. split.
    + unfold from_tuple_or_str.
      erewrite bind_ok by (by apply ufloat_call_pair). reflexivity.
    + reflexivity.
  - by eexists _, _.
Qed.

Lemma calculate_flux_value parse libm_exp F age xF xage c h :
  quantity F xF -> quantity age xage -> xF <> 0 ->
  xage * nominal_value (lambda_k c) <= exp_overflow ->
  exists sJ h1,
    calculate_flux parse libm_exp F age (Some (Configured c)) h
    = Ok ((libm_exp (xage * nominal_value (lambda_k c)) - 1) / xF, sJ) h1
    /\ 0 <= sJ.
Proof.
  intros HF Hage Hne Hrange. unfold calculate_flux.
  destruct (from_sequence_quantity parse F xF h HF) as (uF & h1 & EF & HuF).
  destruct (from_sequence_quantity parse age xage h1 Hage) as (ua & h2 & Ea & Hua).
  erewrite bind_ok by exact EF. erewrite bind_ok by exact Ea.
  set (x := umul ua (uconst (nominal_value (lambda_k c)))).
  assert (Hx : nominal_value x = xage * nominal_value (lambda_k c))
    by (unfold x; simpl; by rewrite Hua).
  set (e := mkUFloat (libm_exp (nominal_value x))
                     (fun l => libm_exp (nominal_value x) * derivatives x l)).
  destruct (udiv_ok (usub e (uconst 1)) uF h2) as (q & Eq & Hq);
    [by rewrite HuF|].
  eexists (sqrt (variance h2 q)), h2. split; [|apply sqrt_pos].
  apply try_except_ok. simpl or_default.
  do 3 (erewrite bind_ok by reflexivity).
  erewrite bind_ok;
    [|unfold umath_exp, py_unop; erewrite bind_ok by reflexivity;
      erewrite bind_ok by (apply uexp_ok; fold x; by rewrite Hx);
      reflexivity].
  erewrite bind_ok by reflexivity.
  erewrite bind_ok;
    [|unfold py_div, py_binop; do 2 (erewrite bind_ok by reflexivity);
      erewrite bind_ok by exact Eq; reflexivity].
  simpl. unfold bind, std_dev, ret. rewrite Hq. simpl.
  by rewrite Hua, HuF.
Qed.












(** With an exponential that is 1 close to 0, as that of the floats is, an
    age of 1e-7 years gives the flux 0 and comes back as 0. *)
Example small_age_comes_back_as_zero :
  exists sJ h1 t h2,
    calculate_flux no_text rounded_exp (PyTuple [PyFloat 2; PyFloat 0])
                   (PyTuple [PyFloat 1e-7; PyFloat 0])
                   (Some (Configured example_constants)) []
    = Ok (0, sJ) h1
    /\ age_equation no_text (PyTuple [PyFloat 0; PyFloat sJ])
                    (PyTuple [PyFloat 2; PyFloat 0]) false
                    (Some (Configured example_constants)) h1
       = Ok t h2
    /\ number_of t = Some 0.
Proof.
  assert (HF : quantity (PyTuple [PyFloat 2; PyFloat 0]) 2)
    by (left; exists 0; split; [lra | reflexivity]).
  destruct (calculate_flux_value no_text rounded_exp
              (PyTuple [PyFloat 2; PyFloat 0]) (PyTuple [PyFloat 1e-7; PyFloat 0])
              2 1e-7 example_constants [] HF)
    as (sJ & h1 & Eflux & HsJ).
  { left. exists 0. split; [lra | reflexivity]. }
  { lra. }
  { unfold exp_overflow. simpl. lra. }
  assert (He : rounded_exp (1e-7 * nominal_value (lambda_k example_constants)) = 1).
  { unfold rounded_exp. simpl. rewrite Rabs_right by lra.
    destruct (Rle_dec (1e-7 * 5.543e-10) 5.55e-17); [reflexivity | lra]. }
  rewrite He in Eflux.
  replace ((1 - 1) / 2) with 0 in Eflux by field.
  destruct (from_tuple_or_str_quantity no_text (PyTuple [PyFloat 0; PyFloat sJ]) 0 h1)
    as (uJ & h2 & EJ & HuJ); [left; by exists sJ|].
  destruct (from_tuple_or_str_quantity no_text (PyTuple [PyFloat 2; PyFloat 0]) 2 h2 HF)
    as (uF & h3 & EF & HuF).
  destruct (age_equation_value no_text _ _ false example_constants h1 _ h2 _ h3 0 2
              EJ EF) as (t & Et & Ht).
  - simpl. lra.
  - simpl. lra.
  - by rewrite <- HuJ.
  - by rewrite <- HuF.
  - lra.
  - exists sJ, h1, t, h3. split; [exact Eflux|]. split; [exact Et|].
    rewrite Ht. f_equal.
    replace (1 + 0 * 2) with 1 by ring. rewrite ln_1. unfold Rdiv. ring.
Qed.

(** ** calculate_plateau_age (claim C6) *)

Lemma average_is_a_number a weights h :
  (exists x, average a weights h = Ok (PyFloat x) h)
  \/ (exists e, average a weights h = Raise e h
                /\ (e = TypeError \/ e = ZeroDivisionError)).
Proof.
  unfold average.
  destruct (negb (bool_decide (length a = length weights))).
  - right. exists TypeError. split; [reflexivity | by left].
  - destruct (decide (py_sum weights = 0)).
    + right. exists ZeroDivisionError. split; [reflexivity | by right].
    + left. by eexists.
Qed.

(** C6.  With [kind='vol_fraction'] the function does not return the
    weighted arithmetic mean: [numpy.average] gives one number, and
    unpacking it into [wm, we] raises [TypeError] (or the weights sum to
    zero and the average itself raises [ZeroDivisionError]). *)
Theorem calculate_plateau_age_vol_fraction_raises
    find_plateaus calculate_weighted_mean ages errors k39 method pidx h :
  find_plateaus ages errors k39 method = Some pidx ->
  exists e,
    calculate_plateau_age find_plateaus calculate_weighted_mean
                          ages errors k39 "vol_fraction" method h
    = Raise e h
    /\ (e = TypeError \/ e = ZeroDivisionError).
Proof.
  intros Hp. unfold calculate_plateau_age. rewrite Hp.
  rewrite bool_decide_eq_true_2 by reflexivity.
  destruct (average_is_a_number (py_slice pidx ages) (py_slice pidx k39) h)
    as [(x & E)|(e & E & He)].
  - exists TypeError. split; [|by left].
    erewrite bind_raise; [reflexivity|].
    erewrite bind_ok by exact E. reflexivity.
  - exists e. split; [|exact He].
    erewrite bind_raise; [reflexivity|].
    erewrite bind_raise by exact E. reflexivity.
Qed.

(** By default the function returns what the weighted mean of the module
    [stats] gives on the slices of the ages and of the errors. *)
Lemma calculate_plateau_age_default
    find_plateaus calculate_weighted_mean ages errors k39 kind method
    pidx wm we h h' :
  find_plateaus ages errors k39 method = Some pidx ->
  kind <> "vol_fraction"%string ->
  calculate_weighted_mean (py_slice pidx ages) (py_slice pidx errors) h
  = Ok (PyTuple [wm; we]) h' ->
  calculate_plateau_age find_plateaus calculate_weighted_mean
                        ages errors k39 kind method h
  = Ok (Some (wm, we, pidx)) h'.
Proof.
  intros Hp Hk Hw. unfold calculate_plateau_age. rewrite Hp.
  rewrite bool_decide_eq_false_2 by exact Hk.
  erewrite bind_ok; [|erewrite bind_ok by exact Hw; reflexivity].
  reflexivity.
Qed.

Lemma calculate_plateau_age_vol_fraction_witness :
  exists e,
    calculate_plateau_age first_two_steps unused_weighted_mean
                          [10; 10.1; 12] [0.1; 0.1; 0.1] [1; 1; 1]
                          "vol_fraction" "fleck 1977" []
    = Raise e []
    /\ (e = TypeError \/ e = ZeroDivisionError).
Proof.
  apply (calculate_plateau_age_vol_fraction_raises first_two_steps
           unused_weighted_mean [10; 10.1; 12] [0.1; 0.1; 0.1] [1; 1; 1]
           "fleck 1977" (0%nat, 2%nat) []).
  reflexivity.
Defined.

Example calculate_plateau_age_vol_fraction_TypeError :
  calculate_plateau_age first_two_steps unused_weighted_mean
                        [10; 10.1; 12] [0.1; 0.1; 0.1] [1; 1; 1]
                        "vol_fraction" "fleck 1977" []
  = Raise TypeError [].
Proof.
  unfold calculate_plateau_age, first_two_steps.
  rewrite bool_decide_eq_true_2 by reflexivity.
  assert (E : average (py_slice (0%nat, 2%nat) [10; 10.1; 12])
                      (py_slice (0%nat, 2%nat) [1; 1; 1]) []
              = Ok (PyFloat (py_sum (zip_with Rmult [10; 10.1] [1; 1])
                             / py_sum [1; 1])) []).
  { unfold average.
    change (py_slice (0%nat, 2%nat) [1; 1; 1]) with [1; 1].
    change (py_slice (0%nat, 2%nat) [10; 10.1; 12]) with [10; 10.1].
    simpl.
    destruct (decide (py_sum [1; 1] = 0)) as [Hz|_]; [|reflexivity].
    unfold py_sum in Hz. simpl in Hz. lra. }
  erewrite bind_raise; [reflexivity|].
  erewrite bind_ok by exact E. reflexivity.
Qed.

(** ** Production ratios in the heap *)

Lemma pr_get_ratio pr key default h :
  pr_get pr key default h = Ok (ratio h pr key default) h.
Proof. reflexivity. Qed.

Lemma nominal_value_ratio h pr key default :
  nominal_value (ratio h pr key default) = ratio_nominal h pr key default.
Proof. unfold ratio, ratio_nominal. by destruct (pr !! key). Qed.

Lemma ratios_wf_app h t pr : ratios_wf h pr -> ratios_wf (h ++ t) pr.
Proof.
  intros Hwf key l Hl. rewrite length_app. specialize (Hwf key l Hl). lia.
Qed.

Lemma ratio_app h t pr key default :
  ratios_wf h pr -> ratio (h ++ t) pr key default = ratio h pr key default.
Proof.
  intros Hwf. unfold ratio. destruct (pr !! key) as [l|] eqn:E; [|done].
  unfold var_at. by rewrite lookup_total_app_l by by eapply Hwf.
Qed.

Lemma ratios_wf_empty h : ratios_wf h ∅.
Proof. intros key l Hl. by rewrite lookup_empty in Hl. Qed.

(** ** The loop of interference_corrections (claim C4) *)

Lemma iteration_pass a37 a39 pr st h :
  iteration a37 a39 pr st h
  = Ok (let '(ca37, ca39, k39, k37) :=
          pass (ratio h pr "ca3937" 0) (ratio h pr "k3739" 0) a37 a39 st.2 in
        (Some (ca37, ca39, k39), k37)) h.
Proof. reflexivity. Qed.

Lemma for_range_iteration n a37 a39 pr st h :
  for_range (S n) (iteration a37 a39 pr) st h
  = Ok (let ca3937 := ratio h pr "ca3937" 0 in
        let k3739 := ratio h pr "k3739" 0 in
        let '(ca37, ca39, k39, k37) :=
          pass ca3937 k3739 a37 a39
               (Nat.iter n (k37_after_pass ca3937 k3739 a37 a39) st.2) in
        (Some (ca37, ca39, k39), k37)) h.
Proof.
  revert st. induction n as [|n IH]; intros st.
  - rewrite for_range_S. erewrite bind_ok by apply iteration_pass. reflexivity.
  - rewrite for_range_S. erewrite bind_ok by apply iteration_pass.
    rewrite IH. cbv zeta. rewrite Nat.iter_succ_r. reflexivity.
Qed.

Lemma is_false_False : is_false (PyBool false).
Proof. intros h. reflexivity. Qed.

Lemma interference_corrections_iterative
    a40 a39 a38 a37 a36 pr c fixed_k3739 h :
  lower (k3739_mode c) = "normal"%string ->
  is_false fixed_k3739 ->
  interference_corrections a40 a39 a38 a37 a36 (Some pr)
                           (Some (Configured c)) fixed_k3739 h
  = let '(k37, k38, k39, ca36, ca37, ca38, ca39, h2) :=
      iterative_corrections h pr (allow_negative_ca_correction c) a39 a37 in
    Ok (k37, k38, k39, ca36, ca37, ca38, ca39) h2.
Proof.
  intros Hmode Hfixed. unfold interference_corrections.
  erewrite bind_ok by (apply ufloat_ok; lra).
  erewrite bind_ok by reflexivity.
  erewrite bind_ok by reflexivity.
  simpl default. rewrite Hmode.
  rewrite bool_decide_eq_true_2 by reflexivity.
  erewrite bind_ok by (erewrite bind_ok by apply Hfixed; reflexivity).
  simpl negb. cbv beta iota.
  erewrite bind_ok;
    [|erewrite bind_ok by apply for_range_iteration; reflexivity].
  cbv beta iota zeta delta [pass].
  erewrite bind_ok by apply pr_get_ratio.
  erewrite bind_ok by reflexivity.
  erewrite bind_ok by reflexivity.
  unfold iterative_corrections.
  destruct (allow_negative_ca_correction c); simpl negb; cbv beta iota.
  - erewrite bind_ok by reflexivity.
    erewrite bind_ok by apply pr_get_ratio.
    erewrite bind_ok by apply pr_get_ratio.
    reflexivity.
  - erewrite bind_ok
      by (erewrite bind_ok by (apply ufloat_ok; lra); reflexivity).
    erewrite bind_ok by apply pr_get_ratio.
    erewrite bind_ok by apply pr_get_ratio.
    reflexivity.
Qed.

Lemma nominal_value_iter ca3937 k3739 a37 a39 k37 n :
  nominal_value k37 = 0 ->
  nominal_value (Nat.iter n (k37_after_pass ca3937 k3739 a37 a39) k37)
  = s_k37 (fixed_point_iteration (nominal_value ca3937) (nominal_value k3739)
                                 (nominal_value a37) (nominal_value a39) n).
Proof.
  intros H0. induction n as [|n IH]; [exact H0|].
  simpl. rewrite IH. reflexivity.
Qed.

Lemma nominal_value_py_max_zero l x :
  nominal_value (py_max (of_variable 0 l) x) = Rmax 0 (nominal_value x).
Proof.
  unfold py_max, Rmax. simpl.
  destruct (Rgt_dec (nominal_value x) 0), (Rle_dec 0 (nominal_value x));
    simpl; lra.
Qed.

Lemma coupled_ratios_wf : ratios_wf coupled_heap coupled_ratios.
Proof.
  intros key l Hl. apply elem_of_list_to_map_2 in Hl. simpl in Hl.
  repeat (apply elem_of_cons in Hl as [Hl|Hl];
          [injection Hl as _ ->; simpl; lia|]).
  by apply elem_of_nil in Hl.
Qed.

Lemma coupled_ratios_nominal :
  ratio_nominal coupled_heap coupled_ratios "ca3937" 0 = 0.5
  /\ ratio_nominal coupled_heap coupled_ratios "k3739" 0 = 0.5
  /\ ratio_nominal coupled_heap coupled_ratios "cl3638" 0 = 320.
Proof.
  unfold ratio_nominal.
  replace (coupled_ratios !! "ca3937"%string) with (Some 0%nat)
    by (vm_compute; reflexivity).
  replace (coupled_ratios !! "k3739"%string) with (Some 1%nat)
    by (vm_compute; reflexivity).
  replace (coupled_ratios !! "cl3638"%string) with (Some 2%nat)
    by (vm_compute; reflexivity).
  repeat split; reflexivity.
Qed.

(** The number of passes shows in the result: with both ratios 0.5,
    [a37 = 2] and [a39 = 3], the fourth, fifth and sixth pass give three
    different values of [k37]. *)
Example five_passes_are_observable :
  s_k37 (fixed_point_iteration 0.5 0.5 2 3 5) = 1.33203125
  /\ s_k37 (fixed_point_iteration 0.5 0.5 2 3 4) = 1.328125
  /\ s_k37 (fixed_point_iteration 0.5 0.5 2 3 6) = 1.3330078125.
Proof. simpl. lra. Qed.

(** C4.  In iterative mode (the mode of the constants is 'normal' in any
    letter case and no fixed ratio is given) [interference_corrections]
    creates [k37] as a variable of value 0 and standard deviation 1e-20
    and makes exactly five passes [ca37 = a37 - k37], [ca39 = ca3937 * ca37],
    [k39 = a39 - ca39], [k37 = k3739 * k39]; no argument and no constant
    changes the count.  [ca37] is afterwards clamped at zero unless the
    constants allow a negative correction. *)
Theorem interference_corrections_five_iterations
    a40 a39 a38 a37 a36 pr c fixed_k3739 h :
  ratios_wf h pr ->
  lower (k3739_mode c) = "normal"%string ->
  is_false fixed_k3739 ->
  exists k37 k38 k39 ca36 ca37 ca38 ca39 t,
    interference_corrections a40 a39 a38 a37 a36 (Some pr)
                             (Some (Configured c)) fixed_k3739 h
    = Ok (k37, k38, k39, ca36, ca37, ca38, ca39)
         (h ++ mkVariable 0 1e-20 :: t)
    /\ let s := fixed_point_iteration
                  (ratio_nominal h pr "ca3937" 0) (ratio_nominal h pr "k3739" 0)
                  (nominal_value a37) (nominal_value a39) 5 in
       nominal_value k37 = s_k37 s
       /\ nominal_value k39 = s_k39 s
       /\ nominal_value ca39 = s_ca39 s
       /\ nominal_value ca37
          = if allow_negative_ca_correction c then s_ca37 s
            else Rmax 0 (s_ca37 s).
Proof.
  intros Hwf Hmode Hfixed.
  rewrite (interference_corrections_iterative _ _ _ _ _ _ _ _ _ Hmode Hfixed).
  unfold iterative_corrections. cbv beta iota zeta delta [pass].
  set (h1 := h ++ [mkVariable 0 1e-20]).
  set (ca3937 := ratio h1 pr "ca3937" 0).
  set (k3739 := ratio h1 pr "k3739" 0).
  assert (Hca : nominal_value ca3937 = ratio_nominal h pr "ca3937" 0)
    by (unfold ca3937, h1; by rewrite ratio_app, nominal_value_ratio).
  assert (Hk : nominal_value k3739 = ratio_nominal h pr "k3739" 0)
    by (unfold k3739, h1; by rewrite ratio_app, nominal_value_ratio).
  pose proof (nominal_value_iter ca3937 k3739 a37 a39
                (of_variable 0 (length h)) 4 eq_refl) as Hiter.
  rewrite Hca, Hk in Hiter.
  eexists _, _, _, _, _, _, _, _. split.
  - f_equal. instantiate (1 := if allow_negative_ca_correction c then []
                               else [mkVariable 0 0]).
    unfold h1. destruct (allow_negative_ca_correction c);
      [reflexivity | by rewrite <- app_assoc].
  - cbv zeta.
    change (s_k37 (fixed_point_iteration ?a ?b ?c ?d 5))
      with (b * (d - a * (c - s_k37 (fixed_point_iteration a b c d 4)))).
    change (s_k39 (fixed_point_iteration ?a ?b ?c ?d 5))
      with (d - a * (c - s_k37 (fixed_point_iteration a b c d 4))).
    change (s_ca39 (fixed_point_iteration ?a ?b ?c ?d 5))
      with (a * (c - s_k37 (fixed_point_iteration a b c d 4))).
    change (s_ca37 (fixed_point_iteration ?a ?b ?c ?d 5))
      with (c - s_k37 (fixed_point_iteration a b c d 4)).
    rewrite <- Hiter, <- Hca, <- Hk.
    split; [reflexivity|]. split; [reflexivity|]. split; [reflexivity|].
    destruct (allow_negative_ca_correction c); [reflexivity|].
    apply nominal_value_py_max_zero.
Qed.

Lemma interference_corrections_five_iterations_witness :
  exists k37 k38 k39 ca36 ca37 ca38 ca39 t,
    interference_corrections (of_variable 100 3) (of_variable 3 4)
                             (of_variable 1 5) (of_variable 2 6)
                             (of_variable 0.1 7) (Some coupled_ratios)
                             (Some (Configured example_constants))
                             (PyBool false) coupled_heap
    = Ok (k37, k38, k39, ca36, ca37, ca38, ca39)
         (coupled_heap ++ mkVariable 0 1e-20 :: t)
    /\ let s := fixed_point_iteration 0.5 0.5 2 3 5 in
       nominal_value k37 = s_k37 s
       /\ nominal_value k39 = s_k39 s
       /\ nominal_value ca39 = s_ca39 s
       /\ nominal_value ca37 = Rmax 0 (s_ca37 s)
       /\ s_k37 s = 1.33203125
       /\ s_k37 s <> s_k37 (fixed_point_iteration 0.5 0.5 2 3 4)
       /\ s_k37 s <> s_k37 (fixed_point_iteration 0.5 0.5 2 3 6).
Proof.
  destruct (interference_corrections_five_iterations
              (of_variable 100 3) (of_variable 3 4) (of_variable 1 5)
              (of_variable 2 6) (of_variable 0.1 7)
              coupled_ratios example_constants (PyBool false) coupled_heap
              coupled_ratios_wf eq_refl is_false_False)
    as (k37 & k38 & k39 & ca36 & ca37 & ca38 & ca39 & t & E & H).
  destruct coupled_ratios_nominal as (Hca & Hk & _).
  rewrite Hca, Hk in H. cbv zeta in H.
  destruct H as (H37 & H39 & Hc39 & Hc37).
  exists k37, k38, k39, ca36, ca37, ca38, ca39, t.
  split; [exact E|]. cbv zeta.
  split; [exact H37|]. split; [exact H39|]. split; [exact Hc39|].
  split; [exact Hc37|].
  simpl. lra.
Defined.

(** ** What a computation leaves in place *)

Lemma appends_frame {A : Type} (m : M A) n : appends m -> frame n m.
Proof.
  intros Hm h Hn. destruct (Hm h) as [t ->]. split.
  - rewrite length_app. lia.
  - by rewrite take_app_le.
Qed.

Lemma appends_ret {A : Type} (a : A) : appends (ret a).
Proof. intros h. exists []. by rewrite app_nil_r. Qed.

Lemma appends_raise {A : Type} e : appends (@raise A e).
Proof. intros h. exists []. by rewrite app_nil_r. Qed.

Lemma appends_bind {A B : Type} (m : M A) (k : A -> M B) :
  appends m -> (forall a, appends (k a)) -> appends (bind m k).
Proof.
  intros Hm Hk h. unfold bind. destruct (Hm h) as [t Ht].
  destruct (m h) as [a h'|e h']; simpl in Ht; subst h'.
  - destruct (Hk a (h ++ t)) as [t' Ht']. exists (t ++ t').
    by rewrite Ht', app_assoc.
  - by exists t.
Qed.

Lemma appends_try_except {A : Type} (m : M A) catches handler :
  appends m -> appends handler -> appends (try_except m catches handler).
Proof.
  intros Hm Hh h. unfold try_except. destruct (Hm h) as [t Ht].
  destruct (m h) as [a h'|e h']; simpl in Ht; subst h'.
  - by exists t.
  - destruct (catches e); [|by exists t].
    destruct (Hh (h ++ t)) as [t' Ht']. exists (t ++ t').
    by rewrite Ht', app_assoc.
Qed.

Lemma appends_for_range {S : Type} n (body : S -> M S) s :
  (forall s, appends (body s)) -> appends (for_range n body s).
Proof.
  intros Hb. revert s. induction n as [|n IH]; intros s; simpl.
  - apply appends_ret.
  - apply appends_bind; [apply Hb | apply IH].
Qed.

Lemma appends_comprehension {A B : Type} (f : A -> M B) xs :
  (forall x, appends (f x)) -> appends (comprehension f xs).
Proof.
  intros Hf. induction xs as [|x xs IH]; simpl.
  - apply appends_ret.
  - apply appends_bind; [apply Hf|]. intros y.
    apply appends_bind; [apply IH|]. intros ys. apply appends_ret.
Qed.

Lemma appends_get_heap : appends get_heap.
Proof. intros h. exists []. by rewrite app_nil_r. Qed.

Lemma appends_alloc v : appends (alloc v).
Proof. intros h. by exists [v]. Qed.

Lemma appends_std_dev x : appends (std_dev x).
Proof. intros h. exists []. by rewrite app_nil_r. Qed.

Lemma appends_deepcopy x : appends (deepcopy x).
Proof. intros h. by exists h. Qed.

#[local] Hint Resolve appends_ret appends_raise appends_get_heap appends_alloc
  appends_std_dev appends_deepcopy : py.

(** The composite operations only create objects: the proof follows their
    structure. *)
Ltac appends_structure :=
  repeat first
    [ progress auto with py
    | apply appends_bind; [|intros ?]
    | apply appends_try_except
    | apply appends_for_range; intros ?
    | apply appends_comprehension; intros ?
    | match goal with
      | |- appends (if ?b then _ else _) => destruct b
      | |- appends (match ?x with _ => _ end) => destruct x
      | |- appends (let '_ := ?x in _) => destruct x
      end ].

Lemma appends_ufloat x s : appends (ufloat x s).
Proof. unfold ufloat. appends_structure. Qed.

Lemma appends_udiv x y : appends (udiv x y).
Proof. unfold udiv. appends_structure. Qed.

Lemma appends_as_number v : appends (as_number v).
Proof. unfold as_number. appends_structure. Qed.

Lemma appends_py_truth v : appends (py_truth v).
Proof. unfold py_truth. appends_structure. Qed.

Lemma appends_py_lower v : appends (py_lower v).
Proof. unfold py_lower. appends_structure. Qed.

Lemma appends_py_float v : appends (py_float v).
Proof. unfold py_float. appends_structure. Qed.

Lemma appends_py_nominal_value v : appends (py_nominal_value v).
Proof. unfold py_nominal_value. appends_structure. Qed.

Lemma appends_pr_get pr key default : appends (pr_get pr key default).
Proof. unfold pr_get. appends_structure. Qed.

Lemma appends_bound {A : Type} (x : option A) : appends (bound x).
Proof. unfold bound. appends_structure. Qed.

Lemma appends_variable_copy l : appends (variable_copy l).
Proof. unfold variable_copy. appends_structure. Qed.

#[local] Hint Resolve appends_ufloat appends_udiv appends_as_number
  appends_py_truth appends_py_lower appends_py_float appends_py_nominal_value
  appends_pr_get appends_bound appends_variable_copy : py.

Lemma appends_py_binop op a b :
  (forall x y, appends (op x y)) -> appends (py_binop op a b).
Proof. intros Hop. unfold py_binop. appends_structure. Qed.

Lemma appends_py_getattr v name : appends (py_getattr v name).
Proof.
  unfold py_getattr. destruct v; auto with py.
  repeat (match goal with
          | |- appends (match ?x with _ => _ end) => destruct x
          end; auto with py).
  all: appends_structure.
Qed.

Lemma appends_ArArConstants_getattr name : appends (ArArConstants.getattr name).
Proof.
  assert (Hc : forall n, appends (ArArConstants.class_attribute n)).
  { intros n. unfold ArArConstants.class_attribute. appends_structure. }
  assert (Hp : forall v e, appends (ArArConstants.ufloat_property v e)).
  { intros v e. unfold ArArConstants.ufloat_property. appends_structure. }
  assert (Hs : forall n, appends (ArArConstants.getattr_of_self n)).
  { intros n. unfold ArArConstants.getattr_of_self.
    repeat (match goal with
            | |- appends (match ?x with _ => _ end) => destruct x
            end; auto). }
  unfold ArArConstants.getattr.
  repeat (match goal with
          | |- appends (match ?x with _ => _ end) => destruct x
          end; auto).
  - apply appends_bind; [auto|]. intros a.
    apply appends_bind; [auto|]. intros b.
    apply appends_py_binop. auto with py.
  - apply appends_bind; [auto|]. intros a.
    apply appends_bind; [auto|]. intros b.
    apply appends_bind; [apply appends_py_getattr|]. intros e.
    apply appends_py_binop. auto with py.
Qed.

Lemma appends_getattr o name : appends (getattr o name).
Proof.
  destruct o as [|c]; [apply appends_ArArConstants_getattr|].
  unfold getattr.
  repeat (match goal with
          | |- appends (match ?x with _ => _ end) => destruct x
          end; auto with py).
Qed.

#[local] Hint Resolve appends_getattr : py.

Lemma appends_apply_fixed_k3739 a39 pr x : appends (apply_fixed_k3739 a39 pr x).
Proof. unfold apply_fixed_k3739. appends_structure. Qed.

Lemma appends_iteration a37 a39 pr st : appends (iteration a37 a39 pr st).
Proof. unfold iteration. appends_structure. Qed.

#[local] Hint Resolve appends_apply_fixed_k3739 appends_iteration : py.

Lemma appends_interference_corrections a40 a39 a38 a37 a36 pr o fixed_k3739 :
  appends (interference_corrections a40 a39 a38 a37 a36 pr o fixed_k3739).
Proof. unfold interference_corrections. appends_structure. Qed.

Lemma appends_atm_iteration a38 a36 k38 ca38 ca36 m o st :
  appends (atm_iteration a38 a36 k38 ca38 ca36 m o st).
Proof. unfold atm_iteration. appends_structure. Qed.

#[local] Hint Resolve appends_atm_iteration : py.

Lemma appends_calculate_atmospheric a38 a36 k38 ca38 ca36 decay_time pr o :
  appends (calculate_atmospheric a38 a36 k38 ca38 ca36 decay_time pr o).
Proof. unfold calculate_atmospheric. appends_structure. Qed.

#[local] Hint Resolve appends_interference_corrections
  appends_calculate_atmospheric : py.

(** Frames compose, and clearing the errors of objects that lie behind
    the frame keeps it. *)
Lemma frame_bind {A B : Type} n (m : M A) (k : A -> M B) :
  frame n m -> (forall a, frame n (k a)) -> frame n (bind m k).
Proof.
  intros Hm Hk h Hn. unfold bind. destruct (Hm h Hn) as [Hlen Htake].
  destruct (m h) as [a h'|e h']; simpl in *.
  - destruct (Hk a h' Hlen) as [Hlen' Htake']. split; [done|].
    by rewrite Htake'.
  - done.
Qed.

Lemma frame_set_std_dev n l s : (n <= l)%nat -> frame n (set_std_dev l s).
Proof.
  intros Hl h Hn. unfold set_std_dev.
  destruct (Rlt_dec s 0); simpl; [done|].
  rewrite length_alter. split; [done|].
  apply list_eq. intros i. rewrite !lookup_take.
  destruct (decide (i < n)%nat); [|done].
  rewrite list_lookup_alter_ne by lia. done.
Qed.

Lemma frame_clear_errors n pps :
  Forall (fun l => (n <= l)%nat) pps -> frame n (clear_errors pps).
Proof.
  induction 1 as [|l pps Hl _ IH]; simpl.
  - apply appends_frame, appends_ret.
  - apply frame_bind; [by apply frame_set_std_dev | intros _; exact IH].
Qed.

(** The copies of the ratios are new objects. *)
Lemma copied_ratios_are_new (interferences : ratios) (h : heap) key l :
  (list_to_map (imap (fun i kv => (kv.1, (length h + i)%nat))
                     (map_to_list interferences)) : ratios) !! key = Some l ->
  (length h <= l)%nat.
Proof.
  intros Hl. apply elem_of_list_to_map_2 in Hl.
  apply elem_of_lookup_imap in Hl as (i & kv & E & _).
  injection E as _ ->. lia.
Qed.

Lemma frame_calculate_F isotopes decay_time interferences o fixed_k3739
    (h : heap) :
  frame (length h)
        (calculate_F isotopes decay_time interferences o fixed_k3739).
Proof.
  destruct isotopes as [[[[a40 a39] a38] a37] a36]. unfold calculate_F.
  intros h0 Hh0.
  erewrite bind_ok by apply copy_ratios_ok.
  set (pr := list_to_map _).
  destruct (copy_heap_prefix (map_to_list (default ∅ interferences)) h0)
    as [t Ht].
  rewrite Ht.
  assert (Hnew : Forall (fun l => (length h <= l)%nat)
                        (map snd (map_to_list pr))).
  { apply Forall_forall. intros l Hl.
    apply list_elem_of_fmap in Hl as ([key l'] & -> & Hin).
    apply elem_of_map_to_list in Hin. simpl.
    apply copied_ratios_are_new in Hin. lia. }
  assert (Hrest : forall (m : M F_result), frame (length h) m ->
            (length h <= length (heap_of (m (h0 ++ t))))%nat
            /\ take (length h) (heap_of (m (h0 ++ t))) = take (length h) h0).
  { intros m Hm. destruct (Hm (h0 ++ t)) as [Hlen Htake].
    - rewrite length_app. lia.
    - split; [done|]. by rewrite Htake, take_app_le. }
  apply Hrest.
  repeat first
    [ apply frame_bind;
        [solve [apply appends_frame; appends_structure] | intros ?]
    | match goal with
      | |- frame _ (let '_ := ?x in _) => destruct x
      end ].
  apply frame_bind; [by apply frame_clear_errors | intros _].
  apply appends_frame, appends_ret.
Qed.

(** C9.  Whatever [calculate_F] does, returning or raising, every object
    that was in the heap before the call, and so every ratio of the
    caller's dictionary, has afterwards the nominal value and the
    standard deviation it had: the standard deviations that the function
    clears are those of the copies it made. *)
Theorem calculate_F_keeps_the_ratios
    isotopes decay_time interferences o fixed_k3739 (h : heap) l v :
  h !! l = Some v ->
  heap_of (calculate_F isotopes decay_time interferences o fixed_k3739 h) !! l
  = Some v.
Proof.
  intros Hl.
  destruct (frame_calculate_F isotopes decay_time interferences o fixed_k3739 h
              h (le_n _)) as [Hlen Htake].
  assert (Hlt : (l < length h)%nat) by by eapply lookup_lt_Some.
  rewrite <- (lookup_take_lt _ (length h)) by exact Hlt.
  rewrite Htake. by rewrite lookup_take_lt.
Qed.

Lemma calculate_F_keeps_the_ratios_witness :
  heap_of (calculate_F (uconst 100, uconst 10, uconst 1, uconst 2, uconst 0.1)
                       0 (Some example_interferences)
                       (Some (Configured example_constants)) (PyBool false)
                       example_ratio_heap) !! 0%nat
  = Some (mkVariable 0.01 0.001).
Proof.
  apply (calculate_F_keeps_the_ratios
           (uconst 100, uconst 10, uconst 1, uconst 2, uconst 0.1)
           0 (Some example_interferences)
           (Some (Configured example_constants)) (PyBool false)
           example_ratio_heap 0%nat (mkVariable 0.01 0.001)).
  reflexivity.
Defined.

(** Without the copy the caller's ratio would lose its error. *)
Example clear_errors_changes_its_argument :
  clear_errors [0%nat] example_ratio_heap = Ok tt [mkVariable 0.01 0].
Proof.
  unfold clear_errors, set_std_dev, bind.
  destruct (Rlt_dec 0 0) as [Hlt|_]; [lra | reflexivity].
Qed.

(** ** calculate_atmospheric *)

Lemma atm_iteration_pass a38 a36 k38 ca38 ca36 m c st h :
  atm_iteration a38 a36 k38 ca38 ca36 m (Configured c) st h
  = Ok (let '(cl36, atm36) :=
          atm_pass a38 a36 k38 ca38 ca36 m (nominal_value (atm3836 c)) st.2 in
        (Some cl36, atm36)) h.
Proof. reflexivity. Qed.

Lemma for_range_atm_iteration n a38 a36 k38 ca38 ca36 m c st h :
  for_range (S n) (atm_iteration a38 a36 k38 ca38 ca36 m (Configured c)) st h
  = Ok (let f := atm_pass a38 a36 k38 ca38 ca36 m (nominal_value (atm3836 c)) in
        let '(cl36, atm36) := f (Nat.iter n (fun x => (f x).2) st.2) in
        (Some cl36, atm36)) h.
Proof.
  revert st. induction n as [|n IH]; intros st.
  - rewrite for_range_S. erewrite bind_ok by apply atm_iteration_pass.
    reflexivity.
  - rewrite for_range_S. erewrite bind_ok by apply atm_iteration_pass.
    rewrite IH. cbv zeta. rewrite Nat.iter_succ_r. reflexivity.
Qed.

Lemma calculate_atmospheric_configured
    a38 a36 k38 ca38 ca36 decay_time pr c h :
  calculate_atmospheric a38 a36 k38 ca38 ca36 decay_time (Some pr)
                        (Some (Configured c)) h
  = Ok (atmospheric h pr c a38 a36 k38 ca38 ca36 decay_time)
       (h ++ [mkVariable 0 1e-20]).
Proof.
  unfold calculate_atmospheric.
  erewrite bind_ok by apply pr_get_ratio.
  do 2 (erewrite bind_ok by reflexivity).
  erewrite bind_ok by (apply ufloat_ok; lra).
  erewrite bind_ok by apply for_range_atm_iteration.
  reflexivity.
Qed.

(** ** Clearing the errors *)

Lemma clear_errors_ok pps h : clear_errors pps h = Ok tt (clear_heap pps h).
Proof.
  revert h. induction pps as [|l pps IH]; intros h; [reflexivity|].
  simpl. unfold bind, set_std_dev.
  destruct (Rlt_dec 0 0) as [Hlt|_]; [lra|]. apply IH.
Qed.

(** Clearing leaves a nominal value as it is, and a standard deviation as
    it is or zero. *)
Lemma clear_heap_lookup pps h l v :
  clear_heap pps h !! l = Some v ->
  exists v0, h !! l = Some v0
    /\ var_nominal_value v = var_nominal_value v0
    /\ (var_std_dev v = var_std_dev v0 \/ var_std_dev v = 0).
Proof.
  revert h v. induction pps as [|p pps IH]; intros h v Hv; simpl in Hv.
  - exists v. auto.
  - apply IH in Hv as (v1 & Hv1 & Hn & Hs).
    rewrite list_lookup_alter in Hv1.
    destruct (decide (p = l)) as [->|Hne].
    + destruct (h !! l) as [v0|] eqn:E; [|done].
      injection Hv1 as <-. exists v0. simpl in *. split; [done|].
      split; [done|]. destruct Hs as [->| ->]; auto.
    + exists v1. auto.
Qed.

Lemma variance_cleared_zero pps h x :
  (forall l v, h !! l = Some v -> derivatives x l <> 0 -> var_std_dev v = 0) ->
  variance (clear_heap pps h) x = 0.
Proof.
  intros H. apply variance_zero. intros l v Hv.
  destruct (decide (derivatives x l = 0)) as [->|Hd]; [ring|].
  apply clear_heap_lookup in Hv as (v0 & Hv0 & _ & Hs).
  specialize (H l v0 Hv0 Hd).
  destruct Hs as [Hs|Hs]; rewrite Hs; [rewrite H|]; ring.
Qed.

(** ** calculate_F when 39Ar(K) is zero (claim C3) *)

Lemma deepcopy_ok x h : deepcopy x h = Ok (deepcopied x h) (h ++ h).
Proof. reflexivity. Qed.

Lemma rad40_percent_ok rad40 a40 h :
  exists rp t,
    try_except (do q <- udiv rad40 a40; ret (umul q (uconst 100)))
               catch_ZeroDivisionError (ufloat 0 0) h
    = Ok rp (h ++ t).
Proof.
  destruct (decide (nominal_value a40 = 0)) as [Hz|Hnz].
  - eexists _, _. erewrite try_except_caught;
      [apply ufloat_ok; lra
      |erewrite bind_raise by (by apply udiv_zero); reflexivity
      |reflexivity].
  - destruct (udiv_ok rad40 a40 h Hnz) as (q & Eq & _).
    exists (umul q (uconst 100)), []. rewrite app_nil_r.
    apply try_except_ok. erewrite bind_ok by exact Eq. reflexivity.
Qed.

(** C3.  When the interference corrections that [calculate_F] runs on its
    copy of the ratios give a [k39] of nominal value zero, [calculate_F]
    returns, and both F-ratios it returns are the quantity (1.0, 0.0). *)
Theorem calculate_F_zero_k39
    a40 a39 a38 a37 a36 decay_time interferences o fixed_k3739 h
    pr h1 k37 k38 k39 ca36 ca37 ca38 ca39 h2 :
  copy_ratios (default ∅ interferences) h = Ok pr h1 ->
  interference_corrections a40 a39 a38 a37 a36 (Some pr) (Some (or_default o))
                           fixed_k3739 h1
  = Ok (k37, k38, k39, ca36, ca37, ca38, ca39) h2 ->
  nominal_value k39 = 0 ->
  exists res hf,
    calculate_F (a40, a39, a38, a37, a36) decay_time interferences o
                fixed_k3739 h
    = Ok res hf
    /\ nominal_value (rf res) = 1 /\ std_dev (rf res) hf = Ok 0 hf
    /\ nominal_value (f_wo_irrad res) = 1
    /\ std_dev (f_wo_irrad res) hf = Ok 0 hf.
Proof.
  intros Hcopy Hcorr Hk39.
  destruct (or_default o) as [|c] eqn:Ho.
  { rewrite interference_corrections_default in Hcorr by reflexivity.
    discriminate. }
  unfold calculate_F. rewrite Ho.
  erewrite bind_ok by exact Hcopy.
  erewrite bind_ok by exact Hcorr. cbv beta iota.
  erewrite bind_ok by apply calculate_atmospheric_configured.
  destruct (atmospheric h2 pr c a38 a36 k38 ca38 ca36 decay_time)
    as [atm36 cl36].
  cbv beta iota.
  set (h3 := h2 ++ [mkVariable 0 1e-20]).
  do 2 (erewrite bind_ok by reflexivity).
  erewrite bind_ok by apply pr_get_ratio.
  erewrite bind_ok;
    [|erewrite try_except_caught;
      [apply ufloat_ok; lra | by apply udiv_zero | reflexivity]].
  set (h4 := h3 ++ [mkVariable 1 0]).
  erewrite bind_ok by apply deepcopy_ok.
  lazymatch goal with
  | |- context [try_except (bind (udiv ?rad40 _) _) _ _] =>
      destruct (rad40_percent_ok rad40 a40 (h4 ++ h4)) as (rp & t & Erp)
  end.
  erewrite bind_ok by exact Erp.
  erewrite bind_ok by apply clear_errors_ok.
  eexists _, _. split; [reflexivity|]. simpl rf. simpl f_wo_irrad.
  assert (Hcell : forall l, l = length h3 \/ l = (length h4 + length h3)%nat ->
            ((h4 ++ h4) ++ t) !! l = Some (mkVariable 1 0)).
  { intros l [-> | ->].
    - rewrite <- app_assoc. unfold h4. rewrite <- app_assoc.
      by apply list_lookup_middle.
    - rewrite <- app_assoc. rewrite lookup_app_r by lia.
      replace (length h4 + length h3 - length h4)%nat with (length h3) by lia.
      unfold h4 at 1. rewrite <- app_assoc. by apply list_lookup_middle. }
  split; [reflexivity|]. split; [|split; [reflexivity|]].
  - unfold std_dev. rewrite variance_cleared_zero; [by rewrite sqrt_0|].
    intros l v Hv Hd. simpl in Hd.
    destruct (decide (length h4 <= l < length h4 + length h4)%nat) as [Hl|];
      [|done].
    destruct (Nat.eqb_spec (l - length h4) (length h3)) as [E|]; [|done].
    rewrite (Hcell l) in Hv by lia. by injection Hv as <-.
  - unfold std_dev. rewrite variance_cleared_zero; [by rewrite sqrt_0|].
    intros l v Hv Hd. simpl in Hd.
    destruct (Nat.eqb_spec l (length h3)) as [E|]; [|done].
    rewrite (Hcell l) in Hv by (by left). by injection Hv as <-.
Qed.

Lemma copy_ratios_empty h : copy_ratios ∅ h = Ok ∅ h.
Proof. rewrite copy_ratios_ok, map_to_list_empty. reflexivity. Qed.

Lemma ratio_empty h key default : ratio h ∅ key default = uconst default.
Proof. unfold ratio. by rewrite lookup_empty. Qed.

Lemma calculate_F_zero_k39_witness :
  exists res hf,
    calculate_F (uconst 100, uconst 0, uconst 1, uconst 2, uconst 0.1) 0 None
                (Some (Configured example_constants)) (PyBool false) []
    = Ok res hf
    /\ nominal_value (rf res) = 1 /\ std_dev (rf res) hf = Ok 0 hf
    /\ nominal_value (f_wo_irrad res) = 1
    /\ std_dev (f_wo_irrad res) hf = Ok 0 hf.
Proof.
  pose proof (interference_corrections_iterative
                (uconst 100) (uconst 0) (uconst 1) (uconst 2) (uconst 0.1)
                ∅ example_constants (PyBool false) [] eq_refl is_false_False)
    as Hcorr.
  unfold iterative_corrections in Hcorr.
  cbv beta iota zeta delta [pass] in Hcorr.
  eapply (calculate_F_zero_k39 _ _ _ _ _ 0 None
            (Some (Configured example_constants)) (PyBool false) []
            ∅ [] _ _ _ _ _ _ _ _ (copy_ratios_empty []) Hcorr).
  rewrite !ratio_empty. simpl. ring.
Defined.

(** ** The copies of the ratios *)

Lemma copy_heap_wf xs (h : heap) :
  Forall (fun kv : string * loc => (kv.2 < length h)%nat) xs ->
  copy_heap xs h = h ++ ((fun kv => h !!! kv.2) <$> xs).
Proof.
  revert h. induction xs as [|x xs IH]; intros h Hwf.
  - simpl. by rewrite app_nil_r.
  - apply Forall_cons in Hwf as [Hx Hxs]. simpl. rewrite IH.
    + rewrite <- app_assoc. simpl. do 2 f_equal.
      apply list_fmap_ext. intros i kv Hkv. apply lookup_total_app_l.
      rewrite Forall_forall in Hxs. apply Hxs.
      apply list_elem_of_lookup. by exists i.
    + eapply Forall_impl; [exact Hxs|]. intros kv Hkv.
      rewrite length_app. simpl in *. lia.
Qed.

Lemma ratios_wf_map_to_list h (pr : ratios) :
  ratios_wf h pr ->
  Forall (fun kv : string * loc => (kv.2 < length h)%nat) (map_to_list pr).
Proof.
  intros Hwf. apply Forall_forall. intros [key l] Hin.
  apply elem_of_map_to_list in Hin. by eapply Hwf.
Qed.

Lemma imap_copy_keys (h : heap) (xs : list (string * loc)) :
  (imap (fun i kv => (kv.1, (length h + i)%nat)) xs).*1 = xs.*1.
Proof.
  rewrite fmap_imap. apply list_eq. intros i.
  rewrite list_lookup_imap, list_lookup_fmap. by destruct (xs !! i).
Qed.

(** The copy of a ratio has the nominal value and the standard deviation
    of the original. *)
Lemma copied_ratio_lookup (interferences : ratios) (h : heap) key l :
  ratios_wf h interferences ->
  interferences !! key = Some l ->
  exists l',
    (list_to_map (imap (fun i kv => (kv.1, (length h + i)%nat))
                       (map_to_list interferences)) : ratios) !! key = Some l'
    /\ copy_heap (map_to_list interferences) h !! l' = Some (h !!! l).
Proof.
  intros Hwf Hl.
  apply elem_of_map_to_list in Hl.
  apply list_elem_of_lookup in Hl as [i Hi].
  exists (length h + i)%nat. split.
  - apply elem_of_list_to_map_1.
    + rewrite imap_copy_keys. apply NoDup_fst_map_to_list.
    + apply (elem_of_lookup_imap_2
               (fun i (kv : string * loc) => (kv.1, (length h + i)%nat))
               _ (key, l) i Hi).
  - rewrite copy_heap_wf by by apply ratios_wf_map_to_list.
    rewrite lookup_app_r by lia.
    replace (length h + i - length h)%nat with i by lia.
    by rewrite list_lookup_fmap, Hi.
Qed.

(** ** No interference (claim C1) *)

Lemma zero_ratio_nominal h t pr key default :
  zero_ratio h pr key ->
  nominal_value (ratio (h ++ t) pr key default) = 0.
Proof.
  intros (l & Hl & Hlt & Hz). unfold ratio. rewrite Hl. simpl.
  by rewrite lookup_total_app_l.
Qed.

Lemma zero_ratio_nominal_0 h pr key default :
  zero_ratio h pr key -> nominal_value (ratio h pr key default) = 0.
Proof.
  intros Hz. rewrite <- (app_nil_r h). by apply zero_ratio_nominal.
Qed.

Lemma zero_ratio_copied (interferences : ratios) (h : heap) key :
  ratios_wf h interferences ->
  zero_ratio h interferences key ->
  zero_ratio (copy_heap (map_to_list interferences) h)
             (list_to_map (imap (fun i kv => (kv.1, (length h + i)%nat))
                                (map_to_list interferences)))
             key.
Proof.
  intros Hwf (l & Hl & Hlt & Hz).
  destruct (copied_ratio_lookup interferences h key l Hwf Hl) as (l' & Hl' & Hc).
  exists l'. split; [exact Hl'|]. split; [by eapply lookup_lt_Some|].
  by rewrite (list_lookup_total_correct _ _ _ Hc).
Qed.

Lemma no_interference_key h pr key :
  no_interference h pr -> key ∈ interference_keys -> zero_ratio h pr key.
Proof. intros H Hin. by apply (proj1 (Forall_forall _ _) H). Qed.

Lemma iterative_corrections_no_interference h pr allow a39 a37 :
  no_interference h pr ->
  let '(k37, k38, k39, ca36, ca37, ca38, ca39, _) :=
    iterative_corrections h pr allow a39 a37 in
  nominal_value k37 = 0 /\ nominal_value k38 = 0
  /\ nominal_value k39 = nominal_value a39
  /\ nominal_value ca36 = 0
  /\ nominal_value ca37
     = (if allow then nominal_value a37 else Rmax 0 (nominal_value a37))
  /\ nominal_value ca38 = 0 /\ nominal_value ca39 = 0.
Proof.
  intros Hno. unfold iterative_corrections.
  cbv beta iota zeta delta [pass].
  set (h1 := h ++ [mkVariable 0 1e-20]).
  assert (H1 : forall key default, key ∈ interference_keys ->
             nominal_value (ratio h1 pr key default) = 0).
  { intros key default Hin. apply zero_ratio_nominal.
    by apply no_interference_key. }
  assert (H2 : forall key default t, key ∈ interference_keys ->
             nominal_value (ratio (h1 ++ t) pr key default) = 0).
  { intros key default t Hin. unfold h1. rewrite <- app_assoc.
    apply zero_ratio_nominal. by apply no_interference_key. }
  assert (Hca3937 := H1 "ca3937"%string 0 ltac:(set_solver)).
  assert (Hk3739 := H1 "k3739"%string 0 ltac:(set_solver)).
  assert (Hk3839 := H1 "k3839"%string 0 ltac:(set_solver)).
  pose proof (nominal_value_iter (ratio h1 pr "ca3937" 0) (ratio h1 pr "k3739" 0)
                a37 a39 (of_variable 0 (length h)) 4 eq_refl) as Hiter.
  rewrite Hk3739 in Hiter.
  replace (s_k37 _) with 0 in Hiter by (simpl; ring).
  assert (Hca37 : nominal_value
            (usub a37 (Nat.iter 4
               (k37_after_pass (ratio h1 pr "ca3937" 0) (ratio h1 pr "k3739" 0)
                               a37 a39) (of_variable 0 (length h))))
          = nominal_value a37).
  { change (nominal_value (usub ?x ?y))
      with (nominal_value x - nominal_value y).
    rewrite Hiter. ring. }
  repeat split.
  - change (nominal_value (umul ?x ?y))
      with (nominal_value x * nominal_value y).
    rewrite Hk3739. ring.
  - change (nominal_value (umul ?x ?y))
      with (nominal_value x * nominal_value y).
    rewrite Hk3839. ring.
  - change (nominal_value (usub a39 (umul ?x ?y)))
      with (nominal_value a39 - nominal_value x * nominal_value y).
    rewrite Hca3937. ring.
  - change (nominal_value (umul ?x ?y))
      with (nominal_value x * nominal_value y).
    destruct allow;
      [rewrite H1 by set_solver | rewrite H2 by set_solver]; ring.
  - destruct allow; [exact Hca37|].
    by rewrite nominal_value_py_max_zero, Hca37.
  - change (nominal_value (umul ?x ?y))
      with (nominal_value x * nominal_value y).
    destruct allow;
      [rewrite H1 by set_solver | rewrite H2 by set_solver]; ring.
  - change (nominal_value (umul ?x ?y))
      with (nominal_value x * nominal_value y).
    rewrite Hca3937. ring.
Qed.

Lemma interference_corrections_no_interference
    a40 a39 a38 a37 a36 pr c fixed_k3739 h :
  no_interference h pr ->
  lower (k3739_mode c) = "normal"%string ->
  is_false fixed_k3739 ->
  exists k37 k38 k39 ca36 ca37 ca38 ca39 t,
    interference_corrections a40 a39 a38 a37 a36 (Some pr)
                             (Some (Configured c)) fixed_k3739 h
    = Ok (k37, k38, k39, ca36, ca37, ca38, ca39) (h ++ t)
    /\ nominal_value k37 = 0 /\ nominal_value k38 = 0
    /\ nominal_value k39 = nominal_value a39
    /\ nominal_value ca36 = 0
    /\ nominal_value ca37
       = (if allow_negative_ca_correction c then nominal_value a37
          else Rmax 0 (nominal_value a37))
    /\ nominal_value ca38 = 0 /\ nominal_value ca39 = 0.
Proof.
  intros Hno Hmode Hfixed.
  rewrite (interference_corrections_iterative _ _ _ _ _ _ _ _ _ Hmode Hfixed).
  pose proof (iterative_corrections_no_interference h pr
                (allow_negative_ca_correction c) a39 a37 Hno) as Hnom.
  assert (Hheap : exists t,
    (iterative_corrections h pr (allow_negative_ca_correction c) a39 a37).2
    = h ++ t).
  { unfold iterative_corrections. cbv beta iota zeta delta [pass]. simpl snd.
    destruct (allow_negative_ca_correction c); eexists;
      [reflexivity | by rewrite <- app_assoc]. }
  destruct Hheap as [t Ht].
  destruct (iterative_corrections h pr (allow_negative_ca_correction c) a39 a37)
    as [[[[[[[k37 k38] k39] ca36] ca37] ca38] ca39] h2].
  simpl in Ht. subst h2.
  by exists k37, k38, k39, ca36, ca37, ca38, ca39, t.
Qed.

(** The run of [calculate_F] when [k39] is not zero: the F-ratio [f] is
    computed in the heap [h3]; the function returns its deep copy and [f]
    itself, after it has cleared the errors of its copies of the ratios. *)
Lemma calculate_F_run
    a40 a39 a38 a37 a36 decay_time interferences c fixed_k3739 h
    pr h1 k37 k38 k39 ca36 ca37 ca38 ca39 h2 :
  copy_ratios (default ∅ interferences) h = Ok pr h1 ->
  interference_corrections a40 a39 a38 a37 a36 (Some pr) (Some (Configured c))
                           fixed_k3739 h1
  = Ok (k37, k38, k39, ca36, ca37, ca38, ca39) h2 ->
  nominal_value k39 <> 0 ->
  let h3 := h2 ++ [mkVariable 0 1e-20] in
  let atm36 := (atmospheric h2 pr c a38 a36 k38 ca38 ca36 decay_time).1 in
  let rad40 :=
    usub (usub a40 (umul atm36 (uconst (nominal_value (atm4036 c)))))
         (umul k39 (ratio h3 pr "k4039" 1)) in
  exists f res t,
    udiv rad40 k39 h3 = Ok f h3
    /\ calculate_F (a40, a39, a38, a37, a36) decay_time interferences
                   (Some (Configured c)) fixed_k3739 h
       = Ok res (clear_heap (map snd (map_to_list pr)) ((h3 ++ h3) ++ t))
    /\ rf res = deepcopied f h3
    /\ f_wo_irrad res = f.
Proof.
  intros Hcopy Hcorr Hk39. cbv zeta.
  unfold calculate_F. simpl or_default.
  erewrite bind_ok by exact Hcopy.
  erewrite bind_ok by exact Hcorr. cbv beta iota.
  erewrite bind_ok by apply calculate_atmospheric_configured.
  destruct (atmospheric h2 pr c a38 a36 k38 ca38 ca36 decay_time)
    as [atm36 cl36].
  cbv beta iota. simpl fst.
  set (h3 := h2 ++ [mkVariable 0 1e-20]).
  do 2 (erewrite bind_ok by reflexivity).
  erewrite bind_ok by apply pr_get_ratio.
  lazymatch goal with
  | |- context [try_except (udiv ?rad40 k39) _ _] =>
      destruct (udiv_ok rad40 k39 h3 Hk39) as (f & Ef & Hf)
  end.
  erewrite bind_ok by (apply try_except_ok; exact Ef).
  erewrite bind_ok by apply deepcopy_ok.
  lazymatch goal with
  | |- context [try_except (bind (udiv ?rad40 _) _) _ _] =>
      destruct (rad40_percent_ok rad40 a40 (h3 ++ h3)) as (rp & t & Erp)
  end.
  erewrite bind_ok by exact Erp.
  erewrite bind_ok by apply clear_errors_ok.
  eexists f, _, t. split; [exact Ef|]. split; [reflexivity|].
  split; reflexivity.
Qed.

(** What [calculate_F] returns as F when [k39] is not zero. *)
Lemma calculate_F_value
    a40 a39 a38 a37 a36 decay_time interferences c fixed_k3739 h
    pr h1 k37 k38 k39 ca36 ca37 ca38 ca39 h2 :
  copy_ratios (default ∅ interferences) h = Ok pr h1 ->
  interference_corrections a40 a39 a38 a37 a36 (Some pr) (Some (Configured c))
                           fixed_k3739 h1
  = Ok (k37, k38, k39, ca36, ca37, ca38, ca39) h2 ->
  nominal_value k39 <> 0 ->
  exists res hf,
    calculate_F (a40, a39, a38, a37, a36) decay_time interferences
                (Some (Configured c)) fixed_k3739 h
    = Ok res hf
    /\ nominal_value (rf res)
       = (nominal_value a40
          - nominal_value
              (atmospheric h2 pr c a38 a36 k38 ca38 ca36 decay_time).1
            * nominal_value (atm4036 c)
          - nominal_value k39
            * nominal_value (ratio (h2 ++ [mkVariable 0 1e-20]) pr "k4039" 1))
         / nominal_value k39.
Proof.
  intros Hcopy Hcorr Hk39.
  destruct (calculate_F_run a40 a39 a38 a37 a36 decay_time interferences c
              fixed_k3739 h pr h1 k37 k38 k39 ca36 ca37 ca38 ca39 h2
              Hcopy Hcorr Hk39) as (f & res & t & Ef & Eres & Hrf & _).
  eexists res, _. split; [exact Eres|]. rewrite Hrf. simpl.
  unfold udiv in Ef. destruct (decide (nominal_value k39 = 0)); [done|].
  injection Ef as <-. reflexivity.
Qed.

Lemma atmospheric_no_chlorine h pr c a38 a36 k38 ca38 ca36 decay_time :
  nominal_value (ratio h pr "cl3638" 0) = 0 ->
  nominal_value (atmospheric h pr c a38 a36 k38 ca38 ca36 decay_time).1
  = nominal_value a36 - nominal_value ca36.
Proof.
  intros Hcl. unfold atmospheric. cbv beta iota zeta delta [atm_pass].
  simpl. rewrite Hcl. ring.
Qed.

(** C1 (amended).  In iterative mode, when the seven interference ratios
    of the dictionary have nominal value zero, the corrections are
    [k37 = k38 = ca36 = ca38 = ca39 = 0], while [k39] is the measured 39Ar
    and [ca37] the measured 37Ar (clamped at zero unless negative
    corrections are allowed); the atmospheric 36Ar is then the measured
    36Ar, and when the measured 39Ar is not zero the F that [calculate_F]
    returns is the measured 40Ar minus atm4036 times the measured 36Ar,
    divided by the measured 39Ar.  All equalities are on nominal values. *)
Theorem no_interference_corrections
    a40 a39 a38 a37 a36 decay_time interferences c fixed_k3739 h :
  ratios_wf h interferences ->
  no_interference h interferences ->
  lower (k3739_mode c) = "normal"%string ->
  is_false fixed_k3739 ->
  (exists k37 k38 k39 ca36 ca37 ca38 ca39 t,
     interference_corrections a40 a39 a38 a37 a36 (Some interferences)
                              (Some (Configured c)) fixed_k3739 h
     = Ok (k37, k38, k39, ca36, ca37, ca38, ca39) (h ++ t)
     /\ nominal_value k37 = 0 /\ nominal_value k38 = 0
     /\ nominal_value k39 = nominal_value a39
     /\ nominal_value ca36 = 0
     /\ nominal_value ca37
        = (if allow_negative_ca_correction c then nominal_value a37
           else Rmax 0 (nominal_value a37))
     /\ nominal_value ca38 = 0 /\ nominal_value ca39 = 0)
  /\ (nominal_value a39 <> 0 ->
      exists res hf,
        calculate_F (a40, a39, a38, a37, a36) decay_time (Some interferences)
                    (Some (Configured c)) fixed_k3739 h
        = Ok res hf
        /\ nominal_value (rf res)
           = (nominal_value a40
              - nominal_value (atm4036 c) * nominal_value a36)
             / nominal_value a39).
Proof.
  intros Hwf Hno Hmode Hfixed.
  split; [by apply interference_corrections_no_interference|].
  intros Ha39.
  set (pr := list_to_map (imap (fun i kv => (kv.1, (length h + i)%nat))
                               (map_to_list interferences)) : ratios).
  set (h1 := copy_heap (map_to_list interferences) h).
  assert (Hno1 : no_interference h1 pr).
  { apply Forall_forall. intros key Hin.
    apply zero_ratio_copied; [exact Hwf | by apply no_interference_key]. }
  destruct (interference_corrections_no_interference a40 a39 a38 a37 a36 pr c
              fixed_k3739 h1 Hno1 Hmode Hfixed)
    as (k37 & k38 & k39 & ca36 & ca37 & ca38 & ca39 & t & Hcorr
        & _ & _ & Hk39 & Hca36 & _).
  destruct (calculate_F_value a40 a39 a38 a37 a36 decay_time (Some interferences)
              c fixed_k3739 h pr h1 k37 k38 k39 ca36 ca37 ca38 ca39 (h1 ++ t)
              (copy_ratios_ok interferences h) Hcorr)
    as (res & hf & Eres & HF); [by rewrite Hk39|].
  exists res, hf. split; [exact Eres|]. rewrite HF.
  rewrite atmospheric_no_chlorine, Hca36, Hk39.
  - rewrite <- app_assoc, zero_ratio_nominal.
    + field. exact Ha39.
    + apply no_interference_key; [exact Hno1 | set_solver].
  - apply zero_ratio_nominal. apply no_interference_key; [exact Hno1 | set_solver].
Qed.

Lemma zero_ratios_wf : ratios_wf zero_ratio_heap zero_ratios.
Proof.
  intros key l Hl. apply elem_of_list_to_map_2 in Hl. simpl in Hl.
  repeat (apply elem_of_cons in Hl as [Hl|Hl];
          [injection Hl as _ ->; simpl; lia|]).
  by apply elem_of_nil in Hl.
Qed.

Lemma zero_ratios_no_interference : no_interference zero_ratio_heap zero_ratios.
Proof.
  unfold no_interference, interference_keys.
  repeat (apply List.Forall_cons;
          [eexists; split;
           [vm_compute; reflexivity | split; [simpl; lia | reflexivity]]|]).
  apply List.Forall_nil.
Qed.

(** The claim fails for [k39] and [ca37]: without interference they are
    the measured 39Ar and 37Ar, not zero. *)
Lemma no_interference_k39_is_measured :
  exists k37 k38 k39 ca36 ca37 ca38 ca39 t,
    interference_corrections (uconst 100) (uconst 10) (uconst 1) (uconst 2)
                             (uconst 0.1) (Some zero_ratios)
                             (Some (Configured example_constants))
                             (PyBool false) zero_ratio_heap
    = Ok (k37, k38, k39, ca36, ca37, ca38, ca39) (zero_ratio_heap ++ t)
    /\ nominal_value k39 = 10 /\ nominal_value ca37 = 2
    /\ nominal_value k39 <> 0 /\ nominal_value ca37 <> 0.
Proof.
  destruct (interference_corrections_no_interference
              (uconst 100) (uconst 10) (uconst 1) (uconst 2) (uconst 0.1)
              zero_ratios example_constants (PyBool false) zero_ratio_heap
              zero_ratios_no_interference eq_refl is_false_False)
    as (k37 & k38 & k39 & ca36 & ca37 & ca38 & ca39 & t & E
        & _ & _ & Hk39 & _ & Hca37 & _).
  simpl in Hk39, Hca37.
  assert (Hca37' : nominal_value ca37 = 2).
  { rewrite Hca37. unfold Rmax. destruct (Rle_dec 0 2); lra. }
  exists k37, k38, k39, ca36, ca37, ca38, ca39, t.
  split; [exact E|]. split; [exact Hk39|]. split; [exact Hca37'|].
  rewrite Hk39, Hca37'. split; lra.
Qed.

Lemma no_interference_corrections_witness :
  (exists k37 k38 k39 ca36 ca37 ca38 ca39 t,
     interference_corrections (uconst 100) (uconst 10) (uconst 1) (uconst 2)
                              (uconst 0.1) (Some zero_ratios)
                              (Some (Configured example_constants))
                              (PyBool false) zero_ratio_heap
     = Ok (k37, k38, k39, ca36, ca37, ca38, ca39) (zero_ratio_heap ++ t)
     /\ nominal_value k37 = 0 /\ nominal_value k38 = 0
     /\ nominal_value k39 = nominal_value (uconst 10)
     /\ nominal_value ca36 = 0
     /\ nominal_value ca37
        = (if allow_negative_ca_correction example_constants
           then nominal_value (uconst 2)
           else Rmax 0 (nominal_value (uconst 2)))
     /\ nominal_value ca38 = 0 /\ nominal_value ca39 = 0)
  /\ (exists res hf,
        calculate_F (uconst 100, uconst 10, uconst 1, uconst 2, uconst 0.1)
                    0 (Some zero_ratios) (Some (Configured example_constants))
                    (PyBool false) zero_ratio_heap
        = Ok res hf
        /\ nominal_value (rf res)
           = (nominal_value (uconst 100)
              - nominal_value (atm4036 example_constants)
                * nominal_value (uconst 0.1))
             / nominal_value (uconst 10)).
Proof.
  destruct (no_interference_corrections
              (uconst 100) (uconst 10) (uconst 1) (uconst 2) (uconst 0.1) 0
              zero_ratios example_constants (PyBool false) zero_ratio_heap
              zero_ratios_wf zero_ratios_no_interference eq_refl is_false_False)
    as [Hcorr HF].
  split; [exact Hcorr|]. apply HF. simpl. lra.
Defined.

(** ** Standard deviations: the closed formulas and the propagation (claim C5) *)

Lemma py_sum_app xs ys : py_sum (xs ++ ys) = py_sum xs + py_sum ys.
Proof.
  rewrite !py_sum_foldr. induction xs as [|x xs IH]; simpl; [lra|].
  rewrite IH. lra.
Qed.

Lemma py_sum_imap_plus (f g : nat -> UVariable -> R) (h : heap) :
  py_sum (imap (fun i v => f i v + g i v) h)
  = py_sum (imap f h) + py_sum (imap g h).
Proof.
  revert f g. induction h as [|a h IH]; intros f g.
  - unfold py_sum. simpl. lra.
  - rewrite !imap_cons, !py_sum_cons.
    change ((fun i v => f i v + g i v) ∘ S)
      with (fun i v => (f ∘ S) i v + (g ∘ S) i v).
    rewrite IH. lra.
Qed.

Lemma py_sum_imap_ext (f g : nat -> UVariable -> R) (h : heap) :
  (forall i v, h !! i = Some v -> f i v = g i v) ->
  py_sum (imap f h) = py_sum (imap g h).
Proof. intros H. f_equal. by apply imap_ext. Qed.

(** A sum over the heap whose terms vanish outside two objects. *)
Lemma py_sum_imap_two (f : nat -> UVariable -> R) (h : heap) l1 l2 v1 v2 :
  l1 <> l2 -> h !! l1 = Some v1 -> h !! l2 = Some v2 ->
  (forall i v, i <> l1 -> i <> l2 -> h !! i = Some v -> f i v = 0) ->
  py_sum (imap f h) = f l1 v1 + f l2 v2.
Proof.
  intros Hne H1 H2 Hf.
  rewrite (py_sum_imap_ext f
             (fun i v => (if decide (i = l1) then f i v else 0)
                         + (if decide (i = l1) then 0 else f i v))).
  - rewrite py_sum_imap_plus.
    rewrite (py_sum_imap_single _ h l1 v1 H1).
    + rewrite (py_sum_imap_single _ h l2 v2 H2).
      * rewrite decide_True by done. by rewrite decide_False by done.
      * intros i v Hi Hv. simpl. destruct (decide (i = l1)); [done|].
        by apply Hf.
    + intros i v Hi _. simpl. by rewrite decide_False.
  - intros i v _. destruct (decide (i = l1)); lra.
Qed.

(** The variance of the quotient of two independent variables. *)
Lemma variance_ratio (h : heap) a la sa b lb sb :
  la <> lb ->
  h !! la = Some (mkVariable a sa) -> h !! lb = Some (mkVariable b sb) ->
  b <> 0 ->
  exists q,
    udiv (of_variable a la) (of_variable b lb) h = Ok q h
    /\ nominal_value q = a / b
    /\ variance h q = (sa ^ 2 + (a / b) ^ 2 * sb ^ 2) / b ^ 2.
Proof.
  intros Hne Ha Hb Hb0.
  eexists. split.
  - unfold udiv. simpl. destruct (decide (b = 0)); [done|reflexivity].
  - split; [reflexivity|]. unfold variance.
    rewrite (py_sum_imap_two _ h la lb _ _ Hne Ha Hb).
    + simpl. rewrite !Nat.eqb_refl.
      rewrite (proj2 (Nat.eqb_neq la lb) Hne).
      rewrite (proj2 (Nat.eqb_neq lb la)) by done.
      field. exact Hb0.
    + intros i v Hi1 Hi2 _. simpl.
      rewrite (proj2 (Nat.eqb_neq i la) Hi1), (proj2 (Nat.eqb_neq i lb) Hi2).
      field. exact Hb0.
Qed.

(** Clearing errors in the front part of a heap. *)
Lemma clear_heap_length pps h : length (clear_heap pps h) = length h.
Proof.
  revert h. induction pps as [|p pps IH]; intros h; [reflexivity|].
  simpl. fold (clear_heap pps). by rewrite IH, length_alter.
Qed.

Lemma clear_heap_app_l pps (h r : heap) :
  Forall (fun p => (p < length h)%nat) pps ->
  clear_heap pps (h ++ r) = clear_heap pps h ++ r.
Proof.
  revert h. induction pps as [|p pps IH]; intros h Hp; [reflexivity|].
  apply Forall_cons in Hp as [Hp Hpps]. simpl.
  rewrite alter_app_l by exact Hp.
  fold (clear_heap pps). apply IH. by rewrite length_alter.
Qed.

(** The deep copy keeps the standard deviation that [f] had when the copy
    was made, whatever errors are cleared afterwards among the objects
    that existed then. *)
Lemma variance_deepcopied_cleared pps (h t : heap) f :
  Forall (fun p => (p < length h)%nat) pps ->
  variance (clear_heap pps ((h ++ h) ++ t)) (deepcopied f h) = variance h f.
Proof.
  intros Hp. rewrite <- app_assoc, clear_heap_app_l by exact Hp.
  unfold variance. rewrite !imap_app, !py_sum_app.
  rewrite clear_heap_length.
  rewrite py_sum_imap_zero.
  - rewrite (py_sum_imap_zero _ t).
    + rewrite (py_sum_imap_ext _
                 (fun l v => (derivatives f l * var_std_dev v) ^ 2)); [lra|].
      intros i v Hi. simpl.
      apply lookup_lt_Some in Hi.
      rewrite decide_True by lia.
      replace (length h + i - length h)%nat with i by lia. reflexivity.
    + intros i v _. simpl. rewrite decide_False by lia. ring.
  - intros i v Hi. apply lookup_lt_Some in Hi.
    rewrite clear_heap_length in Hi. simpl.
    rewrite decide_False by lia. ring.
Qed.

Lemma copied_ratios_bound (interferences : ratios) (h : heap) key l :
  (list_to_map (imap (fun i kv => (kv.1, (length h + i)%nat))
                     (map_to_list interferences)) : ratios) !! key = Some l ->
  (l < length (copy_heap (map_to_list interferences) h))%nat.
Proof.
  intros Hl. apply elem_of_list_to_map_2 in Hl.
  apply elem_of_lookup_imap in Hl as (i & kv & E & Hi).
  injection E as _ ->. apply lookup_lt_Some in Hi.
  rewrite copy_heap_length. lia.
Qed.

(** The F that [calculate_F] returns first has the standard deviation of
    the quotient [rad40 / k39] at the time it was computed: the errors of
    the ratios are cleared too late to change it. *)
Lemma calculate_F_std_dev
    a40 a39 a38 a37 a36 decay_time (interferences : ratios) c fixed_k3739 h
    k37 k38 k39 ca36 ca37 ca38 ca39 h2 :
  let pr : ratios :=
    list_to_map (imap (fun i kv => (kv.1, (length h + i)%nat))
                      (map_to_list interferences)) in
  let h1 := copy_heap (map_to_list interferences) h in
  interference_corrections a40 a39 a38 a37 a36 (Some pr) (Some (Configured c))
                           fixed_k3739 h1
  = Ok (k37, k38, k39, ca36, ca37, ca38, ca39) h2 ->
  nominal_value k39 <> 0 ->
  let h3 := h2 ++ [mkVariable 0 1e-20] in
  let atm36 := (atmospheric h2 pr c a38 a36 k38 ca38 ca36 decay_time).1 in
  let rad40 :=
    usub (usub a40 (umul atm36 (uconst (nominal_value (atm4036 c)))))
         (umul k39 (ratio h3 pr "k4039" 1)) in
  exists f res hf,
    udiv rad40 k39 h3 = Ok f h3
    /\ calculate_F (a40, a39, a38, a37, a36) decay_time (Some interferences)
                   (Some (Configured c)) fixed_k3739 h
       = Ok res hf
    /\ std_dev (rf res) hf = Ok (sqrt (variance h3 f)) hf.
Proof.
  intros pr h1 Hcorr Hk39 h3 atm36 rad40.
  destruct (calculate_F_run a40 a39 a38 a37 a36 decay_time (Some interferences)
              c fixed_k3739 h pr h1 k37 k38 k39 ca36 ca37 ca38 ca39 h2
              (copy_ratios_ok interferences h) Hcorr Hk39)
    as (f & res & t & Ef & Eres & Hrf & _).
  eexists f, res, _. split; [exact Ef|]. split; [exact Eres|].
  rewrite Hrf. unfold std_dev. rewrite variance_deepcopied_cleared; [done|].
  apply Forall_forall. intros l Hl.
  apply list_elem_of_fmap in Hl as ([key l'] & -> & Hin).
  apply elem_of_map_to_list in Hin. simpl.
  apply copied_ratios_bound in Hin.
  destruct (appends_interference_corrections a40 a39 a38 a37 a36 (Some pr)
              (Some (Configured c)) fixed_k3739 h1) as [t' Ht'].
  rewrite Hcorr in Ht'. simpl in Ht'. fold h1 in Hin.
  rewrite length_app, Ht', length_app. lia.
Qed.

Lemma variance_udiv_zero x y q h :
  nominal_value x = 0 ->
  (forall l v, h !! l = Some v -> derivatives x l * var_std_dev v = 0) ->
  udiv x y h = Ok q h ->
  variance h q = 0.
Proof.
  intros Hx Hd Eq. unfold udiv in Eq.
  destruct (decide (nominal_value y = 0)) as [|Hy]; [done|].
  injection Eq as <-. apply variance_zero. intros l v Hv. simpl.
  rewrite Hx.
  replace ((derivatives x l / nominal_value y
            - 0 * derivatives y l / (nominal_value y * nominal_value y))
           * var_std_dev v)
    with (derivatives x l * var_std_dev v / nominal_value y)
    by (field; exact Hy).
  rewrite (Hd l v Hv). field. exact Hy.
Qed.

(** The closed formula on signals that are independent variables. *)
Lemma unpack5_sequence v a b c d e h :
  sequence_of v [a; b; c; d; e] -> unpack5 v h = Ok (a, b, c, d, e) h.
Proof. by intros [->| ->]. Qed.

Lemma py_div_uncertain x y q h :
  udiv x y h = Ok q h -> py_div (PyUFloat x) (PyUFloat y) h = Ok (PyUFloat q) h.
Proof.
  intros E. unfold py_div, py_binop.
  do 2 (erewrite bind_ok by reflexivity). by erewrite bind_ok by exact E.
Qed.

Lemma calculate_error_F_independent (h : heap) signals
    m40 s40 l40 m39 s39 l39 m38 m37 s37 l37 m36 s36 l36 F k4039 ca3937 ca3637 :
  l40 <> l39 -> l37 <> l39 -> l36 <> l39 ->
  h !! l40 = Some (mkVariable m40 s40) ->
  h !! l39 = Some (mkVariable m39 s39) ->
  h !! l37 = Some (mkVariable m37 s37) ->
  h !! l36 = Some (mkVariable m36 s36) ->
  m39 <> 0 ->
  let G := m40 / m39 in
  let B := m36 / m39 in
  let D := m37 / m39 in
  let C1 := 295.5 in
  let C2 := nominal_value ca3637 in
  let C4 := nominal_value ca3937 in
  let ssG := (s40 ^ 2 + G ^ 2 * s39 ^ 2) / m39 ^ 2 in
  let ssB := (s36 ^ 2 + B ^ 2 * s39 ^ 2) / m39 ^ 2 in
  let ssD := (s37 ^ 2 + D ^ 2 * s39 ^ 2) / m39 ^ 2 in
  sequence_of signals
    [PyUFloat (of_variable m40 l40); PyUFloat (of_variable m39 l39); m38;
     PyUFloat (of_variable m37 l37); PyUFloat (of_variable m36 l36)] ->
  calculate_error_F signals F (PyUFloat k4039) (PyUFloat ca3937)
                    (PyUFloat ca3637) h
  = Ok (sqrt (ssG + C1 ^ 2 * ssB + ssD * (C4 * G - C1 * C4 * B + C1 * C2) ^ 2)) h.
Proof.
  intros H40 H37 H36 E40 E39 E37 E36 Hm39. cbv zeta. intros Hsignals.
  destruct (variance_ratio h m40 l40 s40 m39 l39 s39 H40 E40 E39 Hm39)
    as (G & EG & HG & VG).
  destruct (variance_ratio h m36 l36 s36 m39 l39 s39 H36 E36 E39 Hm39)
    as (B & EB & HB & VB).
  destruct (variance_ratio h m37 l37 s37 m39 l39 s39 H37 E37 E39 Hm39)
    as (D & ED & HD & VD).
  unfold calculate_error_F.
  erewrite bind_ok by (by apply unpack5_sequence). cbv beta iota.
  erewrite bind_ok by (apply py_div_uncertain; exact EG).
  erewrite bind_ok by (apply py_div_uncertain; exact EB).
  erewrite bind_ok by (apply py_div_uncertain; exact ED).
  do 3 (erewrite bind_ok by reflexivity).
  do 3 (erewrite bind_ok by reflexivity).
  do 3 (erewrite bind_ok by reflexivity).
  rewrite !pow2_sqrt by apply variance_nonneg.
  rewrite VG, VB, VD, HG, HB.
  unfold pow_half.
  match goal with
  | |- context [Rlt_dec ?x 0] => destruct (Rlt_dec x 0) as [Hneg|_]
  end; [|reflexivity].
  exfalso. revert Hneg. apply Rle_not_lt.
  assert (Hp : 0 < m39 ^ 2).
  { pose proof (pow2_ge_0 m39). pose proof (pow_nonzero m39 2 Hm39). lra. }
  assert (Hq : forall s g, 0 <= (s ^ 2 + g ^ 2 * s39 ^ 2) / m39 ^ 2).
  { intros s g. apply Rmult_le_pos; [|left; by apply Rinv_0_lt_compat].
    pose proof (pow2_ge_0 s). pose proof (pow2_ge_0 (g * s39)). nra. }
  pose proof (Hq s40 (m40 / m39)). pose proof (Hq s36 (m36 / m39)).
  pose proof (Hq s37 (m37 / m39)).
  repeat apply Rplus_le_le_0_compat; try done.
  - apply Rmult_le_pos; [apply pow2_ge_0 | done].
  - apply Rmult_le_pos; [done | apply pow2_ge_0].
Qed.

Lemma py_mul_total a b h :
  (exists v, py_mul a b h = Ok v h) \/ py_mul a b h = Raise TypeError h.
Proof.
  destruct (number_of a) as [x|] eqn:Ha.
  - destruct (number_of b) as [y|] eqn:Hb.
    + destruct (py_mul_number a b x y h Ha Hb) as (v & E & _). left. by exists v.
    + right. apply py_mul_not_a_number. by right.
  - right. apply py_mul_not_a_number. by left.
Qed.

(** [calculate_error_t] calls the constants object it has just built. *)
Lemma calculate_error_t_raises F ssF j ssJ h :
  calculate_error_t F ssF j ssJ h = Raise TypeError h.
Proof.
  unfold calculate_error_t.
  destruct (py_mul_total j j h) as [(JJ & E)|E];
    [erewrite bind_ok by exact E | by erewrite bind_raise by exact E].
  destruct (py_mul_total F F h) as [(FF & E')|E'];
    [erewrite bind_ok by exact E' | by erewrite bind_raise by exact E'].
  reflexivity.
Qed.

Lemma silent_uconst h x : silent h (uconst x).
Proof. intros l v _. simpl. ring. Qed.

Lemma silent_of_variable h x l :
  (forall v, h !! l = Some v -> var_std_dev v = 0) -> silent h (of_variable x l).
Proof.
  intros H l' v Hv. simpl. destruct (Nat.eqb_spec l' l) as [->|_]; [|ring].
  rewrite (H v Hv). ring.
Qed.

Lemma silent_usub h x y : silent h x -> silent h y -> silent h (usub x y).
Proof.
  intros Hx Hy l v Hv. simpl.
  replace ((derivatives x l - derivatives y l) * var_std_dev v)
    with (derivatives x l * var_std_dev v - derivatives y l * var_std_dev v)
    by ring.
  rewrite (Hx l v Hv), (Hy l v Hv). ring.
Qed.

Lemma silent_umul_zero_l h x y :
  nominal_value x = 0 -> silent h x -> silent h (umul x y).
Proof.
  intros H0 Hx l v Hv. simpl. rewrite H0.
  replace ((nominal_value y * derivatives x l + 0 * derivatives y l)
           * var_std_dev v)
    with (nominal_value y * (derivatives x l * var_std_dev v)) by ring.
  rewrite (Hx l v Hv). ring.
Qed.

Lemma silent_umul_zero_r h x y :
  nominal_value y = 0 -> silent h y -> silent h (umul x y).
Proof.
  intros H0 Hy l v Hv. simpl. rewrite H0.
  replace ((0 * derivatives x l + nominal_value x * derivatives y l)
           * var_std_dev v)
    with (nominal_value x * (derivatives y l * var_std_dev v)) by ring.
  rewrite (Hy l v Hv). ring.
Qed.

Lemma silent_umul h x y : silent h x -> silent h y -> silent h (umul x y).
Proof.
  intros Hx Hy l v Hv. simpl.
  replace ((nominal_value y * derivatives x l + nominal_value x * derivatives y l)
           * var_std_dev v)
    with (nominal_value y * (derivatives x l * var_std_dev v)
          + nominal_value x * (derivatives y l * var_std_dev v)) by ring.
  rewrite (Hx l v Hv), (Hy l v Hv). ring.
Qed.

Lemma signal_ratios_items :
  map_to_list signal_ratios = [("k4039", 5); ("ca3937", 6); ("ca3637", 7)]%string%nat.
Proof. vm_compute. reflexivity. Qed.

Lemma ratio_k4039 h d : ratio h copied_signal_ratios "k4039" d = var_at h 8.
Proof.
  unfold ratio.
  replace (copied_signal_ratios !! "k4039"%string) with (Some 8%nat)
    by (vm_compute; reflexivity).
  reflexivity.
Qed.

Lemma ratio_ca3637 h d : ratio h copied_signal_ratios "ca3637" d = var_at h 10.
Proof.
  unfold ratio.
  replace (copied_signal_ratios !! "ca3637"%string) with (Some 10%nat)
    by (vm_compute; reflexivity).
  reflexivity.
Qed.

Lemma ratio_cl3638 h d : ratio h copied_signal_ratios "cl3638" d = uconst d.
Proof.
  unfold ratio.
  replace (copied_signal_ratios !! "cl3638"%string) with (@None nat)
    by (vm_compute; reflexivity).
  reflexivity.
Qed.



Lemma ratio_ca3937 h d : ratio h copied_signal_ratios "ca3937" d = var_at h 9.
Proof.
  unfold ratio.
  replace (copied_signal_ratios !! "ca3937"%string) with (Some 9%nat)
    by (vm_compute; reflexivity).
  reflexivity.
Qed.


Lemma copied_signal_heap :
  copy_heap [("k4039", 5); ("ca3937", 6); ("ca3637", 7)]%string%nat signal_heap
  = signal_heap ++ [zero_variable; zero_variable; zero_variable].
Proof. reflexivity. Qed.

Lemma F_heap_silent_variable x l :
  l <> 1%nat -> l <> 11%nat -> l <> 13%nat -> silent F_heap (of_variable x l).
Proof.
  intros H1 H11 H13. apply silent_of_variable. intros v Hv.
  do 14 (destruct l as [|l]; [try done; by injection Hv as <-|]).
  done.
Qed.

(** On this input the propagated standard deviation of F is zero: the
    numerator [rad40] is zero and depends on the uncertain 39Ar only
    through terms that the zero ratios cancel. *)
Lemma propagated_error_example :
  exists res hf,
    calculate_F signals 0 (Some signal_ratios)
                (Some (Configured example_constants)) (PyBool false) signal_heap
    = Ok res hf
    /\ std_dev (rf res) hf = Ok 0 hf.
Proof.
  pose proof (interference_corrections_iterative
    (of_variable 295.5 0) (of_variable 1 1) (of_variable 0 2) (of_variable 0 3)
    (of_variable 1 4)
    (list_to_map (imap (fun i kv => (kv.1, (length signal_heap + i)%nat))
                      (map_to_list signal_ratios)))
    example_constants (PyBool false)
    (copy_heap (map_to_list signal_ratios) signal_heap) eq_refl is_false_False)
    as Hcorr.
  destruct (iterative_corrections _ _ _ _ _)
    as [[[[[[[k37 k38] k39] ca36] ca37] ca38] ca39] h2] eqn:Eit in Hcorr.
  assert (Hfacts : nominal_value k39 = 1 /\ nominal_value ca36 = 0
                   /\ silent F_heap ca36
                   /\ h2 ++ [mkVariable 0 1e-20] = F_heap).
  { rewrite signal_ratios_items in Eit.
    change (list_to_map _) with copied_signal_ratios in Eit.
    rewrite copied_signal_heap in Eit.
    unfold iterative_corrections in Eit.
    cbv beta iota zeta delta [pass] in Eit.
    simpl allow_negative_ca_correction in Eit. cbv iota in Eit.
    injection Eit as _ _ <- <- _ _ _ <-.
    rewrite !ratio_ca3937, !ratio_ca3637.
    split; [simpl; ring|]. split; [simpl; ring|].
    split; [|reflexivity].
    apply silent_umul_zero_l; [reflexivity|].
    by apply F_heap_silent_variable. }
  destruct Hfacts as (Hk39 & Hca36 & Sca36 & Hh3).
  destruct (calculate_F_std_dev _ _ _ _ _ 0 signal_ratios example_constants
              (PyBool false) signal_heap _ _ _ _ _ _ _ _ Hcorr)
    as (f & res & hf & Ef & Eres & Hstd); [lra|].
  exists res, hf. split; [exact Eres|]. rewrite Hstd.
  rewrite signal_ratios_items in Ef.
  change (list_to_map _) with copied_signal_ratios in Ef.
  rewrite Hh3 in *.
  assert (Hvar : variance F_heap f = 0); [|by rewrite Hvar, sqrt_0].
  eapply variance_udiv_zero; [| |exact Ef].
  - change (nominal_value (usub (usub ?a (umul ?b ?c)) (umul ?d ?e)))
      with (nominal_value a - nominal_value b * nominal_value c
            - nominal_value d * nominal_value e).
    rewrite atmospheric_no_chlorine by (by rewrite ratio_cl3638).
    rewrite Hca36, ratio_k4039. simpl. lra.
  - change (silent F_heap
      (usub
          (usub (of_variable 295.5 0)
             (umul
                (atmospheric h2 copied_signal_ratios example_constants
                   (of_variable 0 2) (of_variable 1 4) k38 ca38 ca36 0).1
                (uconst (nominal_value (atm4036 example_constants)))))
          (umul k39 (ratio F_heap copied_signal_ratios "k4039" 1)))).
    apply silent_usub; [apply silent_usub|].
    + by apply F_heap_silent_variable.
    + apply silent_umul; [|apply silent_uconst].
      unfold atmospheric. cbv beta iota zeta delta [atm_pass fst].
      rewrite ratio_cl3638.
      apply silent_usub; [apply silent_usub|].
      * by apply F_heap_silent_variable.
      * exact Sca36.
      * apply silent_umul_zero_r; [simpl; ring|].
        repeat apply silent_umul; apply silent_uconst.
    + rewrite ratio_k4039. apply silent_umul_zero_r; [reflexivity|].
      by apply F_heap_silent_variable.
Qed.

Lemma closed_formula_example :
  exists e,
    calculate_error_F py_signals (PyFloat 0) (PyUFloat (var_at signal_heap 5))
                      (PyUFloat (var_at signal_heap 6))
                      (PyUFloat (var_at signal_heap 7)) signal_heap
    = Ok e signal_heap
    /\ 295 < e.
Proof.
  eexists. split.
  - apply (calculate_error_F_independent signal_heap py_signals
             295.5 0 0%nat 1 1 1%nat (PyUFloat (of_variable 0 2)) 0 0 3%nat
             1 0 4%nat);
      (done || lra || by left).
  - simpl nominal_value.
    rewrite <- (sqrt_pow2 295) at 1 by lra.
    apply sqrt_lt_1_alt. split; [apply pow2_ge_0|].
    replace ((0 ^ 2 + (295.5 / 1) ^ 2 * 1 ^ 2) / 1 ^ 2
             + 295.5 ^ 2 * ((0 ^ 2 + (1 / 1) ^ 2 * 1 ^ 2) / 1 ^ 2)
             + (0 ^ 2 + (0 / 1) ^ 2 * 1 ^ 2) / 1 ^ 2
               * (0 * (295.5 / 1) - 295.5 * 0 * (1 / 1) + 295.5 * 0) ^ 2)
      with (2 * 295.5 ^ 2) by field.
    lra.
Qed.

(** The claim fails on both formulas: on the input above the closed
    formula gives more than 295 where the propagated standard deviation of
    F is 0, and [calculate_error_t] raises on every input. *)
Lemma closed_formulas_differ_from_propagation :
  exists res hf e,
    calculate_F signals 0 (Some signal_ratios)
                (Some (Configured example_constants)) (PyBool false) signal_heap
    = Ok res hf
    /\ std_dev (rf res) hf = Ok 0 hf
    /\ calculate_error_F py_signals (PyFloat 0)
                         (PyUFloat (var_at signal_heap 5))
                         (PyUFloat (var_at signal_heap 6))
                         (PyUFloat (var_at signal_heap 7)) signal_heap
       = Ok e signal_heap
    /\ 295 < e
    /\ calculate_error_t (PyFloat 0) (PyFloat 0) (PyFloat 1) (PyFloat 0)
                         signal_heap
       = Raise TypeError signal_heap.
Proof.
  destruct propagated_error_example as (res & hf & Eres & Hstd).
  destruct closed_formula_example as (e & Ee & He).
  exists res, hf, e.
  split; [exact Eres|]. split; [exact Hstd|]. split; [exact Ee|].
  split; [exact He|]. apply calculate_error_t_raises.
Qed.

(** C5 (amended).  On signals that are independent variables (a tuple or
    a list of them), with a 39Ar signal that is not zero, and ratios that
    are uncertain quantities, [calculate_error_F] returns the square root of
    [ssG + 295.5^2 * ssB + ssD * (C4 * G - 295.5 * C4 * B + 295.5 * C2)^2],
    where [G], [B], [D] are the ratios of the 40Ar, 36Ar and 37Ar signals
    to the 39Ar signal and [ssG], [ssB], [ssD] their variances: the formula
    takes the three ratios as uncorrelated and is not the standard
    deviation that [calculate_F] propagates. *)
Theorem calculate_error_F_formula (h : heap) signals
    m40 s40 l40 m39 s39 l39 m38 m37 s37 l37 m36 s36 l36 F k4039 ca3937 ca3637 :
  l40 <> l39 -> l37 <> l39 -> l36 <> l39 ->
  h !! l40 = Some (mkVariable m40 s40) ->
  h !! l39 = Some (mkVariable m39 s39) ->
  h !! l37 = Some (mkVariable m37 s37) ->
  h !! l36 = Some (mkVariable m36 s36) ->
  m39 <> 0 ->
  let G := m40 / m39 in
  let B := m36 / m39 in
  let D := m37 / m39 in
  let C1 := 295.5 in
  let C2 := nominal_value ca3637 in
  let C4 := nominal_value ca3937 in
  let ssG := (s40 ^ 2 + G ^ 2 * s39 ^ 2) / m39 ^ 2 in
  let ssB := (s36 ^ 2 + B ^ 2 * s39 ^ 2) / m39 ^ 2 in
  let ssD := (s37 ^ 2 + D ^ 2 * s39 ^ 2) / m39 ^ 2 in
  let ssF := ssG + C1 ^ 2 * ssB + ssD * (C4 * G - C1 * C4 * B + C1 * C2) ^ 2 in
  sequence_of signals
    [PyUFloat (of_variable m40 l40); PyUFloat (of_variable m39 l39); m38;
     PyUFloat (of_variable m37 l37); PyUFloat (of_variable m36 l36)] ->
  calculate_error_F signals F (PyUFloat k4039) (PyUFloat ca3937)
                    (PyUFloat ca3637) h
  = Ok (sqrt ssF) h
  /\ 0 <= sqrt ssF.
Proof.
  intros H40 H37 H36 E40 E39 E37 E36 Hm39. cbv zeta. intros Hsignals.
  split; [|apply sqrt_pos].
  apply (calculate_error_F_independent h signals m40 s40 l40 m39 s39 l39 m38
           m37 s37 l37 m36 s36 l36); assumption.
Qed.

Lemma calculate_error_F_formula_witness :
  calculate_error_F py_signals (PyFloat 0) (PyUFloat (var_at signal_heap 5))
                    (PyUFloat (var_at signal_heap 6))
                    (PyUFloat (var_at signal_heap 7)) signal_heap
  = Ok (sqrt ((0 ^ 2 + (295.5 / 1) ^ 2 * 1 ^ 2) / 1 ^ 2
              + 295.5 ^ 2 * ((0 ^ 2 + (1 / 1) ^ 2 * 1 ^ 2) / 1 ^ 2)
              + (0 ^ 2 + (0 / 1) ^ 2 * 1 ^ 2) / 1 ^ 2
                * (nominal_value (var_at signal_heap 6) * (295.5 / 1)
                   - 295.5 * nominal_value (var_at signal_heap 6) * (1 / 1)
                   + 295.5 * nominal_value (var_at signal_heap 7)) ^ 2))
       signal_heap.
Proof.
  apply (calculate_error_F_formula signal_heap py_signals
           295.5 0 0%nat 1 1 1%nat (PyUFloat (of_variable 0 2)) 0 0 3%nat
           1 0 4%nat
           (PyFloat 0) (var_at signal_heap 5) (var_at signal_heap 6)
           (var_at signal_heap 7));
    (done || lra || by left).
Defined.

(** * Further properties *)

(** ** calculate_decay_time *)

Lemma math_log_ok x h : 0 < x -> math_log x h = Ok (ln x) h.
Proof. intros Hx. unfold math_log. destruct (Rle_dec x 0); [lra|reflexivity]. Qed.

(** X1.  [calculate_decay_time] inverts the decay: for a decay constant that
    is not zero, the time computed from the factor [exp (dc * t)] is [t]. *)
Theorem calculate_decay_time_of_decay dc t h :
  dc <> 0 -> calculate_decay_time dc (exp (dc * t)) h = Ok t h.
Proof.
  intros Hdc. unfold calculate_decay_time.
  erewrite bind_ok by (apply math_log_ok, exp_pos).
  rewrite fdiv_ok by exact Hdc. rewrite ln_exp. f_equal. by field.
Qed.

Lemma calculate_decay_time_of_decay_witness :
  calculate_decay_time 2 (exp (2 * 3)) [] = Ok 3 [].
Proof. apply (calculate_decay_time_of_decay 2 3 []). lra. Defined.

(** X2.  [calculate_decay_time] raises [ValueError] when the factor is not
    positive, whatever the decay constant is (the logarithm is taken
    first), raises [ZeroDivisionError] when the factor is positive and the
    decay constant zero, and returns [ln f / dc] otherwise. *)
Theorem calculate_decay_time_errors dc f h :
  (f <= 0 -> calculate_decay_time dc f h = Raise ValueError h)
  /\ (0 < f -> dc = 0 -> calculate_decay_time dc f h = Raise ZeroDivisionError h)
  /\ (0 < f -> dc <> 0 -> calculate_decay_time dc f h = Ok (ln f / dc) h).
Proof.
  unfold calculate_decay_time. split; [|split].
  - intros Hf. unfold math_log, bind.
    destruct (Rle_dec f 0); [reflexivity|lra].
  - intros Hf ->. erewrite bind_ok by (by apply math_log_ok). apply fdiv_zero.
  - intros Hf Hdc. erewrite bind_ok by (by apply math_log_ok).
    by apply fdiv_ok.
Qed.

Lemma calculate_decay_time_errors_witness :
  calculate_decay_time 0 0 [] = Raise ValueError []
  /\ calculate_decay_time 0 1 [] = Raise ZeroDivisionError []
  /\ calculate_decay_time 2 1 [] = Ok (ln 1 / 2) [].
Proof.
  split; [|split].
  - apply (calculate_decay_time_errors 0 0 []). lra.
  - apply (calculate_decay_time_errors 0 1 []); [lra | reflexivity].
  - apply (calculate_decay_time_errors 2 1 []); lra.
Defined.

(** ** calculate_decay_factor *)







(** ** calculate_error_F and calculate_error_t *)

Lemma py_div_result a b x y h :
  number_of a = Some x -> number_of b = Some y -> y <> 0 ->
  exists q, py_div a b h = Ok (py_result a b q) h.
Proof.
  intros Ha Hb Hy.
  destruct (as_number_Some a x h Ha) as (ua & Ea & Hua).
  destruct (as_number_Some b y h Hb) as (ub & Eb & Hub).
  destruct (udiv_ok ua ub h) as (q & Eq & Hq); [by rewrite Hub|].
  exists q. unfold py_div, py_binop.
  erewrite bind_ok by exact Ea. erewrite bind_ok by exact Eb.
  by erewrite bind_ok by exact Eq.
Qed.

(** X5.  [calculate_error_F] works on uncertain quantities only.  For
    signals that are uncertain quantities and ratios that are uncertain
    quantities it raises [ZeroDivisionError] when the nominal value of the
    39Ar signal is zero, and otherwise returns a number that is not
    negative: the power [** 0.5] is never taken of a negative number.  For
    signals that are numbers, with a 39Ar signal that is not zero, it
    raises [AttributeError] when one of the three ratios is not an
    uncertain quantity, and when the 37Ar and 39Ar signals are plain
    numbers. *)
Theorem calculate_error_F_returns
    signals m40 m39 m38 m37 m36 F k4039 ca3937 ca3637 h :
  sequence_of signals [m40; m39; m38; m37; m36] ->
  (forall u40 u39 u37 u36,
     m40 = PyUFloat u40 -> m39 = PyUFloat u39 ->
     m37 = PyUFloat u37 -> m36 = PyUFloat u36 ->
     is_uncertain k4039 -> is_uncertain ca3937 -> is_uncertain ca3637 ->
     (nominal_value u39 = 0 ->
      calculate_error_F signals F k4039 ca3937 ca3637 h
      = Raise ZeroDivisionError h)
     /\ (nominal_value u39 <> 0 ->
         exists e,
           calculate_error_F signals F k4039 ca3937 ca3637 h = Ok e h
           /\ 0 <= e))
  /\ (forall x40 x39 x37 x36,
        number_of m40 = Some x40 -> number_of m39 = Some x39 ->
        number_of m37 = Some x37 -> number_of m36 = Some x36 ->
        x39 <> 0 ->
        (~ is_uncertain k4039 \/ ~ is_uncertain ca3937 \/ ~ is_uncertain ca3637)
        \/ (is_plain m37 = true /\ is_plain m39 = true) ->
        calculate_error_F signals F k4039 ca3937 ca3637 h
        = Raise AttributeError h).
Proof.
  intros Hsignals. unfold calculate_error_F.
  erewrite bind_ok by (by apply unpack5_sequence). cbv beta iota.
  split.
  - intros u40 u39 u37 u36 -> -> -> -> [k ->] [c1 ->] [c2 ->]. split.
    + intros Hz. erewrite bind_raise; [reflexivity|].
      unfold py_div, py_binop. do 2 (erewrite bind_ok by reflexivity).
      by erewrite bind_raise by (by apply udiv_zero).
    + intros Hnz.
      destruct (udiv_ok u40 u39 h Hnz) as (G & EG & _).
      destruct (udiv_ok u36 u39 h Hnz) as (B & EB & _).
      destruct (udiv_ok u37 u39 h Hnz) as (D & ED & _).
      erewrite bind_ok by (apply py_div_uncertain; exact EG).
      erewrite bind_ok by (apply py_div_uncertain; exact EB).
      erewrite bind_ok by (apply py_div_uncertain; exact ED).
      do 9 (erewrite bind_ok by reflexivity).
      unfold pow_half.
      match goal with
      | |- context [Rlt_dec ?x 0] => destruct (Rlt_dec x 0) as [Hneg|_]
      end.
      * exfalso. revert Hneg. apply Rle_not_lt.
        repeat apply Rplus_le_le_0_compat.
        -- apply pow2_ge_0.
        -- apply Rmult_le_pos; apply pow2_ge_0.
        -- apply Rmult_le_pos; apply pow2_ge_0.
      * eexists. split; [reflexivity | apply sqrt_pos].
  - intros x40 x39 x37 x36 H40 H39 H37 H36 Hnz Hcase.
    destruct (py_div_result m40 m39 x40 x39 h H40 H39 Hnz) as (G & EG).
    destruct (py_div_result m36 m39 x36 x39 h H36 H39 Hnz) as (B & EB).
    destruct (py_div_result m37 m39 x37 x39 h H37 H39 Hnz) as (D & ED).
    erewrite bind_ok by exact EG. erewrite bind_ok by exact EB.
    erewrite bind_ok by exact ED.
    destruct ca3637 as [| | | | | |c2]; try reflexivity.
    erewrite bind_ok by reflexivity.
    destruct k4039 as [| | | | | |k]; try reflexivity.
    erewrite bind_ok by reflexivity.
    destruct ca3937 as [| | | | | |c1]; try reflexivity.
    erewrite bind_ok by reflexivity.
    destruct Hcase as [[H|[H|H]]|[Hp37 Hp39]];
      try (exfalso; apply H; eexists; reflexivity).
    unfold py_result at 1. rewrite Hp37, Hp39. reflexivity.
Qed.

Lemma calculate_error_F_returns_witness :
  calculate_error_F
    (PyTuple [PyUFloat (of_variable 295.5 0); PyUFloat (of_variable 0 2);
              PyUFloat (of_variable 0 2); PyUFloat (of_variable 0 3);
              PyUFloat (of_variable 1 4)])
    PyNone (PyUFloat (var_at signal_heap 5)) (PyUFloat (var_at signal_heap 6))
    (PyUFloat (var_at signal_heap 7)) signal_heap
  = Raise ZeroDivisionError signal_heap
  /\ (exists e,
        calculate_error_F py_signals PyNone (PyUFloat (var_at signal_heap 5))
                          (PyUFloat (var_at signal_heap 6))
                          (PyUFloat (var_at signal_heap 7)) signal_heap
        = Ok e signal_heap /\ 0 <= e)
  /\ calculate_error_F
       (PyTuple [PyFloat 1; PyFloat 2; PyFloat 1; PyFloat 1; PyFloat 1])
       (PyFloat 1) (PyFloat 1) (PyFloat 1) (PyFloat 1) []
     = Raise AttributeError [].
Proof.
  split; [|split].
  - eapply (calculate_error_F_returns _ _ _ _ _ _ PyNone
              (PyUFloat (var_at signal_heap 5)) (PyUFloat (var_at signal_heap 6))
              (PyUFloat (var_at signal_heap 7)) signal_heap);
      [by left | reflexivity .. | by eexists | by eexists | by eexists
      | reflexivity].
  - eapply (calculate_error_F_returns py_signals _ _ _ _ _ PyNone
              (PyUFloat (var_at signal_heap 5)) (PyUFloat (var_at signal_heap 6))
              (PyUFloat (var_at signal_heap 7)) signal_heap);
      [by left | reflexivity .. | by eexists | by eexists | by eexists
      | simpl; lra].
  - eapply (calculate_error_F_returns _ _ _ _ _ _ (PyFloat 1) (PyFloat 1)
              (PyFloat 1) (PyFloat 1) []);
      [by left | reflexivity .. | | right; by split].
    lra.
Defined.

(** X6.  [calculate_error_t] returns on no input: it raises [TypeError],
    from the product of an argument that is not a number or, at the
    latest, from the call [constants()] of the instance of [ArArConstants]
    it has just built. *)
Theorem calculate_error_t_never_returns F ssF j ssJ h :
  calculate_error_t F ssF j ssJ h = Raise TypeError h.
Proof. apply calculate_error_t_raises. Qed.

(** ** abundance_sensitivity_correction *)

Lemma tail_corrected_number a s x y ka ks kx ky h :
  number_of a = Some ka -> number_of s = Some ks ->
  number_of x = Some kx -> number_of y = Some ky ->
  exists v, tail_corrected a s x y h = Ok v h
            /\ number_of v = Some (ks - ka * (kx + ky)).
Proof.
  intros Ha Hs Hx Hy. unfold tail_corrected.
  destruct (py_add_number x y kx ky h Hx Hy) as (t1 & E1 & H1).
  destruct (py_mul_number a t1 _ _ h Ha H1) as (t2 & E2 & H2).
  destruct (py_sub_number s t2 _ _ h Hs H2) as (v & E3 & H3).
  exists v. split; [|exact H3].
  erewrite bind_ok by exact E1. erewrite bind_ok by exact E2. exact E3.
Qed.

Lemma abundance_sensitivity_correction_numbers
    s40 s39 s38 s37 s36 a x40 x39 x38 x37 x36 k h :
  numbers [s40; s39; s38; s37; s36] [x40; x39; x38; x37; x36] ->
  number_of a = Some k ->
  exists ns,
    abundance_sensitivity_correction (PyList [s40; s39; s38; s37; s36]) a h
    = Ok ns h
    /\ numbers ns [x40 - k * (x39 + x39); x39 - k * (x40 + x38);
                   x38 - k * (x39 + x37); x37 - k * (x38 + x36);
                   x36 - k * (x37 + x37)].
Proof.
  intros Hs Ha.
  apply Forall2_cons_1 in Hs as [H40 Hs].
  apply Forall2_cons_1 in Hs as [H39 Hs].
  apply Forall2_cons_1 in Hs as [H38 Hs].
  apply Forall2_cons_1 in Hs as [H37 Hs].
  apply Forall2_cons_1 in Hs as [H36 _].
  destruct (tail_corrected_number a s40 s39 s39 _ _ _ _ h Ha H40 H39 H39)
    as (n40 & E40 & N40).
  destruct (tail_corrected_number a s39 s40 s38 _ _ _ _ h Ha H39 H40 H38)
    as (n39 & E39 & N39).
  destruct (tail_corrected_number a s38 s39 s37 _ _ _ _ h Ha H38 H39 H37)
    as (n38 & E38 & N38).
  destruct (tail_corrected_number a s37 s38 s36 _ _ _ _ h Ha H37 H38 H36)
    as (n37 & E37 & N37).
  destruct (tail_corrected_number a s36 s37 s37 _ _ _ _ h Ha H36 H37 H37)
    as (n36 & E36 & N36).
  exists [n40; n39; n38; n37; n36]. split.
  - unfold abundance_sensitivity_correction.
    erewrite bind_ok by reflexivity. cbv beta iota.
    erewrite bind_ok by exact E40. erewrite bind_ok by exact E39.
    erewrite bind_ok by exact E38. erewrite bind_ok by exact E37.
    erewrite bind_ok by exact E36. reflexivity.
  - repeat constructor; assumption.
Qed.

(** X7.  With an abundance sensitivity of zero,
    [abundance_sensitivity_correction] returns the five signals with the
    values they had. *)
Theorem abundance_sensitivity_correction_zero isos xs a h :
  length isos = 5%nat -> numbers isos xs -> number_of a = Some 0 ->
  exists ns,
    abundance_sensitivity_correction (PyList isos) a h = Ok ns h
    /\ numbers ns xs.
Proof.
  intros Hlen Hs Ha.
  destruct isos as [|s40 [|s39 [|s38 [|s37 [|s36 [|]]]]]]; try discriminate.
  pose proof (Forall2_length _ _ _ Hs) as Hl.
  destruct xs as [|x40 [|x39 [|x38 [|x37 [|x36 [|]]]]]]; try discriminate.
  destruct (abundance_sensitivity_correction_numbers
              s40 s39 s38 s37 s36 a x40 x39 x38 x37 x36 0 h Hs Ha)
    as (ns & E & Hn).
  exists ns. split; [exact E|].
  replace [x40; x39; x38; x37; x36]
    with [x40 - 0 * (x39 + x39); x39 - 0 * (x40 + x38);
          x38 - 0 * (x39 + x37); x37 - 0 * (x38 + x36);
          x36 - 0 * (x37 + x37)]; [exact Hn|].
  repeat f_equal; ring.
Qed.

Lemma abundance_sensitivity_correction_zero_witness :
  exists ns,
    abundance_sensitivity_correction
      (PyList [PyFloat 5; PyFloat 4; PyFloat 3; PyFloat 2; PyFloat 1])
      (PyFloat 0) []
    = Ok ns []
    /\ numbers ns [5; 4; 3; 2; 1].
Proof.
  apply (abundance_sensitivity_correction_zero
           [PyFloat 5; PyFloat 4; PyFloat 3; PyFloat 2; PyFloat 1]
           [5; 4; 3; 2; 1] (PyFloat 0) []).
  - reflexivity.
  - repeat constructor.
  - reflexivity.
Defined.

(** X8.  [abundance_sensitivity_correction] raises [ValueError] on a list or
    a tuple that has not exactly five items, before it looks at the
    abundance sensitivity. *)
Theorem abundance_sensitivity_correction_arity isos a h :
  length isos <> 5%nat ->
  abundance_sensitivity_correction (PyList isos) a h = Raise ValueError h
  /\ abundance_sensitivity_correction (PyTuple isos) a h = Raise ValueError h.
Proof.
  intros Hlen. unfold abundance_sensitivity_correction, unpack5.
  destruct isos as [|s40 [|s39 [|s38 [|s37 [|s36 [|]]]]]]; try done.
Qed.

Lemma abundance_sensitivity_correction_arity_witness :
  abundance_sensitivity_correction (PyList [PyFloat 1; PyFloat 2]) PyNone []
  = Raise ValueError []
  /\ abundance_sensitivity_correction (PyTuple [PyFloat 1; PyFloat 2]) PyNone []
     = Raise ValueError [].
Proof.
  apply (abundance_sensitivity_correction_arity [PyFloat 1; PyFloat 2] PyNone []).
  simpl. lia.
Defined.

(** ** calculate_F_ratio *)

Lemma pr_get_or_None_Some pr key l h :
  pr !! key = Some l ->
  pr_get_or_None pr key h = Ok (PyUFloat (var_at h l)) h.
Proof. intros E. unfold pr_get_or_None, bind, get_heap, ret. by rewrite E. Qed.

Lemma pr_get_or_None_None pr key h :
  pr !! key = None -> pr_get_or_None pr key h = Ok PyNone h.
Proof. intros E. unfold pr_get_or_None, bind, get_heap, ret. by rewrite E. Qed.

Lemma pr_get_or_None_number pr key l h :
  pr !! key = Some l ->
  exists v, pr_get_or_None pr key h = Ok v h
            /\ number_of v = Some (ratio_nominal h pr key 0).
Proof.
  intros E. eexists. split; [by apply pr_get_or_None_Some|].
  unfold ratio_nominal. by rewrite E.
Qed.

Lemma py_sub_not_a_number a b h :
  number_of a = None \/ number_of b = None ->
  py_sub a b h = Raise TypeError h.
Proof.
  intros H. unfold py_sub, py_binop.
  destruct (number_of a) as [x|] eqn:Ha.
  - destruct H as [H|Hb]; [done|].
    destruct (as_number_Some a x h Ha) as (ua & Ea & _).
    erewrite bind_ok by exact Ea.
    erewrite bind_raise by (by apply as_number_None). reflexivity.
  - erewrite bind_raise by (by apply as_number_None). reflexivity.
Qed.

(** The numerator, and the product in the denominator. *)
Lemma calculate_F_ratio_numerator m4039 m3739 m3639 x y z pr l h :
  number_of m4039 = Some x -> number_of m3739 = Some y ->
  number_of m3639 = Some z ->
  pr !! "ca3637"%string = Some l ->
  exists n,
    (do t <- py_mul (PyFloat 295.5) m3639;
     do n <- py_sub m4039 t;
     do r <- pr_get_or_None pr "ca3637";
     do t <- py_mul (PyFloat 295.5) r;
     do t <- py_mul t m3739;
     py_add n t) h = Ok n h
    /\ number_of n
       = Some (x - 295.5 * z + 295.5 * ratio_nominal h pr "ca3637" 0 * y).
Proof.
  intros Hx Hy Hz Hl.
  destruct (py_mul_number (PyFloat 295.5) m3639 _ _ h eq_refl Hz)
    as (t1 & E1 & H1).
  destruct (py_sub_number m4039 t1 _ _ h Hx H1) as (n1 & E2 & H2).
  destruct (pr_get_or_None_number pr _ l h Hl) as (r & E3 & H3).
  destruct (py_mul_number (PyFloat 295.5) r _ _ h eq_refl H3)
    as (t2 & E4 & H4).
  destruct (py_mul_number t2 m3739 _ _ h H4 Hy) as (t3 & E5 & H5).
  destruct (py_add_number n1 t3 _ _ h H2 H5) as (n & E6 & H6).
  exists n. split; [|exact H6].
  erewrite bind_ok by exact E1. erewrite bind_ok by exact E2.
  erewrite bind_ok by exact E3. erewrite bind_ok by exact E4.
  erewrite bind_ok by exact E5. exact E6.
Qed.

Lemma calculate_F_ratio_unfold m4039 m3739 m3639 pr h :
  calculate_F_ratio m4039 m3739 m3639 pr h
  = (do n <- (do t <- py_mul (PyFloat 295.5) m3639;
              do n <- py_sub m4039 t;
              do r <- pr_get_or_None pr "ca3637";
              do t <- py_mul (PyFloat 295.5) r;
              do t <- py_mul t m3739;
              py_add n t);
     do r <- pr_get_or_None pr "ca3937";
     do t <- py_mul r m3739;
     do d <- py_sub (PyFloat 1) t;
     do q <- py_div n d;
     do r <- pr_get_or_None pr "k4039";
     py_sub q r) h.
Proof.
  unfold calculate_F_ratio, bind.
  destruct (py_mul (PyFloat 295.5) m3639 h) as [t1 h1|]; [|reflexivity].
  destruct (py_sub m4039 t1 h1) as [n1 h2|]; [|reflexivity].
  destruct (pr_get_or_None pr "ca3637" h2) as [r h3|]; [|reflexivity].
  destruct (py_mul (PyFloat 295.5) r h3) as [t2 h4|]; [|reflexivity].
  destruct (py_mul t2 m3739 h4) as [t3 h5|]; [|reflexivity].
  reflexivity.
Qed.

Lemma calculate_F_ratio_value m4039 m3739 m3639 x y z pr h :
  number_of m4039 = Some x -> number_of m3739 = Some y ->
  number_of m3639 = Some z ->
  Forall (fun key => is_Some (pr !! key)) F_ratio_keys ->
  1 - ratio_nominal h pr "ca3937" 0 * y <> 0 ->
  exists v,
    calculate_F_ratio m4039 m3739 m3639 pr h = Ok v h
    /\ number_of v
       = Some (F_ratio x y z (ratio_nominal h pr "ca3637" 0)
                       (ratio_nominal h pr "ca3937" 0)
                       (ratio_nominal h pr "k4039" 0)).
Proof.
  intros Hx Hy Hz Hkeys Hd.
  apply Forall_cons in Hkeys as [[l1 Hl1] Hkeys].
  apply Forall_cons in Hkeys as [[l2 Hl2] Hkeys].
  apply Forall_cons in Hkeys as [[l3 Hl3] _].
  destruct (calculate_F_ratio_numerator m4039 m3739 m3639 x y z pr l1 h
              Hx Hy Hz Hl1) as (n & En & Hn).
  destruct (pr_get_or_None_number pr _ l2 h Hl2) as (r2 & E2 & H2).
  destruct (py_mul_number r2 m3739 _ _ h H2 Hy) as (t & Et & Ht).
  destruct (py_sub_number (PyFloat 1) t _ _ h eq_refl Ht) as (d & Ed & Hd').
  destruct (py_div_number n d _ _ h Hn Hd' Hd) as (q & Eq & Hq).
  destruct (pr_get_or_None_number pr _ l3 h Hl3) as (r3 & E3 & H3).
  destruct (py_sub_number q r3 _ _ h Hq H3) as (v & Ev & Hv).
  exists v. split; [|exact Hv].
  rewrite calculate_F_ratio_unfold.
  erewrite bind_ok by exact En. erewrite bind_ok by exact E2.
  erewrite bind_ok by exact Et. erewrite bind_ok by exact Ed.
  erewrite bind_ok by exact Eq. erewrite bind_ok by exact E3. exact Ev.
Qed.

(** X9.  [calculate_F_ratio] reads its three ratios with [pr.get(key)],
    without a default: when one of 'ca3637', 'ca3937', 'k4039' is missing
    the call does not return.  It raises [TypeError] from the arithmetic
    on [None], or [ZeroDivisionError] when the denominator
    [1 - ca3937 * m3739] is zero. *)
Theorem calculate_F_ratio_missing_ratio m4039 m3739 m3639 x y z pr h :
  number_of m4039 = Some x -> number_of m3739 = Some y ->
  number_of m3639 = Some z ->
  Exists (fun key => pr !! key = None) F_ratio_keys ->
  exists e,
    calculate_F_ratio m4039 m3739 m3639 pr h = Raise e h
    /\ (e = TypeError
        \/ e = ZeroDivisionError
           /\ 1 - ratio_nominal h pr "ca3937" 0 * y = 0).
Proof.
  intros Hx Hy Hz Hmiss.
  destruct (py_mul_number (PyFloat 295.5) m3639 _ _ h eq_refl Hz)
    as (t1 & E1 & H1).
  destruct (py_sub_number m4039 t1 _ _ h Hx H1) as (n1 & E2 & H2).
  destruct (pr !! "ca3637"%string) as [l1|] eqn:Hl1.
  2:{ exists TypeError. split; [|by left]. unfold calculate_F_ratio.
      erewrite bind_ok by exact E1. erewrite bind_ok by exact E2.
      erewrite bind_ok by (by apply pr_get_or_None_None).
      erewrite bind_raise; [reflexivity|].
      apply py_mul_not_a_number. by right. }
  destruct (calculate_F_ratio_numerator m4039 m3739 m3639 x y z pr l1 h
              Hx Hy Hz Hl1) as (n & En & Hn).
  rewrite calculate_F_ratio_unfold. erewrite bind_ok by exact En.
  destruct (pr !! "ca3937"%string) as [l2|] eqn:Hl2.
  2:{ exists TypeError. split; [|by left].
      erewrite bind_ok by (by apply pr_get_or_None_None).
      erewrite bind_raise; [reflexivity|].
      apply py_mul_not_a_number. by left. }
  destruct (pr_get_or_None_number pr _ l2 h Hl2) as (r2 & Er2 & Hr2).
  destruct (py_mul_number r2 m3739 _ _ h Hr2 Hy) as (t & Et & Ht).
  destruct (py_sub_number (PyFloat 1) t _ _ h eq_refl Ht) as (d & Ed & Hd).
  erewrite bind_ok by exact Er2. erewrite bind_ok by exact Et.
  erewrite bind_ok by exact Ed.
  assert (Hl3 : pr !! "k4039"%string = None).
  { apply Exists_cons in Hmiss as [Hm|Hmiss]; [congruence|].
    apply Exists_cons in Hmiss as [Hm|Hmiss]; [congruence|].
    apply Exists_cons in Hmiss as [Hm|Hmiss]; [exact Hm|].
    by apply Exists_nil in Hmiss. }
  destruct (decide (1 - ratio_nominal h pr "ca3937" 0 * y = 0)) as [Hz0|Hnz].
  - exists ZeroDivisionError. split; [|by right].
    erewrite bind_raise; [reflexivity|].
    apply (py_div_zero n d _ h Hn). by rewrite Hd, Hz0.
  - destruct (py_div_number n d _ _ h Hn Hd Hnz) as (q & Eq & Hq).
    exists TypeError. split; [|by left].
    erewrite bind_ok by exact Eq.
    erewrite bind_ok by (by apply pr_get_or_None_None).
    apply py_sub_not_a_number. by right.
Qed.

Lemma calculate_F_ratio_missing_ratio_witness :
  exists e,
    calculate_F_ratio (PyFloat 10) (PyFloat 0.1) (PyFloat 0.01) ∅ []
    = Raise e []
    /\ (e = TypeError
        \/ e = ZeroDivisionError
           /\ 1 - ratio_nominal [] ∅ "ca3937" 0 * 0.1 = 0).
Proof.
  apply (calculate_F_ratio_missing_ratio (PyFloat 10) (PyFloat 0.1)
           (PyFloat 0.01) 10 0.1 0.01 ∅ []); try reflexivity.
  apply Exists_cons_hd. reflexivity.
Defined.

(** X10.  When [ca3937 * m3739] is 1 the denominator of [calculate_F_ratio]
    is zero and the call raises [ZeroDivisionError]: unlike [calculate_F],
    the function has no fallback. *)
Theorem calculate_F_ratio_zero_denominator m4039 m3739 m3639 x y z pr h :
  number_of m4039 = Some x -> number_of m3739 = Some y ->
  number_of m3639 = Some z ->
  is_Some (pr !! "ca3637"%string) -> is_Some (pr !! "ca3937"%string) ->
  ratio_nominal h pr "ca3937" 0 * y = 1 ->
  calculate_F_ratio m4039 m3739 m3639 pr h = Raise ZeroDivisionError h.
Proof.
  intros Hx Hy Hz [l1 Hl1] [l2 Hl2] Hd.
  destruct (calculate_F_ratio_numerator m4039 m3739 m3639 x y z pr l1 h
              Hx Hy Hz Hl1) as (n & En & Hn).
  destruct (pr_get_or_None_number pr _ l2 h Hl2) as (r2 & Er2 & Hr2).
  destruct (py_mul_number r2 m3739 _ _ h Hr2 Hy) as (t & Et & Ht).
  destruct (py_sub_number (PyFloat 1) t _ _ h eq_refl Ht) as (d & Ed & Hd').
  rewrite calculate_F_ratio_unfold. erewrite bind_ok by exact En.
  erewrite bind_ok by exact Er2. erewrite bind_ok by exact Et.
  erewrite bind_ok by exact Ed.
  erewrite bind_raise; [reflexivity|].
  apply (py_div_zero n d _ h Hn). rewrite Hd', Hd. f_equal. ring.
Qed.

Lemma calculate_F_ratio_zero_denominator_witness :
  calculate_F_ratio (PyFloat 10) (PyFloat 0.5) (PyFloat 0.01) two_ratios
                    two_ratio_heap
  = Raise ZeroDivisionError two_ratio_heap.
Proof.
  apply (calculate_F_ratio_zero_denominator (PyFloat 10) (PyFloat 0.5)
           (PyFloat 0.01) 10 0.5 0.01 two_ratios two_ratio_heap);
    try reflexivity.
  - exists 0%nat. vm_compute. reflexivity.
  - exists 1%nat. vm_compute. reflexivity.
  - unfold ratio_nominal.
    replace (two_ratios !! "ca3937"%string) with (Some 1%nat)
      by (vm_compute; reflexivity).
    simpl. lra.
Defined.

(** ** The default constants object and calculate_atmospheric *)

Lemma ArArConstants_lambda_Cl36 h :
  getattr ArArConstants_instance "lambda_Cl36" h
  = Ok (PyUFloat (of_variable 6.308e-9 (length h)))
       (h ++ [mkVariable 6.308e-9 0]).
Proof.
  unfold getattr, ArArConstants.getattr, ArArConstants.getattr_of_self,
    ArArConstants.ufloat_property.
  do 4 (erewrite bind_ok by reflexivity).
  erewrite bind_ok by (apply ufloat_ok; lra).
  reflexivity.
Qed.

Lemma ArArConstants_atm4036 h :
  ArArConstants.getattr_of_self "atm4036" h
  = Ok (PyUFloat (of_variable 295.5 (length h))) (h ++ [mkVariable 295.5 0.5]).
Proof.
  unfold ArArConstants.getattr_of_self, ArArConstants.ufloat_property.
  do 4 (erewrite bind_ok by reflexivity).
  erewrite bind_ok by (apply ufloat_ok; lra).
  reflexivity.
Qed.

(** [atm3836] evaluates [self.atm4036] and then fails on [self.atm4038]:
    the class has [atm4038_v] and [atm4038_e] only. *)
Lemma ArArConstants_atm3836 h :
  getattr ArArConstants_instance "atm3836" h
  = Raise AttributeError (h ++ [mkVariable 295.5 0.5]).
Proof.
  unfold getattr, ArArConstants.getattr.
  erewrite bind_ok by apply ArArConstants_atm4036.
  reflexivity.
Qed.

(** X11.  The property [atm3836] of [ArArConstants] reads [self.atm4038],
    which the class does not have (it has [atm4038_v] and [atm4038_e]):
    it raises [AttributeError], and so does [calculate_atmospheric] on
    every input when [arar_constants] is omitted. *)
Theorem calculate_atmospheric_omitted_constants
    a38 a36 k38 ca38 ca36 decay_time production_ratios h :
  getattr ArArConstants_instance "atm3836" h
  = Raise AttributeError (h ++ [mkVariable 295.5 0.5])
  /\ exists h',
       calculate_atmospheric a38 a36 k38 ca38 ca36 decay_time
                             production_ratios None h
       = Raise AttributeError h'.
Proof.
  split; [apply ArArConstants_atm3836|].
  unfold calculate_atmospheric. simpl or_default.
  erewrite bind_ok by apply pr_get_ratio.
  erewrite bind_ok by apply ArArConstants_lambda_Cl36.
  erewrite bind_ok by reflexivity.
  erewrite bind_ok by (apply ufloat_ok; lra).
  eexists. erewrite bind_raise; [reflexivity|].
  rewrite for_range_S. erewrite bind_raise; [reflexivity|].
  unfold atm_iteration.
  erewrite bind_raise by apply ArArConstants_atm3836. reflexivity.
Qed.

(** ** calculate_flux *)

Lemma calculate_flux_converted parse libm_exp F age c h F' h1 age' h2 :
  from_sequence parse F h = Ok F' h1 ->
  from_sequence parse age h1 = Ok age' h2 ->
  calculate_flux parse libm_exp F age (Some (Configured c)) h
  = try_except
      (do x <- py_mul age' (PyFloat (nominal_value (lambda_k c)));
       do x <- umath_exp libm_exp x;
       do x <- py_sub x (PyFloat 1);
       do j <- py_div x F';
       do n <- py_nominal_value j;
       do s <- py_std_dev j;
       ret (n, s))
      catch_ZeroDivisionError (ret (1, 0)) h2.
Proof.
  intros EF Ea. unfold calculate_flux.
  erewrite bind_ok by exact EF. erewrite bind_ok by exact Ea.
  reflexivity.
Qed.

(** X12.  When F is zero and [age * lambda_k] is in the range of
    [math.exp], [calculate_flux] returns the pair (1, 0): the division
    raises [ZeroDivisionError] inside the [try] block.  Out of the range,
    the exponential, which is taken before the division, raises
    [OverflowError], and the [except] clause does not catch it. *)
Theorem calculate_flux_zero_F parse libm_exp F age c h F' h1 age' h2 x :
  from_sequence parse F h = Ok F' h1 ->
  from_sequence parse age h1 = Ok age' h2 ->
  number_of F' = Some 0 -> number_of age' = Some x ->
  (x * nominal_value (lambda_k c) <= exp_overflow ->
   calculate_flux parse libm_exp F age (Some (Configured c)) h = Ok (1, 0) h2)
  /\ (exp_overflow < x * nominal_value (lambda_k c) ->
      calculate_flux parse libm_exp F age (Some (Configured c)) h
      = Raise OverflowError h2).
Proof.
  intros EF Ea HF Hage.
  rewrite (calculate_flux_converted _ _ _ _ _ _ _ _ _ _ EF Ea).
  destruct (py_mul_number age' (PyFloat (nominal_value (lambda_k c))) _ _ h2
              Hage eq_refl) as (p & Ep & Hp).
  split; intros Hrange.
  - destruct (umath_exp_number libm_exp p _ h2 Hp Hrange) as (e & Ee & He).
    destruct (py_sub_number e (PyFloat 1) _ _ h2 He eq_refl) as (n & En & Hn).
    assert (Ediv : py_div n F' h2 = Raise ZeroDivisionError h2)
      by by eapply py_div_zero.
    erewrite try_except_caught; [reflexivity| |].
    + erewrite bind_ok by exact Ep. erewrite bind_ok by exact Ee.
      erewrite bind_ok by exact En.
      erewrite bind_raise by exact Ediv. reflexivity.
    + reflexivity.
  - erewrite try_except_uncaught; [reflexivity| |reflexivity].
    erewrite bind_ok by exact Ep.
    by erewrite bind_raise by (by eapply umath_exp_overflow).
Qed.

Lemma calculate_flux_zero_F_witness :
  calculate_flux no_text exp (PyFloat 0) (PyTuple [PyFloat 1e6; PyFloat 0])
                 (Some (Configured example_constants)) []
  = Ok (1, 0) [mkVariable 1e6 0]
  /\ calculate_flux no_text exp (PyFloat 0) (PyTuple [PyFloat 1e13; PyFloat 0])
                    (Some (Configured example_constants)) []
     = Raise OverflowError [mkVariable 1e13 0].
Proof.
  split.
  - apply (calculate_flux_zero_F no_text exp (PyFloat 0)
             (PyTuple [PyFloat 1e6; PyFloat 0]) example_constants
             [] (PyFloat 0) [] (PyUFloat (of_variable 1e6 0)) [mkVariable 1e6 0]
             1e6).
    + reflexivity.
    + unfold from_sequence.
      erewrite bind_ok by (apply ufloat_call_pair; lra). reflexivity.
    + reflexivity.
    + reflexivity.
    + unfold exp_overflow. simpl. lra.
  - apply (calculate_flux_zero_F no_text exp (PyFloat 0)
             (PyTuple [PyFloat 1e13; PyFloat 0]) example_constants
             [] (PyFloat 0) [] (PyUFloat (of_variable 1e13 0))
             [mkVariable 1e13 0] 1e13).
    + reflexivity.
    + unfold from_sequence.
      erewrite bind_ok by (apply ufloat_call_pair; lra). reflexivity.
    + reflexivity.
    + reflexivity.
    + unfold exp_overflow. simpl. lra.
Defined.

(** X13.  Called with two plain floats, an F that is not zero and an age
    with [age * lambda_k] in the range of [math.exp], [calculate_flux]
    raises [AttributeError]: the flux is then a float, which has no
    [nominal_value].  Out of the range it raises [OverflowError]. *)
Theorem calculate_flux_of_floats parse libm_exp xF xage c h :
  xF <> 0 ->
  (xage * nominal_value (lambda_k c) <= exp_overflow ->
   calculate_flux parse libm_exp (PyFloat xF) (PyFloat xage)
                  (Some (Configured c)) h
   = Raise AttributeError h)
  /\ (exp_overflow < xage * nominal_value (lambda_k c) ->
      calculate_flux parse libm_exp (PyFloat xF) (PyFloat xage)
                     (Some (Configured c)) h
      = Raise OverflowError h).
Proof.
  intros HF.
  rewrite (calculate_flux_converted _ _ _ _ _ _ (PyFloat xF) h (PyFloat xage) h)
    by reflexivity.
  split; intros Hrange.
  - apply try_except_uncaught; [|reflexivity].
    erewrite bind_ok by reflexivity.
    erewrite bind_ok.
    2:{ unfold umath_exp, py_unop. erewrite bind_ok by reflexivity.
        erewrite bind_ok by (by apply uexp_ok). reflexivity. }
    erewrite bind_ok by reflexivity.
    erewrite bind_ok.
    2:{ unfold py_div, py_binop. do 2 (erewrite bind_ok by reflexivity).
        unfold udiv. simpl nominal_value at 1.
        destruct (decide (xF = 0)); [done|].
        erewrite bind_ok by reflexivity. reflexivity. }
    reflexivity.
  - apply try_except_uncaught; [|reflexivity].
    erewrite bind_ok by reflexivity.
    by erewrite bind_raise by (by eapply umath_exp_overflow).
Qed.

Lemma calculate_flux_of_floats_witness :
  calculate_flux no_text exp (PyFloat 2) (PyFloat 1e6)
                 (Some (Configured example_constants)) []
  = Raise AttributeError []
  /\ calculate_flux no_text exp (PyFloat 2) (PyFloat 1e13)
                    (Some (Configured example_constants)) []
     = Raise OverflowError [].
Proof.
  split.
  - apply (calculate_flux_of_floats no_text exp 2 1e6 example_constants []);
      [lra | unfold exp_overflow; simpl; lra].
  - apply (calculate_flux_of_floats no_text exp 2 1e13 example_constants []);
      [lra | unfold exp_overflow; simpl; lra].
Defined.

(** The quotient of two quantities, when it is defined. *)
Lemma udiv_exact x y h :
  nominal_value y <> 0 ->
  udiv x y h
  = Ok (mkUFloat (nominal_value x / nominal_value y)
                 (fun l => derivatives x l / nominal_value y
                           - nominal_value x * derivatives y l
                             / (nominal_value y * nominal_value y))) h.
Proof. intros Hy. unfold udiv. by destruct (decide (nominal_value y = 0)). Qed.



Lemma lookup_first_new (h : heap) v w : (h ++ [v; w]) !! length h = Some v.
Proof. by apply list_lookup_middle. Qed.

Lemma lookup_second_new (h : heap) v w :
  (h ++ [v; w]) !! S (length h) = Some w.
Proof.
  replace (h ++ [v; w]) with ((h ++ [v]) ++ [w]) by by rewrite <- app_assoc.
  apply list_lookup_middle. rewrite length_app. simpl. lia.
Qed.

(** X14.  For F and the age given as pairs (value, error), with
    [age * lambda_k] in the range of [math.exp], [calculate_flux] returns
    [J = (e - 1) / F], where [e] is what [math.exp] gives for
    [exp (lambda_k * age)], and the standard deviation that first-order
    propagation gives for independent errors of F and of the age. *)
Theorem calculate_flux_error parse libm_exp xF sF xage sage c h :
  0 <= sF -> 0 <= sage -> xF <> 0 ->
  let lambda := nominal_value (lambda_k c) in
  let e := libm_exp (xage * lambda) in
  xage * lambda <= exp_overflow ->
  calculate_flux parse libm_exp (PyTuple [PyFloat xF; PyFloat sF])
                 (PyTuple [PyFloat xage; PyFloat sage])
                 (Some (Configured c)) h
  = Ok ((e - 1) / xF, sqrt (flux_variance lambda e xF sF sage))
       (h ++ [mkVariable xF sF; mkVariable xage sage]).
Proof.
  intros HsF Hsage HF lambda e Hrange.
  set (h2 := h ++ [mkVariable xF sF; mkVariable xage sage]).
  rewrite (calculate_flux_converted _ _ _ _ _ _
             (PyUFloat (of_variable xF (length h))) (h ++ [mkVariable xF sF])
             (PyUFloat (of_variable xage (S (length h)))) h2).
  2:{ unfold from_sequence.
      erewrite bind_ok by (by apply ufloat_call_pair). reflexivity. }
  2:{ unfold from_sequence.
      erewrite bind_ok by (by apply ufloat_call_pair).
      unfold h2. rewrite length_app, <- app_assoc. simpl.
      by rewrite Nat.add_1_r. }
  change (nominal_value (lambda_k c)) with lambda. clearbody lambda.
  apply try_except_ok.
  erewrite bind_ok by reflexivity.
  erewrite bind_ok.
  2:{ unfold umath_exp, py_unop. erewrite bind_ok by reflexivity.
      erewrite bind_ok by (by apply uexp_ok). reflexivity. }
  erewrite bind_ok by reflexivity.
  erewrite bind_ok.
  2:{ unfold py_div, py_binop. do 2 (erewrite bind_ok by reflexivity).
      erewrite bind_ok by (by apply udiv_exact). reflexivity. }
  simpl py_result. erewrite bind_ok by reflexivity.
  unfold py_std_dev, std_dev. erewrite bind_ok by reflexivity.
  unfold ret.
  cbv beta iota delta [derivatives var_std_dev nominal_value uadd umul usub
                       uconst of_variable].
  fold e. clearbody e.
  match goal with
  | |- Ok (_, sqrt ?v) _ = Ok (_, sqrt ?v') _ =>
      replace v with v'; [reflexivity | symmetry]
  end.
  unfold variance.
  rewrite (py_sum_imap_two _ h2 (length h) (S (length h))
             (mkVariable xF sF) (mkVariable xage sage)).
  - cbv beta iota delta [derivatives var_std_dev nominal_value uadd umul usub
                         uconst of_variable].
    rewrite !Nat.eqb_refl.
    replace (length h =? S (length h))%nat with false
      by (symmetry; apply Nat.eqb_neq; lia).
    replace (S (length h) =? length h)%nat with false
      by (symmetry; apply Nat.eqb_neq; lia).
    unfold flux_variance. field. exact HF.
  - lia.
  - apply lookup_first_new.
  - apply lookup_second_new.
  - intros i v Hi1 Hi2 _.
    cbv beta iota delta [derivatives var_std_dev nominal_value uadd umul usub
                         uconst of_variable].
    replace (i =? S (length h))%nat with false
      by (symmetry; by apply Nat.eqb_neq).
    replace (i =? length h)%nat with false
      by (symmetry; by apply Nat.eqb_neq).
    field. exact HF.
Qed.

Lemma calculate_flux_error_witness :
  calculate_flux no_text exp (PyTuple [PyFloat 2; PyFloat 0.1])
                 (PyTuple [PyFloat 1e6; PyFloat 1000])
                 (Some (Configured example_constants)) []
  = Ok ((exp (1e6 * nominal_value (lambda_k example_constants)) - 1) / 2,
        sqrt (flux_variance (nominal_value (lambda_k example_constants))
                (exp (1e6 * nominal_value (lambda_k example_constants)))
                2 0.1 1000))
       ([] ++ [mkVariable 2 0.1; mkVariable 1e6 1000]).
Proof.
  apply (calculate_flux_error no_text exp 2 0.1 1e6 1000 example_constants []);
    try lra.
  unfold exp_overflow. simpl. lra.
Defined.

(** ** age_equation *)



(** ** apply_fixed_k3739 *)

Lemma apply_fixed_k3739_value a39 pr fixed_k3739 x h :
  let r1 := ratio_nominal h pr "ca3937" 1 in
  let r0 := ratio_nominal h pr "ca3937" 0 in
  r1 <> 0 -> number_of fixed_k3739 = Some x -> x + 1 / r1 <> 0 ->
  exists ca37 ca39 k37 k39,
    apply_fixed_k3739 a39 pr fixed_k3739 h = Ok (ca37, ca39, k37, k39) h
    /\ nominal_value ca37 = nominal_value a39 * x * (1 / r1) / (x + 1 / r1)
    /\ nominal_value ca39 = r0 * nominal_value ca37
    /\ nominal_value k39 = nominal_value a39 - nominal_value ca39
    /\ nominal_value k37 = x * nominal_value k39.
Proof.
  intros r1 r0 Hr Hx Hxy. unfold apply_fixed_k3739.
  erewrite bind_ok by apply pr_get_ratio.
  destruct (udiv_ok (uconst 1) (ratio h pr "ca3937" 1) h) as (y & Ey & Hy);
    [by rewrite nominal_value_ratio|].
  rewrite nominal_value_ratio in Hy. simpl in Hy. fold r1 in Hy.
  erewrite bind_ok by exact Ey.
  destruct (as_number_Some fixed_k3739 x h Hx) as (ux & Eux & Hux).
  erewrite bind_ok by exact Eux.
  destruct (udiv_ok (umul (umul a39 ux) y) (uadd ux y) h) as (ca37 & Eca & Hca);
    [simpl; by rewrite Hux, Hy|].
  erewrite bind_ok by exact Eca.
  erewrite bind_ok by apply pr_get_ratio.
  eexists _, _, _, _. split; [reflexivity|].
  split; [rewrite Hca; simpl; by rewrite Hux, Hy|].
  split; [simpl; by rewrite nominal_value_ratio|].
  split; [reflexivity|]. simpl. by rewrite Hux.
Qed.

Lemma ratio_nominal_present h pr key d d' :
  is_Some (pr !! key) ->
  ratio_nominal h pr key d = ratio_nominal h pr key d'.
Proof. intros [l Hl]. unfold ratio_nominal. by rewrite Hl. Qed.

(** X16.  [apply_fixed_k3739] solves the system of its docstring: for a
    ratio 'ca3937' of the dictionary that is not zero and a fixed ratio
    [x], [ca39 + k39 = a39], [ca39 = ca3937 * ca37] and [ca37 = x * k39];
    the [k37] it returns is [x * k39] too. *)
Theorem apply_fixed_k3739_solves_system a39 pr fixed_k3739 x h :
  let r := ratio_nominal h pr "ca3937" 0 in
  is_Some (pr !! "ca3937"%string) -> r <> 0 ->
  number_of fixed_k3739 = Some x -> x + 1 / r <> 0 ->
  exists ca37 ca39 k37 k39,
    apply_fixed_k3739 a39 pr fixed_k3739 h = Ok (ca37, ca39, k37, k39) h
    /\ nominal_value ca39 + nominal_value k39 = nominal_value a39
    /\ nominal_value ca39 = r * nominal_value ca37
    /\ nominal_value ca37 = x * nominal_value k39
    /\ nominal_value k37 = x * nominal_value k39.
Proof.
  intros r Hkey Hr Hx Hxy.
  assert (Hr1 : ratio_nominal h pr "ca3937" 1 = r)
    by by apply ratio_nominal_present.
  destruct (apply_fixed_k3739_value a39 pr fixed_k3739 x h)
    as (ca37 & ca39 & k37 & k39 & E & Hca37 & Hca39 & Hk39 & Hk37);
    [by rewrite Hr1 | exact Hx | by rewrite Hr1 |].
  rewrite Hr1 in Hca37. fold r in Hca39.
  exists ca37, ca39, k37, k39. split; [exact E|].
  split; [rewrite Hk39; ring|]. split; [exact Hca39|].
  split; [|exact Hk37].
  assert (Hden : x * r + 1 <> 0).
  { intros H. apply Hxy. replace (x + 1 / r) with ((x * r + 1) / r)
      by (field; exact Hr). rewrite H. field. exact Hr. }
  rewrite Hk39, Hca39, Hca37. field. split; assumption.
Qed.

Lemma apply_fixed_k3739_solves_system_witness :
  exists ca37 ca39 k37 k39,
    apply_fixed_k3739 (uconst 10) two_ratios (PyFloat 0.5) two_ratio_heap
    = Ok (ca37, ca39, k37, k39) two_ratio_heap
    /\ nominal_value ca39 + nominal_value k39 = nominal_value (uconst 10)
    /\ nominal_value ca39
       = ratio_nominal two_ratio_heap two_ratios "ca3937" 0 * nominal_value ca37
    /\ nominal_value ca37 = 0.5 * nominal_value k39
    /\ nominal_value k37 = 0.5 * nominal_value k39.
Proof.
  assert (Hr : ratio_nominal two_ratio_heap two_ratios "ca3937" 0 = 2).
  { unfold ratio_nominal.
    replace (two_ratios !! "ca3937"%string) with (Some 1%nat)
      by (vm_compute; reflexivity).
    reflexivity. }
  apply (apply_fixed_k3739_solves_system (uconst 10) two_ratios (PyFloat 0.5)
           0.5 two_ratio_heap).
  - exists 1%nat. vm_compute. reflexivity.
  - rewrite Hr. lra.
  - reflexivity.
  - rewrite Hr. lra.
Defined.

(** X17.  [apply_fixed_k3739] raises [ZeroDivisionError] when 'ca3937' is
    zero or when [x + 1 / ca3937] is zero, and [TypeError] when the fixed
    ratio is not a number; it catches nothing. *)
Theorem apply_fixed_k3739_errors a39 pr fixed_k3739 h :
  let r := ratio_nominal h pr "ca3937" 1 in
  (r = 0 -> apply_fixed_k3739 a39 pr fixed_k3739 h = Raise ZeroDivisionError h)
  /\ (r <> 0 -> number_of fixed_k3739 = None ->
      apply_fixed_k3739 a39 pr fixed_k3739 h = Raise TypeError h)
  /\ (forall x, r <> 0 -> number_of fixed_k3739 = Some x -> x + 1 / r = 0 ->
      apply_fixed_k3739 a39 pr fixed_k3739 h = Raise ZeroDivisionError h).
Proof.
  intros r. unfold apply_fixed_k3739.
  split; [|split].
  - intros Hr. erewrite bind_ok by apply pr_get_ratio.
    erewrite bind_raise; [reflexivity|].
    apply udiv_zero. by rewrite nominal_value_ratio.
  - intros Hr Hx. erewrite bind_ok by apply pr_get_ratio.
    destruct (udiv_ok (uconst 1) (ratio h pr "ca3937" 1) h) as (y & Ey & Hy);
      [by rewrite nominal_value_ratio|].
    erewrite bind_ok by exact Ey.
    erewrite bind_raise by (by apply as_number_None). reflexivity.
  - intros x Hr Hx Hxy. erewrite bind_ok by apply pr_get_ratio.
    destruct (udiv_ok (uconst 1) (ratio h pr "ca3937" 1) h) as (y & Ey & Hy);
      [by rewrite nominal_value_ratio|].
    rewrite nominal_value_ratio in Hy. simpl in Hy. fold r in Hy.
    erewrite bind_ok by exact Ey.
    destruct (as_number_Some fixed_k3739 x h Hx) as (ux & Eux & Hux).
    erewrite bind_ok by exact Eux.
    erewrite bind_raise; [reflexivity|].
    apply udiv_zero. simpl. by rewrite Hux, Hy.
Qed.

Lemma apply_fixed_k3739_errors_witness :
  apply_fixed_k3739 (uconst 10) two_ratios PyNone two_ratio_heap
  = Raise TypeError two_ratio_heap
  /\ apply_fixed_k3739 (uconst 10) two_ratios (PyFloat (-0.5)) two_ratio_heap
     = Raise ZeroDivisionError two_ratio_heap.
Proof.
  assert (Hr : ratio_nominal two_ratio_heap two_ratios "ca3937" 1 = 2).
  { unfold ratio_nominal.
    replace (two_ratios !! "ca3937"%string) with (Some 1%nat)
      by (vm_compute; reflexivity).
    reflexivity. }
  split.
  - apply (apply_fixed_k3739_errors (uconst 10) two_ratios PyNone
             two_ratio_heap); [rewrite Hr; lra | reflexivity].
  - apply (apply_fixed_k3739_errors (uconst 10) two_ratios (PyFloat (-0.5))
             two_ratio_heap) with (x := -0.5);
      [rewrite Hr; lra | reflexivity | rewrite Hr; lra].
Defined.

(** ** interference_corrections with a fixed ratio *)

Lemma interference_corrections_fixed
    a40 a39 a38 a37 a36 pr c fixed_k3739 x h ca37 ca39 k37 k39 :
  fixed_ratio c fixed_k3739 x ->
  let h1 := h ++ [mkVariable 0 1e-20] in
  apply_fixed_k3739 a39 pr (PyFloat x) h1 = Ok (ca37, ca39, k37, k39) h1 ->
  exists k38 ca36 ca37' ca38 t,
    interference_corrections a40 a39 a38 a37 a36 (Some pr)
                             (Some (Configured c)) fixed_k3739 h
    = Ok (k37, k38, k39, ca36, ca37', ca38, ca39) (h1 ++ t)
    /\ nominal_value ca37'
       = if allow_negative_ca_correction c then nominal_value ca37
         else Rmax 0 (nominal_value ca37).
Proof.
  intros Hfixed h1 Happly. unfold interference_corrections.
  erewrite bind_ok by (apply ufloat_ok; lra). fold h1.
  erewrite bind_ok by reflexivity.
  erewrite bind_ok by reflexivity.
  simpl default.
  assert (Hpath :
    (do iterative <- (if bool_decide (lower (k3739_mode c) = "normal"%string)
                      then do given <- py_truth fixed_k3739; ret (negb given)
                      else ret false);
     ret iterative) h1 = Ok false h1
    /\ (do given <- py_truth fixed_k3739;
        do fixed_k3739 <- (if negb given
                           then getattr (Configured c) "fixed_k3739"
                           else ret fixed_k3739);
        apply_fixed_k3739 a39 pr fixed_k3739) h1
       = Ok (ca37, ca39, k37, k39) h1).
  { destruct Hfixed as [[-> Hx]|(Hfalse & Hmode & ->)].
    - assert (Ht : py_truth (PyFloat x) h1 = Ok true h1).
      { simpl. unfold ret. by rewrite bool_decide_eq_true_2. }
      split.
      + destruct (bool_decide (lower (k3739_mode c) = "normal"%string));
          [|reflexivity].
        erewrite bind_ok by (erewrite bind_ok by exact Ht; reflexivity).
        reflexivity.
      + erewrite bind_ok by exact Ht. simpl negb.
        erewrite bind_ok by reflexivity. exact Happly.
    - split.
      + by rewrite bool_decide_eq_false_2.
      + erewrite bind_ok by apply Hfalse. simpl negb.
        erewrite bind_ok by reflexivity. exact Happly. }
  destruct Hpath as [Hiter Hrun].
  unfold bind at 1 in Hiter.
  destruct ((if bool_decide (lower (k3739_mode c) = "normal"%string)
             then do given <- py_truth fixed_k3739; ret (negb given)
             else ret false) h1) as [b hb|] eqn:Eb; [|done].
  injection Hiter as -> ->.
  erewrite bind_ok by exact Eb. cbv beta iota.
  erewrite bind_ok by exact Hrun. cbv beta iota.
  erewrite bind_ok by apply pr_get_ratio.
  erewrite bind_ok by reflexivity.
  erewrite bind_ok by reflexivity.
  destruct (allow_negative_ca_correction c); simpl negb; cbv beta iota.
  - erewrite bind_ok by reflexivity.
    erewrite bind_ok by apply pr_get_ratio.
    erewrite bind_ok by apply pr_get_ratio.
    eexists _, _, _, _, []. rewrite app_nil_r. split; reflexivity.
  - erewrite bind_ok
      by (erewrite bind_ok by (apply ufloat_ok; lra); reflexivity).
    erewrite bind_ok by apply pr_get_ratio.
    erewrite bind_ok by apply pr_get_ratio.
    eexists _, _, _, _, _. split; [reflexivity|].
    apply nominal_value_py_max_zero.
Qed.

Lemma ratio_nominal_app h t pr key default :
  ratios_wf h pr ->
  ratio_nominal (h ++ t) pr key default = ratio_nominal h pr key default.
Proof.
  intros Hwf. by rewrite <- !nominal_value_ratio, ratio_app.
Qed.

(** X18.  With a fixed ratio [x] (the argument [fixed_k3739] when it is a
    number other than zero, whatever the mode; the constant [fixed_k3739]
    when the argument counts as false and the mode is not 'normal')
    [interference_corrections] makes no pass of the loop:
    [k39 = a39 / (1 + ca3937 * x)], [ca39 = a39 - k39], [k37 = x * k39], and
    [ca37 = x * k39], clamped at zero unless negative corrections are
    allowed.  The measured 37Ar is not used. *)
Theorem interference_corrections_fixed_mode
    a40 a39 a38 a37 a36 pr c fixed_k3739 x h :
  let r := ratio_nominal h pr "ca3937" 0 in
  ratios_wf h pr -> is_Some (pr !! "ca3937"%string) -> r <> 0 ->
  x + 1 / r <> 0 ->
  fixed_ratio c fixed_k3739 x ->
  exists k37 k38 k39 ca36 ca37 ca38 ca39 t,
    interference_corrections a40 a39 a38 a37 a36 (Some pr)
                             (Some (Configured c)) fixed_k3739 h
    = Ok (k37, k38, k39, ca36, ca37, ca38, ca39) (h ++ mkVariable 0 1e-20 :: t)
    /\ nominal_value k39 = nominal_value a39 / (1 + r * x)
    /\ nominal_value ca39 = nominal_value a39 - nominal_value k39
    /\ nominal_value k37 = x * nominal_value k39
    /\ nominal_value ca37
       = if allow_negative_ca_correction c then x * nominal_value k39
         else Rmax 0 (x * nominal_value k39).
Proof.
  intros r Hwf Hkey Hr Hxy Hfixed.
  set (h1 := h ++ [mkVariable 0 1e-20]).
  assert (Hr1 : ratio_nominal h1 pr "ca3937" 0 = r)
    by by apply ratio_nominal_app.
  assert (Hr1' : ratio_nominal h1 pr "ca3937" 1 = r)
    by (rewrite <- Hr1; by apply ratio_nominal_present).
  assert (Hden : 1 + r * x <> 0).
  { intros H. apply Hxy. replace (x + 1 / r) with ((1 + r * x) / r)
      by (field; exact Hr). rewrite H. field. exact Hr. }
  destruct (apply_fixed_k3739_value a39 pr (PyFloat x) x h1)
    as (ca37 & ca39 & k37 & k39 & E & Hca37v & Hca39 & Hk39v & Hk37);
    [by rewrite Hr1' | reflexivity | by rewrite Hr1' |].
  rewrite Hr1' in Hca37v. rewrite Hr1 in Hca39.
  assert (Hsum : nominal_value ca39 + nominal_value k39 = nominal_value a39)
    by (rewrite Hk39v; ring).
  assert (Hca37 : nominal_value ca37 = x * nominal_value k39).
  { rewrite Hk39v, Hca39, Hca37v. field. split; [exact Hr|].
    intros H. apply Hden. rewrite <- H. ring. }
  destruct (interference_corrections_fixed a40 a39 a38 a37 a36 pr c fixed_k3739
              x h ca37 ca39 k37 k39 Hfixed E)
    as (k38 & ca36 & ca37' & ca38 & t & Erun & Hclamp).
  exists k37, k38, k39, ca36, ca37', ca38, ca39, t.
  split; [rewrite Erun; unfold h1; by rewrite <- app_assoc|].
  assert (Hk39 : nominal_value k39 = nominal_value a39 / (1 + r * x)).
  { rewrite <- Hsum, Hca39, Hca37. field. exact Hden. }
  split; [exact Hk39|]. split; [rewrite <- Hsum; ring|].
  split; [exact Hk37|]. by rewrite Hclamp, Hca37.
Qed.

Lemma interference_corrections_fixed_mode_witness :
  exists k37 k38 k39 ca36 ca37 ca38 ca39 t,
    interference_corrections (uconst 100) (uconst 10) (uconst 1) (uconst 2)
                             (uconst 0.1) (Some two_ratios)
                             (Some (Configured example_constants))
                             (PyFloat 0.5) two_ratio_heap
    = Ok (k37, k38, k39, ca36, ca37, ca38, ca39)
         (two_ratio_heap ++ mkVariable 0 1e-20 :: t)
    /\ nominal_value k39
       = nominal_value (uconst 10)
         / (1 + ratio_nominal two_ratio_heap two_ratios "ca3937" 0 * 0.5)
    /\ nominal_value ca39 = nominal_value (uconst 10) - nominal_value k39
    /\ nominal_value k37 = 0.5 * nominal_value k39
    /\ nominal_value ca37
       = if allow_negative_ca_correction example_constants
         then 0.5 * nominal_value k39
         else Rmax 0 (0.5 * nominal_value k39).
Proof.
  assert (Hr : ratio_nominal two_ratio_heap two_ratios "ca3937" 0 = 2).
  { unfold ratio_nominal.
    replace (two_ratios !! "ca3937"%string) with (Some 1%nat)
      by (vm_compute; reflexivity).
    reflexivity. }
  apply (interference_corrections_fixed_mode
           (uconst 100) (uconst 10) (uconst 1) (uconst 2) (uconst 0.1)
           two_ratios example_constants (PyFloat 0.5) 0.5 two_ratio_heap).
  - intros key l Hl. apply elem_of_list_to_map_2 in Hl. simpl in Hl.
    repeat (apply elem_of_cons in Hl as [Hl|Hl];
            [injection Hl as _ ->; simpl; lia|]).
    by apply elem_of_nil in Hl.
  - exists 1%nat. vm_compute. reflexivity.
  - rewrite Hr. lra.
  - rewrite Hr. lra.
  - left. split; [reflexivity | lra].
Defined.

(** ** The five passes of interference_corrections *)

(** The nominal values that the iterative mode computes. *)
Lemma iterative_corrections_nominal h pr allow a39 a37 :
  ratios_wf h pr ->
  let '(k37, k38, k39, ca36, ca37, ca38, ca39, h2) :=
    iterative_corrections h pr allow a39 a37 in
  let s := fixed_point_iteration
             (ratio_nominal h pr "ca3937" 0) (ratio_nominal h pr "k3739" 0)
             (nominal_value a37) (nominal_value a39) 5 in
  nominal_value k37 = s_k37 s
  /\ nominal_value k39 = s_k39 s
  /\ nominal_value ca39 = s_ca39 s
  /\ nominal_value ca37 = (if allow then s_ca37 s else Rmax 0 (s_ca37 s))
  /\ nominal_value k38 = ratio_nominal h pr "k3839" 0 * s_k39 s
  /\ nominal_value ca36 = ratio_nominal h pr "ca3637" 0 * nominal_value ca37
  /\ nominal_value ca38 = ratio_nominal h pr "ca3837" 0 * nominal_value ca37
  /\ h2 = h ++ mkVariable 0 1e-20 :: (if allow then [] else [mkVariable 0 0]).
Proof.
  intros Hwf. unfold iterative_corrections.
  cbv beta iota zeta delta [pass].
  set (h1 := h ++ [mkVariable 0 1e-20]).
  set (ca3937 := ratio h1 pr "ca3937" 0).
  set (k3739 := ratio h1 pr "k3739" 0).
  assert (Hr1 : forall key d, nominal_value (ratio h1 pr key d)
                              = ratio_nominal h pr key d).
  { intros key d. unfold h1. by rewrite ratio_app, nominal_value_ratio. }
  assert (Hr2 : forall key d t, nominal_value (ratio (h1 ++ t) pr key d)
                                = ratio_nominal h pr key d).
  { intros key d t. unfold h1.
    by rewrite <- app_assoc, ratio_app, nominal_value_ratio. }
  pose proof (nominal_value_iter ca3937 k3739 a37 a39
                (of_variable 0 (length h)) 4 eq_refl) as Hiter.
  unfold ca3937, k3739 in Hiter. rewrite !Hr1 in Hiter.
  fold ca3937 k3739 in Hiter.
  change (s_k37 (fixed_point_iteration ?a ?b ?c ?d 5))
    with (b * (d - a * (c - s_k37 (fixed_point_iteration a b c d 4)))).
  change (s_k39 (fixed_point_iteration ?a ?b ?c ?d 5))
    with (d - a * (c - s_k37 (fixed_point_iteration a b c d 4))).
  change (s_ca39 (fixed_point_iteration ?a ?b ?c ?d 5))
    with (a * (c - s_k37 (fixed_point_iteration a b c d 4))).
  change (s_ca37 (fixed_point_iteration ?a ?b ?c ?d 5))
    with (c - s_k37 (fixed_point_iteration a b c d 4)).
  rewrite <- Hiter, <- (Hr1 "ca3937"%string 0), <- (Hr1 "k3739"%string 0).
  fold ca3937 k3739.
  split; [reflexivity|]. split; [reflexivity|]. split; [reflexivity|].
  split; [destruct allow; [reflexivity | apply nominal_value_py_max_zero]|].
  split; [simpl; by rewrite Hr1|].
  destruct allow.
  - split; [simpl; by rewrite Hr1|]. split; [simpl; by rewrite Hr1|].
    reflexivity.
  - split; [simpl nominal_value at 1; by rewrite Hr2|].
    split; [simpl nominal_value at 1; by rewrite Hr2|].
    unfold h1. by rewrite <- app_assoc.
Qed.

(** The passes sum a geometric series. *)
Lemma fixed_point_iteration_closed ca k a37 a39 n :
  ca * k <> 1 ->
  s_k39 (fixed_point_iteration ca k a37 a39 (S n))
  = exact_k39 ca k a37 a39 * (1 - (ca * k) ^ S n)
  /\ s_k37 (fixed_point_iteration ca k a37 a39 (S n))
     = k * (exact_k39 ca k a37 a39 * (1 - (ca * k) ^ S n)).
Proof.
  intros Hc. unfold exact_k39.
  assert (Hd : 1 - ca * k <> 0) by lra.
  induction n as [|n [IH39 IH37]].
  - simpl. split; field; exact Hd.
  - assert (H39 : s_k39 (fixed_point_iteration ca k a37 a39 (S (S n)))
                  = (a39 - ca * a37) / (1 - ca * k) * (1 - (ca * k) ^ S (S n))).
    { change (s_k39 (fixed_point_iteration ca k a37 a39 (S (S n))))
        with (a39 - ca * (a37 - s_k37 (fixed_point_iteration ca k a37 a39 (S n)))).
      rewrite IH37. rewrite <- !tech_pow_Rmult. field. exact Hd. }
    split; [exact H39|].
    change (s_k37 (fixed_point_iteration ca k a37 a39 (S (S n))))
      with (k * s_k39 (fixed_point_iteration ca k a37 a39 (S (S n)))).
    by rewrite H39.
Qed.

Lemma exact_k39_solves ca k a37 a39 :
  ca * k <> 1 ->
  exact_k39 ca k a37 a39 = a39 - ca * (a37 - k * exact_k39 ca k a37 a39).
Proof. intros Hc. unfold exact_k39. field. lra. Qed.

Lemma interference_corrections_heap
    a40 a39 a38 a37 a36 pr c fixed_k3739 h :
  ratios_wf h pr ->
  lower (k3739_mode c) = "normal"%string ->
  is_false fixed_k3739 ->
  exists k37 k38 k39 ca36 ca37 ca38 ca39,
    interference_corrections a40 a39 a38 a37 a36 (Some pr)
                             (Some (Configured c)) fixed_k3739 h
    = Ok (k37, k38, k39, ca36, ca37, ca38, ca39)
         (h ++ mkVariable 0 1e-20
            :: (if allow_negative_ca_correction c then [] else [mkVariable 0 0]))
    /\ iterative_corrections h pr (allow_negative_ca_correction c) a39 a37
       = (k37, k38, k39, ca36, ca37, ca38, ca39,
          h ++ mkVariable 0 1e-20
            :: (if allow_negative_ca_correction c then [] else [mkVariable 0 0])).
Proof.
  intros Hwf Hmode Hfixed.
  rewrite (interference_corrections_iterative _ _ _ _ _ _ _ _ _ Hmode Hfixed).
  pose proof (iterative_corrections_nominal h pr
                (allow_negative_ca_correction c) a39 a37 Hwf) as Hnom.
  destruct (iterative_corrections h pr (allow_negative_ca_correction c) a39 a37)
    as [[[[[[[k37 k38] k39] ca36] ca37] ca38] ca39] h2].
  destruct Hnom as (_ & _ & _ & _ & _ & _ & _ & ->).
  by exists k37, k38, k39, ca36, ca37, ca38, ca39.
Qed.

(** X19.  The five passes of [interference_corrections] sum the first five
    terms of a geometric series: with [q = ca3937 * k3739] not 1, the
    [k39] returned is the solution of
    [k39 = a39 - ca3937 * (a37 - k3739 * k39)] times [1 - q^5], and
    [k37 = k3739 * k39]. *)
Theorem interference_corrections_truncation
    a40 a39 a38 a37 a36 pr c fixed_k3739 h :
  let ca3937 := ratio_nominal h pr "ca3937" 0 in
  let k3739 := ratio_nominal h pr "k3739" 0 in
  let exact := exact_k39 ca3937 k3739 (nominal_value a37) (nominal_value a39) in
  ratios_wf h pr ->
  lower (k3739_mode c) = "normal"%string ->
  is_false fixed_k3739 ->
  ca3937 * k3739 <> 1 ->
  exists k37 k38 k39 ca36 ca37 ca38 ca39 h2,
    interference_corrections a40 a39 a38 a37 a36 (Some pr)
                             (Some (Configured c)) fixed_k3739 h
    = Ok (k37, k38, k39, ca36, ca37, ca38, ca39) h2
    /\ exact = nominal_value a39
               - ca3937 * (nominal_value a37 - k3739 * exact)
    /\ nominal_value k39 = exact * (1 - (ca3937 * k3739) ^ 5)
    /\ nominal_value k37 = k3739 * nominal_value k39.
Proof.
  intros ca3937 k3739 exact Hwf Hmode Hfixed Hc.
  destruct (interference_corrections_heap a40 a39 a38 a37 a36 pr c fixed_k3739
              h Hwf Hmode Hfixed)
    as (k37 & k38 & k39 & ca36 & ca37 & ca38 & ca39 & Erun & Eit).
  pose proof (iterative_corrections_nominal h pr
                (allow_negative_ca_correction c) a39 a37 Hwf) as Hnom.
  rewrite Eit in Hnom. cbv zeta in Hnom.
  destruct Hnom as (Hk37 & Hk39 & _).
  destruct (fixed_point_iteration_closed ca3937 k3739 (nominal_value a37)
              (nominal_value a39) 4 Hc) as [C39 C37].
  fold ca3937 k3739 in Hk37, Hk39.
  eexists k37, k38, k39, ca36, ca37, ca38, ca39, _.
  split; [exact Erun|]. split; [by apply exact_k39_solves|].
  split; [by rewrite Hk39, C39|].
  by rewrite Hk37, C37, Hk39, C39.
Qed.

Lemma interference_corrections_truncation_witness :
  exists k37 k38 k39 ca36 ca37 ca38 ca39 h2,
    interference_corrections (of_variable 100 3) (of_variable 3 4)
                             (of_variable 1 5) (of_variable 2 6)
                             (of_variable 0.1 7) (Some coupled_ratios)
                             (Some (Configured example_constants))
                             (PyBool false) coupled_heap
    = Ok (k37, k38, k39, ca36, ca37, ca38, ca39) h2
    /\ exact_k39 0.5 0.5 2 3 = 3 - 0.5 * (2 - 0.5 * exact_k39 0.5 0.5 2 3)
    /\ nominal_value k39 = exact_k39 0.5 0.5 2 3 * (1 - (0.5 * 0.5) ^ 5)
    /\ nominal_value k37 = 0.5 * nominal_value k39
    /\ 1 - (0.5 * 0.5) ^ 5 = 0.9990234375.
Proof.
  destruct coupled_ratios_nominal as (Hca & Hk & _).
  destruct (interference_corrections_truncation
              (of_variable 100 3) (of_variable 3 4) (of_variable 1 5)
              (of_variable 2 6) (of_variable 0.1 7)
              coupled_ratios example_constants (PyBool false) coupled_heap
              coupled_ratios_wf eq_refl is_false_False)
    as (k37 & k38 & k39 & ca36 & ca37 & ca38 & ca39 & h2 & E & H).
  { rewrite Hca, Hk. lra. }
  rewrite Hca, Hk in H. simpl nominal_value in H.
  exists k37, k38, k39, ca36, ca37, ca38, ca39, h2.
  split; [exact E|].
  destruct H as (H1 & H2 & H3).
  split; [exact H1|]. split; [exact H2|]. split; [exact H3|]. lra.
Defined.

(** ** A negative calcium correction *)

Lemma variance_zero_variable_product (h : heap) r l :
  h !! l = Some (mkVariable 0 0) ->
  variance h (of_variable 0 l) = 0
  /\ variance h (umul r (of_variable 0 l)) = 0.
Proof.
  intros Hl. split.
  - rewrite (variance_of_variable _ _ _ _ Hl). simpl. ring.
  - apply variance_zero. intros l' v Hv. simpl.
    destruct (Nat.eqb_spec l' l) as [->|_].
    + rewrite Hl in Hv. injection Hv as <-. simpl. ring.
    + ring.
Qed.

Lemma py_max_zero_clamped l x :
  nominal_value (py_max (of_variable 0 l) x) = 0 ->
  py_max (of_variable 0 l) x = of_variable 0 l.
Proof.
  unfold py_max. simpl.
  destruct (Rgt_dec (nominal_value x) 0); [intros; lra | reflexivity].
Qed.

(** X20.  When negative calcium corrections are not allowed and the fifth
    pass gives a [ca37] that is not positive, [interference_corrections]
    returns for [ca37] a new quantity of value 0 and standard deviation 0,
    and [ca36] and [ca38], computed from it, are 0 with standard deviation
    0; [ca39] and [k39] keep the values computed from the [ca37] before
    the clamp. *)
Theorem interference_corrections_clamps_ca37
    a40 a39 a38 a37 a36 pr c fixed_k3739 h :
  let s := fixed_point_iteration
             (ratio_nominal h pr "ca3937" 0) (ratio_nominal h pr "k3739" 0)
             (nominal_value a37) (nominal_value a39) 5 in
  ratios_wf h pr ->
  lower (k3739_mode c) = "normal"%string ->
  is_false fixed_k3739 ->
  allow_negative_ca_correction c = false ->
  s_ca37 s <= 0 ->
  exists k37 k38 k39 ca36 ca37 ca38 ca39 h2,
    interference_corrections a40 a39 a38 a37 a36 (Some pr)
                             (Some (Configured c)) fixed_k3739 h
    = Ok (k37, k38, k39, ca36, ca37, ca38, ca39) h2
    /\ (nominal_value ca37 = 0 /\ std_dev ca37 h2 = Ok 0 h2)
    /\ (nominal_value ca36 = 0 /\ std_dev ca36 h2 = Ok 0 h2)
    /\ (nominal_value ca38 = 0 /\ std_dev ca38 h2 = Ok 0 h2)
    /\ nominal_value ca39 = ratio_nominal h pr "ca3937" 0 * s_ca37 s
    /\ nominal_value k39 = nominal_value a39 - nominal_value ca39.
Proof.
  intros s Hwf Hmode Hfixed Hallow Hneg.
  destruct (interference_corrections_heap a40 a39 a38 a37 a36 pr c fixed_k3739
              h Hwf Hmode Hfixed)
    as (k37 & k38 & k39 & ca36 & ca37 & ca38 & ca39 & Erun & Eit).
  pose proof (iterative_corrections_nominal h pr
                (allow_negative_ca_correction c) a39 a37 Hwf) as Hnom.
  rewrite Eit in Hnom. cbv zeta in Hnom. fold s in Hnom.
  destruct Hnom as (_ & Hk39 & Hca39 & Hca37 & _ & Hca36 & Hca38 & _).
  rewrite Hallow in *.
  assert (Hz : nominal_value ca37 = 0).
  { rewrite Hca37. unfold Rmax. destruct (Rle_dec 0 (s_ca37 s)); lra. }
  set (h1 := h ++ [mkVariable 0 1e-20]).
  set (h2 := h ++ [mkVariable 0 1e-20; mkVariable 0 0]).
  assert (Hshape :
    ca37 = of_variable 0 (length h1)
    /\ ca36 = umul (ratio h2 pr "ca3637" 0) (of_variable 0 (length h1))
    /\ ca38 = umul (ratio h2 pr "ca3837" 0) (of_variable 0 (length h1))).
  { unfold iterative_corrections in Eit.
    cbv beta iota zeta delta [pass] in Eit. fold h1 in Eit.
    injection Eit as _ _ _ E36 E37 E38 _ _.
    assert (E : ca37 = of_variable 0 (length h1)).
    { rewrite <- E37. apply py_max_zero_clamped. by rewrite E37. }
    split; [exact E|].
    rewrite <- E36, <- E38, E37, E. unfold h1, h2.
    rewrite <- !app_assoc. by split. }
  destruct Hshape as (-> & -> & ->).
  assert (Hl : h2 !! length h1 = Some (mkVariable 0 0)).
  { unfold h2, h1. rewrite length_app. simpl. rewrite Nat.add_1_r.
    apply lookup_second_new. }
  exists k37, k38, k39, (umul (ratio h2 pr "ca3637" 0) (of_variable 0 (length h1))),
    (of_variable 0 (length h1)),
    (umul (ratio h2 pr "ca3837" 0) (of_variable 0 (length h1))), ca39, h2.
  split; [exact Erun|].
  destruct (variance_zero_variable_product h2 (ratio h2 pr "ca3637" 0) _ Hl)
    as [V37 V36].
  destruct (variance_zero_variable_product h2 (ratio h2 pr "ca3837" 0) _ Hl)
    as [_ V38].
  unfold std_dev. rewrite V37, V36, V38, sqrt_0.
  split; [by split|]. split; [split; [simpl; ring | reflexivity]|].
  split; [split; [simpl; ring | reflexivity]|].
  split; [exact Hca39|]. rewrite Hk39, Hca39. reflexivity.
Qed.

Lemma interference_corrections_clamps_ca37_witness :
  exists k37 k38 k39 ca36 ca37 ca38 ca39 h2,
    interference_corrections (uconst 100) (uconst 10) (uconst 1) (uconst (-2))
                             (uconst 0.1) (Some ∅)
                             (Some (Configured example_constants))
                             (PyBool false) []
    = Ok (k37, k38, k39, ca36, ca37, ca38, ca39) h2
    /\ (nominal_value ca37 = 0 /\ std_dev ca37 h2 = Ok 0 h2)
    /\ (nominal_value ca36 = 0 /\ std_dev ca36 h2 = Ok 0 h2)
    /\ (nominal_value ca38 = 0 /\ std_dev ca38 h2 = Ok 0 h2)
    /\ nominal_value ca39
       = ratio_nominal [] ∅ "ca3937" 0
         * s_ca37 (fixed_point_iteration
                     (ratio_nominal [] ∅ "ca3937" 0)
                     (ratio_nominal [] ∅ "k3739" 0)
                     (nominal_value (uconst (-2))) (nominal_value (uconst 10)) 5)
    /\ nominal_value k39 = nominal_value (uconst 10) - nominal_value ca39.
Proof.
  apply (interference_corrections_clamps_ca37
           (uconst 100) (uconst 10) (uconst 1) (uconst (-2)) (uconst 0.1)
           ∅ example_constants (PyBool false) []).
  - apply ratios_wf_empty.
  - reflexivity.
  - apply is_false_False.
  - reflexivity.
  - unfold ratio_nominal. rewrite !lookup_empty. simpl. lra.
Defined.

(** ** The five passes of calculate_atmospheric *)

Lemma atm_iter_nominal a38 a36 k38 ca38 ca36 m r x n :
  nominal_value x = 0 ->
  nominal_value m * r <> 1 ->
  nominal_value
    (Nat.iter n (fun x => (atm_pass a38 a36 k38 ca38 ca36 m r x).2) x)
  = exact_atm36 (nominal_value m) r (nominal_value a38) (nominal_value a36)
                (nominal_value k38) (nominal_value ca38) (nominal_value ca36)
    * (1 - (nominal_value m * r) ^ n).
Proof.
  intros Hx Hq. unfold exact_atm36.
  assert (Hd : 1 - nominal_value m * r <> 0) by lra.
  induction n as [|n IH].
  - simpl. rewrite Hx. field. exact Hd.
  - rewrite Nat.iter_succ.
    set (y := Nat.iter n _ x) in *.
    change (nominal_value (atm_pass a38 a36 k38 ca38 ca36 m r y).2)
      with (nominal_value a36 - nominal_value ca36
            - (nominal_value a38 - r * nominal_value y
               - nominal_value k38 - nominal_value ca38) * nominal_value m).
    rewrite IH. rewrite <- tech_pow_Rmult. field. exact Hd.
Qed.

(** X21.  The five passes of [calculate_atmospheric] sum the first five
    terms of a geometric series: with
    [m = cl3638 * lambda_Cl36 * decay_time] and [q = m * atm3836] not 1, the
    [atm36] returned is the solution of
    [atm36 = a36 - ca36 - m * (a38 - atm3836 * atm36 - k38 - ca38)] times
    [1 - q^5]; [atm36 + cl36 = a36 - ca36] holds as it stands, and without
    chlorine ([m = 0]) [atm36 = a36 - ca36] and [cl36 = 0]. *)
Theorem calculate_atmospheric_truncation
    a38 a36 k38 ca38 ca36 decay_time pr c h :
  let m := chlorine_factor (ratio_nominal h pr "cl3638" 0)
                           (nominal_value (lambda_Cl36 c)) decay_time in
  let r := nominal_value (atm3836 c) in
  let exact := exact_atm36 m r (nominal_value a38) (nominal_value a36)
                           (nominal_value k38) (nominal_value ca38)
                           (nominal_value ca36) in
  m * r <> 1 ->
  exists atm36 cl36,
    calculate_atmospheric a38 a36 k38 ca38 ca36 decay_time (Some pr)
                          (Some (Configured c)) h
    = Ok (atm36, cl36) (h ++ [mkVariable 0 1e-20])
    /\ exact = nominal_value a36 - nominal_value ca36
               - m * (nominal_value a38 - r * exact
                      - nominal_value k38 - nominal_value ca38)
    /\ nominal_value atm36 = exact * (1 - (m * r) ^ 5)
    /\ nominal_value atm36 + nominal_value cl36
       = nominal_value a36 - nominal_value ca36
    /\ (m = 0 -> nominal_value atm36 = nominal_value a36 - nominal_value ca36
                 /\ nominal_value cl36 = 0).
Proof.
  intros m r exact Hq.
  rewrite calculate_atmospheric_configured.
  unfold atmospheric. cbv zeta.
  set (um := umul (umul (ratio h pr "cl3638" 0)
                        (uconst (nominal_value (lambda_Cl36 c))))
                  (uconst decay_time)).
  assert (Hm : nominal_value um = m).
  { unfold um, m, chlorine_factor. simpl. by rewrite nominal_value_ratio. }
  pose proof (atm_iter_nominal a38 a36 k38 ca38 ca36 um r
                (of_variable 0 (length h)) 4 eq_refl) as H4.
  rewrite Hm in H4. specialize (H4 Hq). fold r.
  set (x4 := Nat.iter 4 (fun x => (atm_pass a38 a36 k38 ca38 ca36 um r x).2)
                      (of_variable 0 (length h))) in *.
  unfold atm_pass. cbv beta iota zeta.
  eexists _, _. split; [reflexivity|].
  assert (Hd : 1 - m * r <> 0) by lra.
  assert (Hatm : nominal_value
                   (usub (usub a36 ca36)
                      (umul (usub (usub (usub a38 (umul (uconst r) x4)) k38) ca38)
                            um))
                 = exact * (1 - (m * r) ^ 5)).
  { change (nominal_value (usub (usub a36 ca36)
              (umul (usub (usub (usub a38 (umul (uconst r) x4)) k38) ca38) um)))
      with (nominal_value a36 - nominal_value ca36
            - (nominal_value a38 - r * nominal_value x4
               - nominal_value k38 - nominal_value ca38) * nominal_value um).
    rewrite H4, Hm. fold exact. unfold exact, exact_atm36.
    replace ((m * r) ^ 5) with (m * r * (m * r) ^ 4) by (simpl; ring).
    field. exact Hd. }
  split; [unfold exact, exact_atm36; field; exact Hd|].
  split; [exact Hatm|].
  split; [simpl; ring|].
  intros Hm0. split.
  - rewrite Hatm. unfold exact, exact_atm36. rewrite Hm0. simpl. field.
  - change (nominal_value (umul ?a um))
      with (nominal_value a * nominal_value um).
    rewrite Hm, Hm0. ring.
Qed.

Lemma calculate_atmospheric_truncation_witness :
  let m := chlorine_factor 320 6.308e-9 10000 in
  let r := 0.1869 in
  let exact := exact_atm36 m r 1 0.1 0.2 0.3 0.01 in
  exists atm36 cl36,
    calculate_atmospheric (of_variable 1 5) (of_variable 0.1 7) (uconst 0.2)
                          (uconst 0.3) (uconst 0.01) 10000
                          (Some coupled_ratios)
                          (Some (Configured example_constants)) coupled_heap
    = Ok (atm36, cl36) (coupled_heap ++ [mkVariable 0 1e-20])
    /\ exact = 0.1 - 0.01 - m * (1 - r * exact - 0.2 - 0.3)
    /\ nominal_value atm36 = exact * (1 - (m * r) ^ 5)
    /\ nominal_value atm36 + nominal_value cl36 = 0.1 - 0.01
    /\ (m = 0 -> nominal_value atm36 = 0.1 - 0.01 /\ nominal_value cl36 = 0)
    /\ m * r <> 0.
Proof.
  cbv zeta.
  destruct coupled_ratios_nominal as (_ & _ & Hcl).
  destruct (calculate_atmospheric_truncation
              (of_variable 1 5) (of_variable 0.1 7) (uconst 0.2) (uconst 0.3)
              (uconst 0.01) 10000 coupled_ratios example_constants coupled_heap)
    as (atm36 & cl36 & E & H).
  { rewrite Hcl. unfold chlorine_factor. simpl. lra. }
  rewrite Hcl in H. simpl nominal_value in H.
  exists atm36, cl36. split; [exact E|].
  destruct H as (H1 & H2 & H3 & H4).
  split; [exact H1|]. split; [exact H2|]. split; [exact H3|].
  split; [exact H4|]. unfold chlorine_factor. lra.
Defined.

(** ** calculate_F and calculate_F_ratio *)

Lemma copied_ratios_wf (h : heap) (interferences : ratios) :
  ratios_wf (copy_heap (map_to_list interferences) h)
            (copied_ratios h interferences).
Proof. intros key l Hl. by eapply copied_ratios_bound. Qed.

Lemma copied_ratio_missing (h : heap) (interferences : ratios) key :
  interferences !! key = None -> copied_ratios h interferences !! key = None.
Proof.
  intros Hk. apply not_elem_of_list_to_map_1.
  rewrite imap_copy_keys. intros Hin.
  apply list_elem_of_fmap in Hin as ([k l] & -> & Hin).
  apply elem_of_map_to_list in Hin. simpl in Hk. congruence.
Qed.

(** A copy has the nominal value of the original. *)
Lemma copied_ratio_nominal (h t : heap) (interferences : ratios) key d :
  ratios_wf h interferences ->
  ratio_nominal (copy_heap (map_to_list interferences) h ++ t)
                (copied_ratios h interferences) key d
  = ratio_nominal h interferences key d.
Proof.
  intros Hwf. rewrite ratio_nominal_app by apply copied_ratios_wf.
  unfold ratio_nominal at 2.
  destruct (interferences !! key) as [l|] eqn:Hl.
  - destruct (copied_ratio_lookup interferences h key l Hwf Hl)
      as (l' & Hl' & Hc).
    unfold ratio_nominal. fold (copied_ratios h interferences) in Hl'.
    rewrite Hl'. by rewrite (list_lookup_total_correct _ _ _ Hc).
  - unfold ratio_nominal. by rewrite copied_ratio_missing.
Qed.

(** What the iterative mode gives when no 37Ar comes from potassium. *)
Lemma fixed_point_iteration_no_k3739 ca a37 a39 n :
  s_k37 (fixed_point_iteration ca 0 a37 a39 n) = 0.
Proof. destruct n; simpl; ring. Qed.

(** X22.  [calculate_F_ratio], applied to the signals divided by the 39Ar
    signal, gives the nominal value of the F that [calculate_F] returns,
    when the dictionary holds 'ca3637', 'ca3937' and 'k4039', no 37Ar comes
    from potassium ('k3739' zero or missing), there is no chlorine
    correction ('cl3638' zero or missing), the atmospheric 40Ar/36Ar of
    the constants is the 295.5 that [calculate_F_ratio] has built in, and
    the calcium correction is not clamped. *)
Theorem calculate_F_agrees_with_calculate_F_ratio
    a40 a39 a38 a37 a36 decay_time (interferences : ratios) c fixed_k3739 h :
  ratios_wf h interferences ->
  Forall (fun key => is_Some (interferences !! key)) F_ratio_keys ->
  ratio_nominal h interferences "k3739" 0 = 0 ->
  ratio_nominal h interferences "cl3638" 0 = 0 ->
  lower (k3739_mode c) = "normal"%string ->
  is_false fixed_k3739 ->
  nominal_value (atm4036 c) = 295.5 ->
  allow_negative_ca_correction c = true \/ 0 <= nominal_value a37 ->
  nominal_value a39 <> 0 ->
  nominal_value a39
  - ratio_nominal h interferences "ca3937" 0 * nominal_value a37 <> 0 ->
  exists res hf v,
    calculate_F (a40, a39, a38, a37, a36) decay_time (Some interferences)
                (Some (Configured c)) fixed_k3739 h
    = Ok res hf
    /\ calculate_F_ratio (PyFloat (nominal_value a40 / nominal_value a39))
                         (PyFloat (nominal_value a37 / nominal_value a39))
                         (PyFloat (nominal_value a36 / nominal_value a39))
                         interferences h
       = Ok v h
    /\ number_of v = Some (nominal_value (rf res)).
Proof.
  intros Hwf Hkeys Hk3739 Hcl Hmode Hfixed Hatm Hca Ha39 Hk39.
  set (pr := copied_ratios h interferences).
  set (h1 := copy_heap (map_to_list interferences) h).
  assert (Hwf1 : ratios_wf h1 pr) by apply copied_ratios_wf.
  assert (Hnom : forall key d t, ratio_nominal (h1 ++ t) pr key d
                                 = ratio_nominal h interferences key d).
  { intros key d t. by apply copied_ratio_nominal. }
  assert (Hnom0 : forall key d, ratio_nominal h1 pr key d
                                = ratio_nominal h interferences key d).
  { intros key d. rewrite <- (app_nil_r h1). apply Hnom. }
  destruct (interference_corrections_heap a40 a39 a38 a37 a36 pr c fixed_k3739
              h1 Hwf1 Hmode Hfixed)
    as (k37 & k38 & k39 & ca36 & ca37 & ca38 & ca39 & Erun & Eit).
  pose proof (iterative_corrections_nominal h1 pr
                (allow_negative_ca_correction c) a39 a37 Hwf1) as Hvals.
  rewrite Eit in Hvals. cbv zeta in Hvals.
  rewrite !Hnom0, Hk3739 in Hvals.
  destruct Hvals as (_ & Vk39 & _ & Vca37 & _ & Vca36 & _).
  change (s_k39 (fixed_point_iteration ?a ?b ?c ?d 5))
    with (d - a * (c - s_k37 (fixed_point_iteration a b c d 4))) in Vk39.
  change (s_ca37 (fixed_point_iteration ?a ?b ?c ?d 5))
    with (c - s_k37 (fixed_point_iteration a b c d 4)) in Vca37.
  rewrite fixed_point_iteration_no_k3739 in Vk39, Vca37.
  assert (Vca37' : nominal_value ca37 = nominal_value a37).
  { rewrite Vca37. destruct Hca as [-> | Hpos]; [ring|].
    destruct (allow_negative_ca_correction c); [ring|].
    unfold Rmax. destruct (Rle_dec 0 (nominal_value a37 - 0)); lra. }
  assert (Vk39' : nominal_value k39
                  = nominal_value a39
                    - ratio_nominal h interferences "ca3937" 0
                      * nominal_value a37) by (rewrite Vk39; ring).
  set (h2 := h1 ++ mkVariable 0 1e-20
                :: (if allow_negative_ca_correction c then []
                    else [mkVariable 0 0])) in *.
  destruct (calculate_F_value a40 a39 a38 a37 a36 decay_time (Some interferences)
              c fixed_k3739 h pr h1 k37 k38 k39 ca36 ca37 ca38 ca39 h2
              (copy_ratios_ok interferences h) Erun)
    as (res & hf & Eres & HF); [by rewrite Vk39'|].
  destruct (calculate_F_ratio_value
              (PyFloat (nominal_value a40 / nominal_value a39))
              (PyFloat (nominal_value a37 / nominal_value a39))
              (PyFloat (nominal_value a36 / nominal_value a39))
              _ _ _ interferences h eq_refl eq_refl eq_refl Hkeys)
    as (v & Ev & Hv).
  { intros H. apply Hk39.
    replace (nominal_value a39
             - ratio_nominal h interferences "ca3937" 0 * nominal_value a37)
      with ((1 - ratio_nominal h interferences "ca3937" 0
                 * (nominal_value a37 / nominal_value a39))
            * nominal_value a39) by (field; exact Ha39).
    rewrite H. ring. }
  exists res, hf, v. split; [exact Eres|]. split; [exact Ev|].
  rewrite Hv, HF. f_equal.
  rewrite atmospheric_no_chlorine.
  2:{ rewrite nominal_value_ratio. unfold h2. by rewrite Hnom. }
  rewrite !nominal_value_ratio, Vca36, Vca37', Vk39', Hatm.
  unfold h2. rewrite <- app_assoc, !Hnom.
  rewrite (ratio_nominal_present h interferences "k4039" 1 0).
  2:{ apply Forall_cons in Hkeys as [_ Hkeys].
      apply Forall_cons in Hkeys as [_ Hkeys].
      by apply Forall_cons in Hkeys as [? _]. }
  unfold F_ratio. field. split; assumption.
Qed.

Lemma three_ratios_wf : ratios_wf three_ratio_heap three_ratios.
Proof.
  intros key l Hl. apply elem_of_list_to_map_2 in Hl. simpl in Hl.
  repeat (apply elem_of_cons in Hl as [Hl|Hl];
          [injection Hl as _ ->; simpl; lia|]).
  by apply elem_of_nil in Hl.
Qed.

Lemma three_ratios_keys :
  Forall (fun key => is_Some (three_ratios !! key)) F_ratio_keys.
Proof.
  repeat (apply List.Forall_cons; [eexists; vm_compute; reflexivity|]).
  apply List.Forall_nil.
Qed.

Lemma three_ratios_nominal :
  ratio_nominal three_ratio_heap three_ratios "k3739" 0 = 0
  /\ ratio_nominal three_ratio_heap three_ratios "cl3638" 0 = 0
  /\ ratio_nominal three_ratio_heap three_ratios "ca3937" 0 = 0.0007.
Proof.
  unfold ratio_nominal.
  replace (three_ratios !! "k3739"%string) with (@None nat)
    by (vm_compute; reflexivity).
  replace (three_ratios !! "cl3638"%string) with (@None nat)
    by (vm_compute; reflexivity).
  replace (three_ratios !! "ca3937"%string) with (Some 1%nat)
    by (vm_compute; reflexivity).
  repeat split; reflexivity.
Qed.

Lemma calculate_F_agrees_with_calculate_F_ratio_witness :
  exists res hf v,
    calculate_F (uconst 100, uconst 10, uconst 1, uconst 2, uconst 0.1) 0
                (Some three_ratios) (Some (Configured example_constants))
                (PyBool false) three_ratio_heap
    = Ok res hf
    /\ calculate_F_ratio
         (PyFloat (nominal_value (uconst 100) / nominal_value (uconst 10)))
         (PyFloat (nominal_value (uconst 2) / nominal_value (uconst 10)))
         (PyFloat (nominal_value (uconst 0.1) / nominal_value (uconst 10)))
         three_ratios three_ratio_heap
       = Ok v three_ratio_heap
    /\ number_of v = Some (nominal_value (rf res)).
Proof.
  destruct three_ratios_nominal as (Hk & Hcl & Hca).
  apply (calculate_F_agrees_with_calculate_F_ratio
           (uconst 100) (uconst 10) (uconst 1) (uconst 2) (uconst 0.1) 0
           three_ratios example_constants (PyBool false) three_ratio_heap).
  - apply three_ratios_wf.
  - apply three_ratios_keys.
  - exact Hk.
  - exact Hcl.
  - reflexivity.
  - apply is_false_False.
  - reflexivity.
  - right. simpl. lra.
  - simpl. lra.
  - rewrite Hca. simpl. lra.
Defined.

(** ** The results of calculate_F *)

Lemma bind_inv {A B : Type} (m : M A) (k : A -> M B) h b h' :
  bind m k h = Ok b h' -> exists a h1, m h = Ok a h1 /\ k a h1 = Ok b h'.
Proof.
  unfold bind. destruct (m h) as [a h1|e h1]; [|done]. intros E. by exists a, h1.
Qed.

Lemma py_nominal_value_inv v h x h' :
  py_nominal_value v h = Ok x h' -> h' = h.
Proof. destruct v; simpl; intros E; try discriminate. by injection E. Qed.

Lemma calculate_F_inv
    a40 a39 a38 a37 a36 decay_time interferences o fixed_k3739 h res hf :
  calculate_F (a40, a39, a38, a37, a36) decay_time interferences o
              fixed_k3739 h
  = Ok res hf ->
  exists r, F_run_of a40 a39 a38 a37 a36 decay_time interferences o
                     fixed_k3739 h r res hf.
Proof.
  unfold calculate_F. intros E.
  apply bind_inv in E as (pr & h1 & Ecopy & E).
  apply bind_inv in E
    as ([[[[[[k37 k38] k39] ca36] ca37] ca38] ca39] & h2 & Ecorr & E).
  apply bind_inv in E as ([atm36 cl36] & h3 & Eatm & E).
  apply bind_inv in E as (v4036 & h4 & Eget & E).
  apply bind_inv in E as (x & h4' & Enom & E).
  pose proof (py_nominal_value_inv _ _ _ _ Enom) as ->.
  apply bind_inv in E as (k4039 & h4' & Ek & E).
  rewrite pr_get_ratio in Ek. injection Ek as <- <-.
  apply bind_inv in E as (f & h5 & Ef & E).
  apply bind_inv in E as (rf' & h5' & Erf & E).
  rewrite deepcopy_ok in Erf. injection Erf as <- <-.
  apply bind_inv in E as (rp & h6 & Erp & E).
  apply bind_inv in E as ([] & h7 & Eclear & E).
  rewrite clear_errors_ok in Eclear. injection Eclear as <-.
  injection E as <- <-.
  exists (mkF_run pr h1 k37 k38 k39 ca36 ca37 ca38 ca39 h2 atm36 cl36 h3
            v4036 h4
            (umul atm36 (uconst x)) (umul k39 (ratio h4 pr "k4039" 1))
            (usub (usub a40 (umul atm36 (uconst x)))
                  (umul k39 (ratio h4 pr "k4039" 1)))
            f h5 rp h6).
  unfold F_run_of. simpl.
  split; [exact Ecopy|]. split; [exact Ecorr|]. split; [exact Eatm|].
  split; [exact Eget|]. split; [by exists x|].
  split; [reflexivity|]. split; [reflexivity|]. split; [exact Ef|].
  split; [exact Erp|]. split; reflexivity.
Qed.

(** A run that returns, for the examples. *)
Lemma calculate_F_example_run :
  exists res hf,
    calculate_F (uconst 100, uconst 10, uconst 1, uconst 2, uconst 0.1) 0 None
                (Some (Configured example_constants)) (PyBool false) []
    = Ok res hf.
Proof.
  pose proof (interference_corrections_iterative
                (uconst 100) (uconst 10) (uconst 1) (uconst 2) (uconst 0.1)
                ∅ example_constants (PyBool false) [] eq_refl is_false_False)
    as Hcorr.
  unfold iterative_corrections in Hcorr.
  cbv beta iota zeta delta [pass] in Hcorr.
  edestruct (calculate_F_value (uconst 100) (uconst 10) (uconst 1) (uconst 2)
               (uconst 0.1) 0 None example_constants (PyBool false) []
               ∅ [] _ _ _ _ _ _ _ _ (copy_ratios_empty []) Hcorr)
    as (res & hf & E & _).
  - rewrite !ratio_empty. simpl. lra.
  - by exists res, hf.
Qed.

(** X23.  Whenever [calculate_F] returns, the two F-ratios it returns have
    the same nominal value; the entries 'k39' of [computed] and 'Ar39' of
    [interference_corrected] are the same quantity, and F is 1 when the
    nominal value of that quantity is zero and 'rad40' divided by it
    otherwise. *)
Theorem calculate_F_same_nominal_value
    a40 a39 a38 a37 a36 decay_time interferences o fixed_k3739 h res hf :
  calculate_F (a40, a39, a38, a37, a36) decay_time interferences o
              fixed_k3739 h
  = Ok res hf ->
  nominal_value (rf res) = nominal_value (f_wo_irrad res)
  /\ (exists k39, computed res !! "k39"%string = Some k39
        /\ interference_corrected res !! "Ar39"%string = Some k39
        /\ (nominal_value k39 = 0 -> nominal_value (rf res) = 1)
        /\ (nominal_value k39 <> 0 ->
            exists rad40, computed res !! "rad40"%string = Some rad40
              /\ nominal_value (rf res)
                 = nominal_value rad40 / nominal_value k39)).
Proof.
  intros E. apply calculate_F_inv in E
    as (r & _ & _ & _ & _ & _ & _ & _ & Ef & _ & _ & ->).
  simpl. split; [reflexivity|].
  exists (run_k39 r). split; [reflexivity|]. split; [reflexivity|].
  unfold try_except, udiv in Ef.
  destruct (decide (nominal_value (run_k39 r) = 0)) as [Hz|Hnz].
  - split; [|done]. intros _. simpl in Ef.
    rewrite ufloat_ok in Ef by lra. by injection Ef as <- _.
  - split; [done|]. intros _. exists (run_rad40 r). split; [reflexivity|].
    by injection Ef as <- _.
Qed.

Lemma calculate_F_same_nominal_value_witness :
  exists res hf,
    calculate_F (uconst 100, uconst 10, uconst 1, uconst 2, uconst 0.1) 0 None
                (Some (Configured example_constants)) (PyBool false) []
    = Ok res hf
    /\ nominal_value (rf res) = nominal_value (f_wo_irrad res)
    /\ (exists k39, computed res !! "k39"%string = Some k39
          /\ interference_corrected res !! "Ar39"%string = Some k39
          /\ (nominal_value k39 = 0 -> nominal_value (rf res) = 1)
          /\ (nominal_value k39 <> 0 ->
              exists rad40, computed res !! "rad40"%string = Some rad40
                /\ nominal_value (rf res)
                   = nominal_value rad40 / nominal_value k39)).
Proof.
  destruct calculate_F_example_run as (res & hf & E).
  exists res, hf. split; [exact E|].
  exact (calculate_F_same_nominal_value _ _ _ _ _ _ _ _ _ _ _ _ E).
Defined.

(** X24.  Whenever [calculate_F] returns, the measured 40Ar is accounted
    for: 'rad40' + 'atm40' + 'k40' is the nominal value of the 40Ar signal,
    the entry 'Ar40' of [interference_corrected] is 'rad40' + 'atm40', and
    the entries 'Ar38' and 'Ar37' are the measured signals, uncorrected. *)
Theorem calculate_F_40Ar_balance
    a40 a39 a38 a37 a36 decay_time interferences o fixed_k3739 h res hf :
  calculate_F (a40, a39, a38, a37, a36) decay_time interferences o
              fixed_k3739 h
  = Ok res hf ->
  exists rad40 atm40 k40 ar40,
    computed res !! "rad40"%string = Some rad40
    /\ computed res !! "atm40"%string = Some atm40
    /\ non_ar_isotopes res !! "k40"%string = Some k40
    /\ interference_corrected res !! "Ar40"%string = Some ar40
    /\ nominal_value rad40 + nominal_value atm40 + nominal_value k40
       = nominal_value a40
    /\ nominal_value ar40 = nominal_value rad40 + nominal_value atm40
    /\ interference_corrected res !! "Ar38"%string = Some a38
    /\ interference_corrected res !! "Ar37"%string = Some a37.
Proof.
  intros E. apply calculate_F_inv in E
    as (r & _ & _ & _ & _ & _ & _ & Hrad & _ & _ & _ & ->).
  simpl. exists (run_rad40 r), (run_atm40 r), (run_k40 r),
    (usub a40 (run_k40 r)).
  split; [reflexivity|]. split; [reflexivity|]. split; [reflexivity|].
  split; [reflexivity|]. rewrite Hrad. simpl.
  split; [ring|]. split; [ring|]. split; reflexivity.
Qed.

Lemma calculate_F_40Ar_balance_witness :
  exists res hf,
    calculate_F (uconst 100, uconst 10, uconst 1, uconst 2, uconst 0.1) 0 None
                (Some (Configured example_constants)) (PyBool false) []
    = Ok res hf
    /\ exists rad40 atm40 k40 ar40,
         computed res !! "rad40"%string = Some rad40
         /\ computed res !! "atm40"%string = Some atm40
         /\ non_ar_isotopes res !! "k40"%string = Some k40
         /\ interference_corrected res !! "Ar40"%string = Some ar40
         /\ nominal_value rad40 + nominal_value atm40 + nominal_value k40
            = nominal_value (uconst 100)
         /\ nominal_value ar40 = nominal_value rad40 + nominal_value atm40
         /\ interference_corrected res !! "Ar38"%string = Some (uconst 1)
         /\ interference_corrected res !! "Ar37"%string = Some (uconst 2).
Proof.
  destruct calculate_F_example_run as (res & hf & E).
  exists res, hf. split; [exact E|].
  exact (calculate_F_40Ar_balance _ _ _ _ _ _ _ _ _ _ _ _ E).
Defined.

(** X25.  Whenever [calculate_F] returns, 'rad40_percent' is
    [rad40 / a40 * 100], and the quantity of value 0 and standard deviation
    0 when the nominal value of the 40Ar signal is zero. *)
Theorem calculate_F_rad40_percent
    a40 a39 a38 a37 a36 decay_time interferences o fixed_k3739 h res hf :
  calculate_F (a40, a39, a38, a37, a36) decay_time interferences o
              fixed_k3739 h
  = Ok res hf ->
  exists rp rad40,
    computed res !! "rad40_percent"%string = Some rp
    /\ computed res !! "rad40"%string = Some rad40
    /\ (nominal_value a40 = 0 ->
        nominal_value rp = 0 /\ std_dev rp hf = Ok 0 hf)
    /\ (nominal_value a40 <> 0 ->
        nominal_value rp = nominal_value rad40 / nominal_value a40 * 100).
Proof.
  intros E. apply calculate_F_inv in E
    as (r & _ & _ & _ & _ & _ & _ & _ & _ & Erp & -> & ->).
  simpl. exists (run_rp r), (run_rad40 r).
  split; [reflexivity|]. split; [reflexivity|].
  unfold try_except, bind, udiv in Erp.
  destruct (decide (nominal_value a40 = 0)) as [Hz|Hnz].
  - split; [|done]. intros _. simpl in Erp.
    rewrite ufloat_ok in Erp by lra. injection Erp as <- <-.
    split; [reflexivity|]. unfold std_dev.
    rewrite variance_cleared_zero; [by rewrite sqrt_0|].
    intros l v Hv Hd. simpl in Hd.
    destruct (Nat.eqb_spec l (length (run_h5 r ++ run_h5 r))) as [->|];
      [|done].
    rewrite list_lookup_middle in Hv by reflexivity. by injection Hv as <-.
  - split; [done|]. intros _. by injection Erp as <- _.
Qed.

Lemma calculate_F_rad40_percent_witness :
  exists res hf,
    calculate_F (uconst 100, uconst 10, uconst 1, uconst 2, uconst 0.1) 0 None
                (Some (Configured example_constants)) (PyBool false) []
    = Ok res hf
    /\ exists rp rad40,
         computed res !! "rad40_percent"%string = Some rp
         /\ computed res !! "rad40"%string = Some rad40
         /\ (nominal_value (uconst 100) = 0 ->
             nominal_value rp = 0 /\ std_dev rp hf = Ok 0 hf)
         /\ (nominal_value (uconst 100) <> 0 ->
             nominal_value rp
             = nominal_value rad40 / nominal_value (uconst 100) * 100).
Proof.
  destruct calculate_F_example_run as (res & hf & E).
  exists res, hf. split; [exact E|].
  exact (calculate_F_rad40_percent _ _ _ _ _ _ _ _ _ _ _ _ E).
Defined.

(** ** The variables a result depends on *)

Lemma supported_mono n n' x : (n <= n')%nat -> supported n x -> supported n' x.
Proof. intros Hn Hx l Hl. apply Hx. lia. Qed.

Lemma value_supported_mono n n' v :
  (n <= n')%nat -> value_supported n v -> value_supported n' v.
Proof. intros Hn Hv u E. eapply supported_mono; [exact Hn | by apply Hv]. Qed.

Lemma ratios_below_mono n n' pr :
  (n <= n')%nat -> ratios_below n pr -> ratios_below n' pr.
Proof. intros Hn Hpr key l Hl. specialize (Hpr key l Hl). lia. Qed.

Lemma supported_uconst n x : supported n (uconst x).
Proof. intros l _. reflexivity. Qed.

Lemma supported_of_variable n x l : (l < n)%nat -> supported n (of_variable x l).
Proof.
  intros Hl l' Hl'. simpl. destruct (Nat.eqb_spec l' l); [lia | reflexivity].
Qed.

Lemma supported_ratio h pr key d n :
  ratios_below n pr -> supported n (ratio h pr key d).
Proof.
  intros Hpr. unfold ratio. destruct (pr !! key) as [l|] eqn:E.
  - apply supported_of_variable. by eapply Hpr.
  - apply supported_uconst.
Qed.

Lemma supported_uadd n x y :
  supported n x -> supported n y -> supported n (uadd x y).
Proof. intros Hx Hy l Hl. simpl. rewrite Hx, Hy by done. ring. Qed.

Lemma supported_usub n x y :
  supported n x -> supported n y -> supported n (usub x y).
Proof. intros Hx Hy l Hl. simpl. rewrite Hx, Hy by done. ring. Qed.

Lemma supported_umul n x y :
  supported n x -> supported n y -> supported n (umul x y).
Proof. intros Hx Hy l Hl. simpl. rewrite Hx, Hy by done. ring. Qed.

Lemma supported_py_max n x y :
  supported n x -> supported n y -> supported n (py_max x y).
Proof. intros Hx Hy. unfold py_max. by destruct (Rgt_dec _ _). Qed.

Lemma supported_udiv n x y q h h' :
  supported n x -> supported n y -> udiv x y h = Ok q h' ->
  h' = h /\ supported n q.
Proof.
  intros Hx Hy E. unfold udiv in E.
  destruct (decide (nominal_value y = 0)) as [|Hnz]; [done|].
  injection E as <- <-. split; [reflexivity|].
  intros l Hl. simpl. rewrite Hx, Hy by done. field. exact Hnz.
Qed.

#[local] Hint Resolve supported_uconst supported_ratio supported_uadd
  supported_usub supported_umul supported_py_max : py.

(** Lifting what is known at [n] to a longer heap. *)
Ltac lift Hn :=
  repeat match goal with
    | H : supported ?n _ |- _ =>
        match type of Hn with
        | (n <= _)%nat => apply (supported_mono _ _ _ Hn) in H
        end
    | H : value_supported ?n _ |- _ =>
        match type of Hn with
        | (n <= _)%nat => apply (value_supported_mono _ _ _ Hn) in H
        end
    | H : ratios_below ?n _ |- _ =>
        match type of Hn with
        | (n <= _)%nat => apply (ratios_below_mono _ _ _ Hn) in H
        end
    end;
  clear Hn.

Lemma post_ret {A : Type} n (a : A) (Q : nat -> A -> Prop) :
  (forall n', (n <= n')%nat -> Q n' a) -> post n (ret a) Q.
Proof. intros HQ h a' h' Hn E. injection E as <- <-. split; [lia | by apply HQ]. Qed.

Lemma post_bind {A B : Type} n (m : M A) (k : A -> M B) P Q :
  post n m P ->
  (forall a n', (n <= n')%nat -> P n' a -> post n' (k a) Q) ->
  post n (bind m k) Q.
Proof.
  intros Hm Hk h b h' Hn E.
  apply bind_inv in E as (a & h1 & Em & Ek).
  destruct (Hm h a h1 Hn Em) as [Hlen HP].
  destruct (Hk a (length h1) ltac:(lia) HP h1 b h' (le_n _) Ek) as [Hlen' HQ].
  split; [lia | exact HQ].
Qed.

Lemma post_appends {A : Type} n (m : M A) :
  appends m -> post n m (fun _ _ => True).
Proof.
  intros Hm h a h' Hn E. destruct (Hm h) as [t Ht]. rewrite E in Ht.
  simpl in Ht. subst h'. rewrite length_app. split; [lia | exact I].
Qed.

Lemma post_ufloat n x s : post n (ufloat x s) supported.
Proof.
  intros h a h' Hn E. unfold ufloat in E.
  destruct (Rlt_dec s 0); [done|]. injection E as <- <-.
  rewrite length_app. simpl. split; [lia|].
  apply supported_of_variable. lia.
Qed.

Lemma post_pr_get n pr key d :
  ratios_below n pr -> post n (pr_get pr key d) supported.
Proof.
  intros Hpr h a h' Hn E. rewrite pr_get_ratio in E. injection E as <- <-.
  split; [lia|]. apply supported_ratio. by eapply ratios_below_mono.
Qed.

Lemma post_udiv n x y :
  supported n x -> supported n y -> post n (udiv x y) supported.
Proof.
  intros Hx Hy h q h' Hn E.
  destruct (supported_udiv n x y q h h' Hx Hy E) as [-> Hq].
  split; [lia|]. by eapply supported_mono.
Qed.

Lemma post_as_number n v :
  value_supported n v -> post n (as_number v) supported.
Proof.
  intros Hv h x h' Hn E.
  destruct v; simpl in E; try discriminate; injection E as <- <-;
    (split; [lia|]); try apply supported_uconst.
  eapply supported_mono; [exact Hn | by apply Hv].
Qed.

Lemma post_getattr_fixed_k3739 n o :
  post n (getattr o "fixed_k3739") value_supported.
Proof.
  intros h v h' Hn E. destruct o as [|c]; [discriminate|].
  injection E as <- <-. split; [lia|]. intros u Hu. discriminate.
Qed.

Lemma post_bound {A : Type} n (x : option A) (Q : nat -> A -> Prop) :
  (forall a n', x = Some a -> (n <= n')%nat -> Q n' a) -> post n (bound x) Q.
Proof.
  intros HQ h a h' Hn E. destruct x as [a'|]; [|done].
  injection E as <- <-. split; [lia | by apply HQ].
Qed.

Lemma post_for_range {S : Type} n k (body : S -> M S) s (I : nat -> S -> Prop) :
  (forall s n n', (n <= n')%nat -> I n s -> I n' s) ->
  (forall s n', (n <= n')%nat -> I n' s -> post n' (body s) I) ->
  I n s ->
  post n (for_range k body s) I.
Proof.
  intros Hmono. revert n s. induction k as [|k IH]; intros n s Hbody Hs.
  - apply post_ret. intros n' Hn'. by eapply Hmono.
  - rewrite for_range_S. eapply post_bind; [by apply Hbody|].
    intros s' n' Hn' Hs'. apply IH; [|exact Hs'].
    intros s'' n'' Hn'' HI. apply Hbody; [lia | exact HI].
Qed.

Lemma supported_locals_mono st n n' :
  (n <= n')%nat -> supported_locals n st -> supported_locals n' st.
Proof.
  intros Hn [H2 H1]. split; [by eapply supported_mono|].
  destruct st.1 as [[[ca37 ca39] k39]|]; [|done].
  destruct H1 as (Ha & Hb & Hc). repeat split; by eapply supported_mono.
Qed.

Lemma supported_atm_locals_mono st n n' :
  (n <= n')%nat -> supported_atm_locals n st -> supported_atm_locals n' st.
Proof.
  intros Hn [H2 H1]. split; [by eapply supported_mono|].
  destruct st.1 as [cl36|]; [|done]. by eapply supported_mono.
Qed.

Lemma post_iteration n a37 a39 pr st :
  supported n a37 -> supported n a39 -> ratios_below n pr ->
  supported_locals n st ->
  post n (iteration a37 a39 pr st) supported_locals.
Proof.
  intros H37 H39 Hpr [Hk37 _]. unfold iteration.
  eapply post_bind; [by apply post_pr_get|]. intros r1 n1 Hn1 Hr1. lift Hn1.
  eapply post_bind; [by apply post_pr_get|]. intros r2 n2 Hn2 Hr2. lift Hn2.
  apply post_ret. intros n3 Hn3. lift Hn3.
  split; simpl; auto 10 with py.
Qed.

Lemma post_apply_fixed_k3739 n a39 pr fixed_k3739 :
  supported n a39 -> ratios_below n pr -> value_supported n fixed_k3739 ->
  post n (apply_fixed_k3739 a39 pr fixed_k3739) supported4.
Proof.
  intros H39 Hpr Hfixed. unfold apply_fixed_k3739.
  eapply post_bind; [by apply post_pr_get|]. intros r1 n1 Hn1 Hr1. lift Hn1.
  eapply post_bind; [apply post_udiv; auto with py|].
  intros y n2 Hn2 Hy. lift Hn2.
  eapply post_bind; [by apply post_as_number|]. intros x n3 Hn3 Hx. lift Hn3.
  eapply post_bind; [apply post_udiv; auto with py|].
  intros ca37 n4 Hn4 Hca37. lift Hn4.
  eapply post_bind; [by apply post_pr_get|]. intros r2 n5 Hn5 Hr2. lift Hn5.
  apply post_ret. intros n6 Hn6. lift Hn6.
  simpl. auto 10 with py.
Qed.

Lemma post_interference_corrections n a40 a39 a38 a37 a36 pr o fixed_k3739 :
  supported n a39 -> supported n a37 -> ratios_below n pr ->
  value_supported n fixed_k3739 ->
  post n (interference_corrections a40 a39 a38 a37 a36 (Some pr) o fixed_k3739)
       supported7.
Proof.
  intros H39 H37 Hpr Hfixed. unfold interference_corrections. simpl default.
  eapply post_bind; [apply post_ufloat|]. intros k37 n1 Hn1 Hk37. lift Hn1.
  eapply post_bind; [apply post_appends, appends_getattr|].
  intros mode n2 Hn2 _. lift Hn2.
  eapply post_bind; [apply post_appends, appends_py_lower|].
  intros mode' n3 Hn3 _. lift Hn3.
  eapply post_bind.
  { apply post_appends.
    destruct (bool_decide (mode' = "normal"%string)); [|apply appends_ret].
    apply appends_bind; [apply appends_py_truth | intros ?; apply appends_ret]. }
  intros iterative n4 Hn4 _. lift Hn4.
  eapply post_bind with (P := supported4).
  { destruct iterative.
    - eapply post_bind.
      + apply (post_for_range _ _ _ _ supported_locals).
        * intros ? ? ?. apply supported_locals_mono.
        * intros st n5 Hn5 Hst. lift Hn5. by apply post_iteration.
        * by split.
      + intros st n5 Hn5 [Hst2 Hst1]. lift Hn5.
        eapply post_bind.
        * apply (post_bound _ _ (fun n '(a, b, c) =>
                   supported n a /\ supported n b /\ supported n c)).
          intros [[ca37 ca39] k39] n6 E Hn6. rewrite E in Hst1.
          destruct Hst1 as (Ha & Hb & Hc).
          repeat split; by eapply supported_mono.
        * intros [[ca37 ca39] k39] n6 Hn6 (Ha & Hb & Hc). lift Hn6.
          apply post_ret. intros n7 Hn7. lift Hn7. by repeat split.
    - eapply post_bind; [apply post_appends, appends_py_truth|].
      intros given n5 Hn5 _. lift Hn5.
      eapply post_bind.
      + destruct (negb given).
        * apply post_getattr_fixed_k3739.
        * apply post_ret. intros n6 Hn6. by eapply value_supported_mono.
      + intros x n6 Hn6 Hx. lift Hn6. by apply post_apply_fixed_k3739. }
  intros [[[ca37 ca39] k37'] k39] n5 Hn5 (Hca37 & Hca39 & Hk37' & Hk39).
  lift Hn5.
  eapply post_bind; [by apply post_pr_get|]. intros r1 n6 Hn6 Hr1. lift Hn6.
  eapply post_bind; [apply post_appends, appends_getattr|].
  intros allow n7 Hn7 _. lift Hn7.
  eapply post_bind; [apply post_appends, appends_py_truth|].
  intros allow' n8 Hn8 _. lift Hn8.
  eapply post_bind with (P := supported).
  { destruct (negb allow').
    - eapply post_bind; [apply post_ufloat|]. intros zero n9 Hn9 Hz. lift Hn9.
      apply post_ret. intros n10 Hn10. lift Hn10. auto with py.
    - apply post_ret. intros n9 Hn9. by eapply supported_mono. }
  intros ca37' n9 Hn9 Hca37'. lift Hn9.
  eapply post_bind; [by apply post_pr_get|]. intros r2 n10 Hn10 Hr2. lift Hn10.
  eapply post_bind; [by apply post_pr_get|]. intros r3 n11 Hn11 Hr3. lift Hn11.
  apply post_ret. intros n12 Hn12. lift Hn12.
  simpl. auto 10 with py.
Qed.

Lemma post_atm_iteration n a38 a36 k38 ca38 ca36 m o st :
  supported n a38 -> supported n a36 -> supported n k38 ->
  supported n ca38 -> supported n ca36 -> supported n m ->
  supported_atm_locals n st ->
  post n (atm_iteration a38 a36 k38 ca38 ca36 m o st) supported_atm_locals.
Proof.
  intros H38 H36 Hk38 Hca38 Hca36 Hm [Hatm _]. unfold atm_iteration.
  eapply post_bind; [apply post_appends, appends_getattr|].
  intros r n1 Hn1 _. lift Hn1.
  eapply post_bind; [apply post_appends, appends_py_nominal_value|].
  intros x n2 Hn2 _. lift Hn2.
  apply post_ret. intros n3 Hn3. lift Hn3.
  split; simpl; auto 10 with py.
Qed.

Lemma post_calculate_atmospheric n a38 a36 k38 ca38 ca36 decay_time pr o :
  supported n a38 -> supported n a36 -> supported n k38 ->
  supported n ca38 -> supported n ca36 -> ratios_below n pr ->
  post n (calculate_atmospheric a38 a36 k38 ca38 ca36 decay_time (Some pr) o)
       (fun n x => supported n x.1 /\ supported n x.2).
Proof.
  intros H38 H36 Hk38 Hca38 Hca36 Hpr. unfold calculate_atmospheric.
  simpl default.
  eapply post_bind; [by apply post_pr_get|]. intros r n1 Hn1 Hr. lift Hn1.
  eapply post_bind; [apply post_appends, appends_getattr|].
  intros l n2 Hn2 _. lift Hn2.
  eapply post_bind; [apply post_appends, appends_py_nominal_value|].
  intros x n3 Hn3 _. lift Hn3.
  eapply post_bind; [apply post_ufloat|]. intros atm36 n4 Hn4 Hatm. lift Hn4.
  eapply post_bind.
  { apply (post_for_range _ _ _ _ supported_atm_locals).
    - intros ? ? ?. apply supported_atm_locals_mono.
    - intros st n5 Hn5 Hst. lift Hn5. apply post_atm_iteration; auto with py.
    - by split. }
  intros st n5 Hn5 [Hst2 Hst1]. lift Hn5.
  eapply post_bind.
  { apply (post_bound _ _ supported). intros cl36 n6 E Hn6.
    rewrite E in Hst1. by eapply supported_mono. }
  intros cl36 n6 Hn6 Hcl. lift Hn6.
  apply post_ret. intros n7 Hn7. lift Hn7. by split.
Qed.

(** ** The error of F with and without the irradiation parameters *)

Lemma post_try_except {A : Type} n (m : M A) catches handler Q :
  appends m -> post n m Q -> post n handler Q ->
  post n (try_except m catches handler) Q.
Proof.
  intros Ha Hm Hh h a h' Hn E. unfold try_except in E.
  destruct (Ha h) as [t Ht].
  destruct (m h) as [a' h1|e h1] eqn:Em.
  - injection E as <- <-. by apply Hm.
  - simpl in Ht. subst h1. destruct (catches e); [|done].
    destruct (Hh (h ++ t) a h') as [Hlen HQ]; [rewrite length_app; lia | done |].
    rewrite length_app in Hlen. split; [lia | exact HQ].
Qed.

Lemma py_sum_imap_alter_le (f : nat -> UVariable -> R) g l (h : heap) :
  (forall v, f l (g v) <= f l v) ->
  py_sum (imap f (alter g l h)) <= py_sum (imap f h).
Proof.
  revert f l. induction h as [|a h IH]; intros f l Hf; [apply Rle_refl|].
  destruct l as [|l].
  - change (alter g 0%nat (a :: h)) with (g a :: h).
    rewrite !imap_cons, !py_sum_cons. pose proof (Hf a). lra.
  - change (alter g (S l) (a :: h)) with (a :: alter g l h).
    rewrite !imap_cons, !py_sum_cons. pose proof (IH (f ∘ S) l Hf). lra.
Qed.

(** Clearing errors can only lower a variance. *)
Lemma variance_clear_heap_le pps h x :
  variance (clear_heap pps h) x <= variance h x.
Proof.
  revert h. induction pps as [|p pps IH]; intros h; [apply Rle_refl|].
  simpl. fold (clear_heap pps).
  eapply Rle_trans; [apply IH|].
  unfold variance. apply py_sum_imap_alter_le.
  intros v. simpl. rewrite Rmult_0_r.
  replace (0 * (0 * 1)) with 0 by ring.
  pose proof (pow2_ge_0 (derivatives x p * var_std_dev v)) as H.
  simpl in H. exact H.
Qed.

(** Objects on which a quantity does not depend do not count. *)
Lemma variance_app_supported (a b : heap) x :
  supported (length a) x -> variance (a ++ b) x = variance a x.
Proof.
  intros Hx. unfold variance. rewrite imap_app, py_sum_app.
  rewrite (py_sum_imap_zero _ b); [lra|].
  intros i v _. simpl. rewrite Hx by lia. ring.
Qed.

Lemma copied_ratios_below (h : heap) (interferences : ratios) :
  ratios_below (length (copy_heap (map_to_list interferences) h))
               (copied_ratios h interferences).
Proof. intros key l Hl. by eapply copied_ratios_bound. Qed.

(** The two variances of the F-ratios that [calculate_F] returns, in
    terms of the quantity [f] it has computed and of the heap in which it
    has computed it. *)
Lemma calculate_F_variances
    a40 a39 a38 a37 a36 decay_time interferences o fixed_k3739 h res hf :
  supported (length h) a40 -> supported (length h) a39 ->
  supported (length h) a38 -> supported (length h) a37 ->
  supported (length h) a36 ->
  value_supported (length h) fixed_k3739 ->
  calculate_F (a40, a39, a38, a37, a36) decay_time interferences o
              fixed_k3739 h
  = Ok res hf ->
  exists r,
    F_run_of a40 a39 a38 a37 a36 decay_time interferences o fixed_k3739 h
             r res hf
    /\ run_pr r = copied_ratios h (default ∅ interferences)
    /\ variance hf (rf res) = variance (run_h5 r) (run_f r)
    /\ variance hf (f_wo_irrad res)
       = variance (clear_heap (map snd (map_to_list (run_pr r))) (run_h5 r))
                  (run_f r).
Proof.
  intros H40 H39 H38 H37 H36 Hfixed E.
  apply calculate_F_inv in E as (r & Hrun).
  exists r. split; [exact Hrun|].
  destruct Hrun
    as (Ecopy & Ecorr & Eatm & Eget & (x & _ & Hatm40) & Hk40 & Hrad
        & Ef & Erp & -> & ->).
  rewrite copy_ratios_ok in Ecopy.
  set (ifs := default ∅ interferences) in *.
  fold (copied_ratios h ifs) in Ecopy.
  destruct r as [pr h1 k37 k38 k39 ca36 ca37 ca38 ca39 h2 atm36 cl36 h3
                 v4036 h4 atm40 k40 rad40 f h5 rp h6].
  simpl in *. injection Ecopy as <- <-.
  set (pr := copied_ratios h ifs) in *.
  set (h1 := copy_heap (map_to_list ifs) h) in *.
  assert (Hn1 : (length h <= length h1)%nat)
    by (unfold h1; rewrite copy_heap_length; lia).
  pose proof (copied_ratios_below h ifs) as Hpr. fold pr h1 in Hpr.
  lift Hn1.
  destruct (post_interference_corrections (length h1) a40 a39 a38 a37 a36 pr
              (Some (or_default o)) fixed_k3739 H39 H37 Hpr Hfixed
              h1 _ h2 (le_n _) Ecorr)
    as [Hn2 (_ & Hk38 & Hk39 & Hca36 & _ & Hca38 & _)].
  lift Hn2.
  destruct (post_calculate_atmospheric (length h2) a38 a36 k38 ca38 ca36
              decay_time pr (Some (or_default o)) H38 H36 Hk38 Hca38 Hca36 Hpr
              h2 _ h3 (le_n _) Eatm)
    as [Hn3 [Hatm36 _]].
  simpl in Hatm36. lift Hn3.
  destruct (post_appends (length h3) _ (appends_getattr (or_default o) "atm4036")
              h3 _ h4 (le_n _) Eget) as [Hn4 _].
  lift Hn4.
  assert (Hrad40 : supported (length h4) rad40).
  { rewrite Hrad, Hatm40, Hk40. auto 10 with py. }
  destruct (post_try_except (length h4) (udiv rad40 k39)
              catch_ZeroDivisionError (ufloat 1 0) supported
              (appends_udiv _ _) (post_udiv _ _ _ Hrad40 Hk39)
              (post_ufloat _ _ _) h4 f h5 (le_n _) Ef)
    as [Hn5 Hf].
  assert (Hh6 : exists t, h6 = (h5 ++ h5) ++ t).
  { destruct (rad40_percent_ok rad40 a40 (h5 ++ h5)) as (rp' & t & E').
    rewrite E' in Erp. injection Erp as _ <-. by exists t. }
  destruct Hh6 as [t ->].
  assert (Hpps : Forall (fun p => (p < length h5)%nat) (map snd (map_to_list pr))).
  { apply Forall_forall. intros l Hl.
    apply list_elem_of_fmap in Hl as ([key l'] & -> & Hin).
    apply elem_of_map_to_list in Hin. simpl.
    specialize (Hpr key l' Hin). lia. }
  split; [reflexivity|].
  split; [by apply variance_deepcopied_cleared|].
  rewrite <- app_assoc, clear_heap_app_l by exact Hpps.
  apply variance_app_supported. by rewrite clear_heap_length.
Qed.

(** X26.  Whenever [calculate_F] returns, for signals that depend on objects
    that exist before the call, the standard deviation of the F without
    the irradiation parameters is at most that of the F with them, in the
    heap that the call leaves; the two are equal when there are no
    interferences. *)
Theorem calculate_F_error_without_irradiation
    a40 a39 a38 a37 a36 decay_time interferences o fixed_k3739 h res hf :
  supported (length h) a40 -> supported (length h) a39 ->
  supported (length h) a38 -> supported (length h) a37 ->
  supported (length h) a36 ->
  value_supported (length h) fixed_k3739 ->
  calculate_F (a40, a39, a38, a37, a36) decay_time interferences o
              fixed_k3739 h
  = Ok res hf ->
  exists s_with s_without,
    std_dev (rf res) hf = Ok s_with hf
    /\ std_dev (f_wo_irrad res) hf = Ok s_without hf
    /\ s_without <= s_with
    /\ (default ∅ interferences = ∅ -> s_without = s_with).
Proof.
  intros H40 H39 H38 H37 H36 Hfixed E.
  destruct (calculate_F_variances a40 a39 a38 a37 a36 decay_time interferences
              o fixed_k3739 h res hf H40 H39 H38 H37 H36 Hfixed E)
    as (r & _ & Hpr & Hwith & Hwithout).
  eexists _, _. split; [reflexivity|]. split; [reflexivity|].
  rewrite Hwith, Hwithout. split.
  - apply sqrt_le_1_alt, variance_clear_heap_le.
  - intros Hempty. rewrite Hpr, Hempty. unfold copied_ratios.
    rewrite map_to_list_empty. reflexivity.
Qed.

(** Clearing an error that counts lowers the variance. *)
Lemma py_sum_imap_alter_lt (f : nat -> UVariable -> R) g l (h : heap) v :
  h !! l = Some v -> f l (g v) < f l v ->
  py_sum (imap f (alter g l h)) < py_sum (imap f h).
Proof.
  revert f l. induction h as [|a h IH]; intros f l Hl Hf; [done|].
  destruct l as [|l].
  - injection Hl as ->.
    change (alter g 0%nat (v :: h)) with (g v :: h).
    rewrite !imap_cons, !py_sum_cons. lra.
  - change (alter g (S l) (a :: h)) with (a :: alter g l h).
    rewrite !imap_cons, !py_sum_cons.
    pose proof (IH (f ∘ S) l Hl Hf). lra.
Qed.

Lemma variance_clear_strict l (h : heap) x v :
  h !! l = Some v -> derivatives x l * var_std_dev v <> 0 ->
  variance (clear_heap [l] h) x < variance h x.
Proof.
  intros Hl Hne. unfold variance, clear_heap. simpl fold_left.
  apply (py_sum_imap_alter_lt _ _ l h v Hl). simpl.
  rewrite Rmult_0_r. replace (0 * (0 * 1)) with 0 by ring.
  pose proof (Rsqr_pos_lt _ Hne) as H. unfold Rsqr in H. lra.
Qed.

Lemma example_interferences_items :
  map_to_list example_interferences = [("k4039"%string, 0%nat)].
Proof. apply map_to_list_singleton. Qed.

Lemma copied_irradiation_eq :
  copied_ratios irradiated_heap example_interferences = copied_irradiation.
Proof.
  unfold copied_ratios. rewrite example_interferences_items. simpl.
  unfold copied_irradiation. by rewrite insert_empty.
Qed.

Lemma copied_irradiation_ratio h key d :
  key <> "k4039"%string -> ratio h copied_irradiation key d = uconst d.
Proof.
  intros Hk. unfold ratio, copied_irradiation.
  by rewrite lookup_singleton_ne.
Qed.

Lemma copied_irradiation_k4039 h d :
  ratio h copied_irradiation "k4039" d = var_at h 6.
Proof. unfold ratio, copied_irradiation. by rewrite lookup_singleton. Qed.

Lemma udiv_derivatives x y q h h' l :
  udiv x y h = Ok q h' ->
  derivatives q l
  = derivatives x l / nominal_value y
    - nominal_value x * derivatives y l / (nominal_value y * nominal_value y).
Proof.
  unfold udiv. destruct (decide (nominal_value y = 0)); [done|].
  by intros [= <- _].
Qed.

Ltac supported_step :=
  first [ apply supported_usub | apply supported_umul | apply supported_uadd
        | apply supported_uconst | apply supported_py_max
        | apply supported_of_variable; simpl; lia
        | assumption ].

(** On the example with an uncertain 'k4039', the F without the
    irradiation parameters has the smaller variance. *)
Lemma irradiation_error_example :
  exists res hf,
    calculate_F irradiated_signals 0 (Some example_interferences)
                (Some (Configured example_constants)) (PyBool false)
                irradiated_heap
    = Ok res hf
    /\ variance hf (f_wo_irrad res) < variance hf (rf res).
Proof.
  pose proof (interference_corrections_iterative
                (of_variable 100 1) (of_variable 10 2) (of_variable 1 3)
                (of_variable 2 4) (of_variable 0.1 5)
                (copied_ratios irradiated_heap example_interferences)
                example_constants (PyBool false)
                (copy_heap (map_to_list example_interferences) irradiated_heap)
                eq_refl is_false_False) as Hcorr.
  rewrite copied_irradiation_eq, example_interferences_items in Hcorr.
  unfold iterative_corrections in Hcorr.
  cbv beta iota zeta delta [pass] in Hcorr.
  simpl allow_negative_ca_correction in Hcorr. cbv iota in Hcorr.
  rewrite !copied_irradiation_ratio in Hcorr by done.
  set (h1 := copy_heap [("k4039"%string, 0%nat)] irradiated_heap) in *.
  set (X := Nat.iter 4 (k37_after_pass (uconst 0) (uconst 0)
                          (of_variable 2 4) (of_variable 10 2))
                     (of_variable 0 (length h1))) in *.
  assert (HX : supported 10 X).
  { unfold X. cbv beta iota delta [Nat.iter nat_rect k37_after_pass pass snd].
    repeat supported_step. }
  clearbody X.
  set (k39 := usub (of_variable 10 2)
                   (umul (uconst 0) (usub (of_variable 2 4) X))) in *.
  assert (Hk39 : nominal_value k39 = 10) by (simpl; ring).
  assert (Dk39 : derivatives k39 6 = 0) by (simpl; ring).
  assert (Sk39 : supported 10 k39) by (unfold k39; repeat supported_step).
  assert (Hcopy : copy_ratios (default ∅ (Some example_interferences))
                              irradiated_heap
                  = Ok copied_irradiation h1).
  { rewrite copy_ratios_ok. simpl default.
    fold (copied_ratios irradiated_heap example_interferences).
    by rewrite copied_irradiation_eq, example_interferences_items. }
  destruct (calculate_F_run _ _ _ _ _ 0 (Some example_interferences)
              example_constants (PyBool false) irradiated_heap
              _ _ _ _ _ _ _ _ _ _ Hcopy Hcorr)
    as (f & res & t & Ef & Eres & Hrf & Hwo); [rewrite Hk39; lra|].
  set (h3 := ((h1 ++ [mkVariable 0 1e-20]) ++ [mkVariable 0 0])
               ++ [mkVariable 0 1e-20]) in *.
  exists res, (clear_heap (map snd (map_to_list copied_irradiation))
                 ((h3 ++ h3) ++ t)).
  split; [exact Eres|]. rewrite Hrf, Hwo.
  replace (map snd (map_to_list copied_irradiation)) with [6%nat]
    by (unfold copied_irradiation; by rewrite map_to_list_singleton).
  assert (Hpps : Forall (fun p => (p < length h3)%nat) [6%nat])
    by (repeat constructor; simpl; lia).
  rewrite variance_deepcopied_cleared by exact Hpps.
  rewrite <- app_assoc, clear_heap_app_l by exact Hpps.
  rewrite copied_irradiation_k4039 in Ef.
  unfold atmospheric in Ef. cbv beta iota zeta delta [atm_pass fst] in Ef.
  rewrite !copied_irradiation_ratio in Ef by done.
  match type of Ef with
  | context [Nat.iter 4 ?g ?x] => set (Y := Nat.iter 4 g x) in Ef
  end.
  assert (HY : supported 10 Y).
  { unfold Y.
    cbv beta iota delta [Nat.iter nat_rect snd].
    repeat supported_step. }
  clearbody Y.
  match type of Ef with
  | udiv ?r _ _ = _ => set (rad40 := r) in Ef
  end.
  assert (Srad : supported 10 rad40).
  { unfold rad40, var_at. repeat supported_step. }
  assert (Drad : derivatives rad40 6 = -10).
  { unfold rad40, var_at. simpl. ring. }
  destruct (supported_udiv 10 _ _ _ _ _ Srad Sk39 Ef) as [_ Sf].
  rewrite variance_app_supported by (by rewrite clear_heap_length).
  apply (variance_clear_strict 6 h3 f (mkVariable 0.01 0.001));
    [reflexivity|].
  rewrite (udiv_derivatives _ _ _ _ _ 6 Ef), Drad, Dk39, Hk39. simpl.
  intros H. field_simplify in H. lra.
Qed.

Lemma calculate_F_error_without_irradiation_witness :
  exists res hf s_with s_without,
    calculate_F irradiated_signals 0 (Some example_interferences)
                (Some (Configured example_constants)) (PyBool false)
                irradiated_heap
    = Ok res hf
    /\ std_dev (rf res) hf = Ok s_with hf
    /\ std_dev (f_wo_irrad res) hf = Ok s_without hf
    /\ s_without <= s_with
    /\ (default ∅ (Some example_interferences) = ∅ -> s_without = s_with)
    /\ s_without < s_with.
Proof.
  destruct irradiation_error_example as (res & hf & E & Hlt).
  destruct (calculate_F_error_without_irradiation
              (of_variable 100 1) (of_variable 10 2) (of_variable 1 3)
              (of_variable 2 4) (of_variable 0.1 5)
              0 (Some example_interferences)
              (Some (Configured example_constants)) (PyBool false)
              irradiated_heap res hf)
    as (s_with & s_without & Hw & Hwo & Hle & Heq);
    [apply supported_of_variable; simpl; lia ..
    | discriminate | exact E |].
  exists res, hf, s_with, s_without.
  split; [exact E|]. split; [exact Hw|]. split; [exact Hwo|].
  split; [exact Hle|]. split; [exact Heq|].
  injection Hw as <-. injection Hwo as <-.
  apply sqrt_lt_1_alt. split; [apply variance_nonneg | exact Hlt].
Defined.

(** ** calculate_F without interferences *)

Lemma ratio_nominal_empty h key d : ratio_nominal h ∅ key d = d.
Proof. unfold ratio_nominal. by rewrite lookup_empty. Qed.

(** X27.  Without a dictionary of interferences, in iterative mode,
    [calculate_F] returns [(a40 - atm4036 * a36) / a39 - 1] for a 39Ar
    signal that is not zero: a missing 'k4039' counts as 1, not as 0,
    and the other missing ratios as 0. *)
Theorem calculate_F_without_interferences
    a40 a39 a38 a37 a36 decay_time c fixed_k3739 h :
  lower (k3739_mode c) = "normal"%string ->
  is_false fixed_k3739 ->
  nominal_value a39 <> 0 ->
  exists res hf,
    calculate_F (a40, a39, a38, a37, a36) decay_time None
                (Some (Configured c)) fixed_k3739 h
    = Ok res hf
    /\ nominal_value (rf res)
       = (nominal_value a40 - nominal_value (atm4036 c) * nominal_value a36)
         / nominal_value a39 - 1.
Proof.
  intros Hmode Hfixed Ha39.
  destruct (interference_corrections_heap a40 a39 a38 a37 a36 ∅ c fixed_k3739
              h (ratios_wf_empty h) Hmode Hfixed)
    as (k37 & k38 & k39 & ca36 & ca37 & ca38 & ca39 & Erun & Eit).
  pose proof (iterative_corrections_nominal h ∅
                (allow_negative_ca_correction c) a39 a37 (ratios_wf_empty h))
    as Hvals.
  rewrite Eit in Hvals. cbv zeta in Hvals.
  rewrite !ratio_nominal_empty in Hvals.
  destruct Hvals as (_ & Vk39 & _ & _ & _ & Vca36 & _).
  change (s_k39 (fixed_point_iteration ?a ?b ?c ?d 5))
    with (d - a * (c - s_k37 (fixed_point_iteration a b c d 4))) in Vk39.
  assert (Vk39' : nominal_value k39 = nominal_value a39)
    by (rewrite Vk39; ring).
  destruct (calculate_F_value a40 a39 a38 a37 a36 decay_time None
              c fixed_k3739 h ∅ h k37 k38 k39 ca36 ca37 ca38 ca39 _
              (copy_ratios_empty h) Erun)
    as (res & hf & Eres & HF); [by rewrite Vk39'|].
  exists res, hf. split; [exact Eres|]. rewrite HF.
  rewrite atmospheric_no_chlorine by (by rewrite ratio_empty).
  rewrite ratio_empty, Vca36, Vk39'. simpl. field. exact Ha39.
Qed.

Lemma calculate_F_without_interferences_witness :
  exists res hf,
    calculate_F (uconst 100, uconst 10, uconst 1, uconst 2, uconst 0.1) 0 None
                (Some (Configured example_constants)) (PyBool false) []
    = Ok res hf
    /\ nominal_value (rf res)
       = (nominal_value (uconst 100)
          - nominal_value (atm4036 example_constants)
            * nominal_value (uconst 0.1))
         / nominal_value (uconst 10) - 1.
Proof.
  apply (calculate_F_without_interferences
           (uconst 100) (uconst 10) (uconst 1) (uconst 2) (uconst 0.1) 0
           example_constants (PyBool false) []).
  - reflexivity.
  - apply is_false_False.
  - simpl. lra.
Defined.
